(** * Content_gen: the WordPress publishing adapter and the content agent

    A shallow embedding of [src/main.py]: the class [AdvancedPublisher]
    ([setup_wordpress], [_get_api_url], [test_wordpress_connection],
    [_get_terms_robust], [upload_image_to_wordpress], [publish_to_wordpress]),
    the connection-button and publish-button handlers of [main], and of
    [CompleteAIContentAgent] the functions [parse_project_files],
    [call_gemini_api], [setup_gemini], [generate_project_files],
    [generate_enhanced_content], [extract_title_from_content] and the file
    name of [save_markdown_file].

    Python dictionaries are finite maps ([gmap]), decoded JSON is an inductive
    type, the network and the Streamlit console are explicit state: every
    request that is sent is appended to a log and answered by an oracle, every
    [st.warning]/[st.error] is appended to a console log.  Python exceptions
    are values of an error monad, with [try]/[except] as a combinator.

    Strings are sequences of characters with code points below 256; on those,
    [lower], [strip] and the regular-expression class [\s] below are Python's. *)

From Stdlib Require Import ZArith Ascii String List Bool Lia.
From stdpp Require Import base option gmap strings list pretty.

Set Warnings "-register-all".

Local Open Scope string_scope.
Local Open Scope Z_scope.

(** ** Python strings *)

Module PyStr.

Definition code (c : ascii) : N := N_of_ascii c.

(** [str.lower] on one character: A-Z, and the Latin-1 capitals
    U+00C0..U+00DE except the multiplication sign U+00D7. *)
Definition lower_char (c : ascii) : ascii :=
  let n := code c in
  if ((65 <=? n) && (n <=? 90))%N then ascii_of_N (n + 32)
  else if ((192 <=? n) && (n <=? 222) && negb (n =? 215))%N then ascii_of_N (n + 32)
  else c.

Fixpoint lower (s : string) : string :=
  match s with
  | EmptyString => EmptyString
  | String c r => String (lower_char c) (lower r)
  end.

(** [str.isspace] on one character. *)
Definition is_space (c : ascii) : bool :=
  let n := code c in
  (((9 <=? n) && (n <=? 13)) || ((28 <=? n) && (n <=? 32)) || (n =? 133) || (n =? 160))%N.

Fixpoint lstrip (s : string) : string :=
  match s with
  | String c r => if is_space c then lstrip r else s
  | EmptyString => EmptyString
  end.

(** Drop the trailing characters that satisfy [p]. *)
Fixpoint rstrip_by (p : ascii -> bool) (s : string) : string :=
  match s with
  | EmptyString => EmptyString
  | String c r =>
      match rstrip_by p r with
      | EmptyString => if p c then EmptyString else String c EmptyString
      | r' => String c r'
      end
  end.

Definition rstrip : string -> string := rstrip_by is_space.
Definition strip (s : string) : string := rstrip (lstrip s).

(** [s.rstrip('/')] *)
Definition rstrip_slash : string -> string :=
  rstrip_by (fun c => if ascii_dec c "/" then true else false).

Fixpoint startswith (p s : string) : bool :=
  match p, s with
  | EmptyString, _ => true
  | String a p', String b s' => if ascii_dec a b then startswith p' s' else false
  | String _ _, EmptyString => false
  end.

Definition endswith (p s : string) : bool :=
  startswith (String.rev p) (String.rev s).

(** [p in s] *)
Fixpoint contains (p s : string) : bool :=
  startswith p s ||
  match s with
  | EmptyString => false
  | String _ r => contains p r
  end.

Fixpoint drop (n : nat) (s : string) : string :=
  match n, s with
  | O, _ => s
  | S n', String _ r => drop n' r
  | S _, EmptyString => EmptyString
  end.

(** [s.replace(old, new)] for a non-empty [old]: the occurrences are
    replaced from left to right, without overlap. *)
Fixpoint replace_go (fuel : nat) (old new s : string) : string :=
  match fuel with
  | O => s
  | S fuel' =>
      match s with
      | EmptyString => EmptyString
      | String c r =>
          if startswith old s
          then new ++ replace_go fuel' old new (drop (String.length old) s)
          else String c (replace_go fuel' old new r)
      end
  end.

Definition replace (old new s : string) : string :=
  replace_go (String.length s) old new s.

(** [sep.join(l)] *)
Fixpoint join (sep : string) (l : list string) : string :=
  match l with
  | [] => ""
  | [x] => x
  | x :: r => x ++ sep ++ join sep r
  end.

(** [s.split('\n')] *)
Fixpoint split_lines_go (cur : string) (s : string) : list string :=
  match s with
  | EmptyString => [String.rev cur]
  | String c r =>
      if ascii_dec c "010" then String.rev cur :: split_lines_go "" r
      else split_lines_go (String c cur) r
  end.

Definition split_lines : string -> list string := split_lines_go "".

(** [str(n)] for an integer *)
Definition of_int (n : Z) : string := pretty n.

End PyStr.

(** ** Decoded JSON

    What [response.json()] returns.  An object is kept as the list of its
    members, looked up by key.  The numbers are the integers: identifiers and
    status fields are all the code reads. *)

Inductive json : Type :=
| JNull
| JBool (b : bool)
| JInt (n : Z)
| JStr (s : string)
| JList (items : list json)
| JObj (members : list (string * json)).

Fixpoint assoc {A : Type} (k : string) (l : list (string * A)) : option A :=
  match l with
  | [] => None
  | (k', v) :: r => if String.eqb k k' then Some v else assoc k r
  end.

(** Python truth value of a decoded JSON value ([if v:]). *)
Definition truthy (v : json) : bool :=
  match v with
  | JNull => false
  | JBool b => b
  | JInt n => negb (n =? 0)
  | JStr s => negb (String.eqb s "")
  | JList l => match l with [] => false | _ => true end
  | JObj l => match l with [] => false | _ => true end
  end.

(** ** Exceptions *)

Inductive exn_class : Type :=
| Timeout                  (* requests.exceptions.Timeout *)
| RequestException         (* the other requests.exceptions.RequestException *)
| RequestsJSONDecodeError  (* requests.exceptions.JSONDecodeError: both a
                              RequestException and a json.JSONDecodeError *)
| JSONDecodeError          (* json.JSONDecodeError *)
| KeyError
| ValueError
| TypeError
| AttributeError
| OtherException.

(** An exception: its class and [str(e)]. *)
Record exn : Type := Exn { exn_kind : exn_class; exn_str : string }.

Definition is_timeout (e : exn) : bool :=
  match exn_kind e with Timeout => true | _ => false end.

Definition is_request_exception (e : exn) : bool :=
  match exn_kind e with
  | Timeout | RequestException | RequestsJSONDecodeError => true
  | _ => false
  end.

Definition is_json_decode_error (e : exn) : bool :=
  match exn_kind e with
  | RequestsJSONDecodeError | JSONDecodeError => true
  | _ => false
  end.

Inductive outcome (A : Type) : Type :=
| Return (a : A)
| Raise (e : exn).
Arguments Return {A} a.
Arguments Raise {A} e.

(** [d[k]] on a decoded JSON value.  Only a [dict] takes a string key; the
    text of the interpreter's [TypeError] varies with the type of [v], one
    text stands for all of them here. *)
Definition getitem (v : json) (k : string) : outcome json :=
  match v with
  | JObj l =>
      match assoc k l with
      | Some x => Return x
      | None => Raise (Exn KeyError ("'" ++ k ++ "'"))
      end
  | _ => Raise (Exn TypeError "object is not subscriptable by a string key")
  end.

(** [d.get(k, default)] on a decoded JSON value: only a [dict] has [get]. *)
Definition get_default (v : json) (k : string) (dflt : json) : outcome json :=
  match v with
  | JObj l => Return (default dflt (assoc k l))
  | _ => Raise (Exn AttributeError "object has no attribute 'get'")
  end.

(** ** HTTP *)

Inductive http_method : Type := GET | POST.

Inductive payload : Type :=
| NoBody
| JsonBody (d : gmap string json)   (* requests.post(..., json=d) *)
| DataBody (bytes : string).        (* requests.post(..., data=bytes) *)

Record request : Type := Request {
  req_method : http_method;
  req_url : string;
  req_headers : gmap string string;
  req_body : payload;
  req_timeout : Z
}.

(** A response: [status_code], [text], and what [json()] does on it. *)
Record response : Type := Response {
  status_code : Z;
  text : string;
  json_body : outcome json
}.

(** ** The publisher's configuration

    [self.wordpress_config] is the empty dictionary until [setup_wordpress]
    stores one of two shapes in it. *)

Inductive wp_config : Type :=
| WpCom (site_url site_domain username password api_base : string)
        (headers : gmap string string)
| SelfHosted (site_url username password : string)
             (use_query_params : option bool)   (* None, True or False *)
             (headers : gmap string string).

Definition is_wpcom (c : wp_config) : bool :=
  match c with WpCom _ _ _ _ _ _ => true | SelfHosted _ _ _ _ _ => false end.

Definition site_url (c : wp_config) : string :=
  match c with WpCom u _ _ _ _ _ => u | SelfHosted u _ _ _ _ => u end.

Definition headers (c : wp_config) : gmap string string :=
  match c with WpCom _ _ _ _ _ h => h | SelfHosted _ _ _ _ h => h end.

Definition use_query_params (c : wp_config) : option bool :=
  match c with WpCom _ _ _ _ _ _ => None | SelfHosted _ _ _ q _ => q end.

(** [self.wordpress_config['use_query_params'] = b] *)
Definition set_use_query_params (b : bool) (c : wp_config) : wp_config :=
  match c with
  | SelfHosted u n p _ h => SelfHosted u n p (Some b) h
  | WpCom _ _ _ _ _ _ => c
  end.

(** A term of the session cache: [{'id': ..., 'name': ...}]. *)
Record term : Type := Term { term_id : json; term_name : json }.

(** ** The world: publisher, session, network log and console *)

Inductive level : Type := StWarning | StError | StSuccess | StInfo.

Record world : Type := World {
  wordpress_config : option wp_config;      (* None: the empty dictionary *)
  wp_all_categories : option (list term);   (* st.session_state entries *)
  wp_all_tags : option (list term);
  sent : list request;                      (* requests issued, oldest first *)
  console : list (level * string)           (* st.* calls, oldest first *)
}.

Definition M (A : Type) : Type := world -> outcome A * world.

#[global] Instance M_ret : MRet M := fun A a w => (Return a, w).

#[global] Instance M_bind : MBind M := fun A B f m w =>
  match m w with
  | (Return a, w') => f a w'
  | (Raise e, w') => (Raise e, w')
  end.

Definition raise {A : Type} (e : exn) : M A := fun w => (Raise e, w).

(** Lift a computation that only returns or raises. *)
Definition lift {A : Type} (o : outcome A) : M A := fun w => (o, w).

(** [try: m  except ...: h e] with a handler for every exception. *)
Definition try_except {A : Type} (m : M A) (h : exn -> M A) : M A := fun w =>
  match m w with
  | (Return a, w') => (Return a, w')
  | (Raise e, w') => h e w'
  end.

Definition get_world : M world := fun w => (Return w, w).

Definition get_config : M (option wp_config) := fun w => (Return (wordpress_config w), w).

Definition put_config (c : option wp_config) : M unit := fun w =>
  (Return tt, World c (wp_all_categories w) (wp_all_tags w) (sent w) (console w)).

Definition st (l : level) (msg : string) : M unit := fun w =>
  (Return tt, World (wordpress_config w) (wp_all_categories w) (wp_all_tags w)
                    (sent w) (console w ++ [(l, msg)])).

(** The result dictionaries of the publisher's operations. *)
Definition failure (msg : string) : gmap string json :=
  {[ "success" := JBool false; "error" := JStr msg ]}.

Definition modify_config (f : wp_config -> wp_config) : M unit := fun w =>
  (Return tt, World (f <$> wordpress_config w) (wp_all_categories w) (wp_all_tags w)
                    (sent w) (console w)).

(** [d[k]] on a result dictionary. *)
Definition dict_item (d : gmap string json) (k : string) : outcome json :=
  match d !! k with
  | Some v => Return v
  | None => Raise (Exn KeyError ("'" ++ k ++ "'"))
  end.

(** Truth value of an optional list argument ([if tags:]). *)
Definition nonempty {A : Type} (l : option (list A)) : bool :=
  match l with
  | Some (_ :: _) => true
  | _ => false
  end.

Definition dquote : string := String "034" "".

(** ** Base64 of the UTF-8 encoding, for the Basic credentials *)

Module Base64.

Fixpoint utf8 (s : string) : list N :=
  match s with
  | EmptyString => []
  | String c r =>
      let n := N_of_ascii c in
      if (n <? 128)%N then n :: utf8 r
      else (192 + n / 64)%N :: (128 + n mod 64)%N :: utf8 r
  end.

Definition alphabet : string :=
  "ABCDEFGHIJKLMNOPQRSTUVWXYZabcdefghijklmnopqrstuvwxyz0123456789+/".

Definition digit (n : N) : string :=
  match String.get (N.to_nat n) alphabet with
  | Some c => String c ""
  | None => "="
  end.

Fixpoint encode (bytes : list N) : string :=
  match bytes with
  | a :: b :: c :: r =>
      let n := (a * 65536 + b * 256 + c)%N in
      digit (n / 262144) ++ digit ((n / 4096) mod 64) ++
      digit ((n / 64) mod 64) ++ digit (n mod 64) ++ encode r
  | [a; b] =>
      let n := (a * 65536 + b * 256)%N in
      digit (n / 262144) ++ digit ((n / 4096) mod 64) ++ digit ((n / 64) mod 64) ++ "="
  | [a] =>
      let n := (a * 65536)%N in
      digit (n / 262144) ++ digit ((n / 4096) mod 64) ++ "=="
  | [] => ""
  end.

(** [base64.b64encode(s.encode()).decode()] *)
Definition b64encode (s : string) : string := encode (utf8 s).

End Base64.

(** The calls a session makes after the connection test. *)
Inductive call : Type :=
| GetApiUrl (endpoint : string)
| FetchTerms (term_type : string)
| UploadImage (image_data filename mime_type : string)
| Publish (title content status : string) (categories tags : option (list string))
          (featured_image_id : option json).

(** ** class AdvancedPublisher *)

Section AdvancedPublisher.

(** The network: the answer to a request, given the requests sent before
    it.  [requests.get]/[requests.post] return a response or raise. *)
Variable net : list request -> request -> outcome response.

(** Python's [str()] on a decoded JSON value, as an f-string applies it. *)
Variable py_str : json -> string.

(** [markdown.markdown(content, extensions=['codehilite', 'fenced_code'])] *)
Variable markdown : string -> string.

Definition send (q : request) : M response := fun w =>
  (net (sent w) q,
   World (wordpress_config w) (wp_all_categories w) (wp_all_tags w)
         (sent w ++ [q]) (console w)).

Definition requests_get (url : string) (hdrs : gmap string string) (timeout : Z)
  : M response :=
  send (Request GET url hdrs NoBody timeout).

Definition requests_post_json (url : string) (d : gmap string json)
    (hdrs : gmap string string) (timeout : Z) : M response :=
  send (Request POST url hdrs (JsonBody d) timeout).

Definition requests_post_data (url : string) (hdrs : gmap string string)
    (data : string) (timeout : Z) : M response :=
  send (Request POST url hdrs (DataBody data) timeout).

Definition setup_wordpress (site_url username password : string) : M unit :=
  let is_wpcom := PyStr.contains "wordpress.com" (PyStr.lower site_url) in
  if is_wpcom then
    let site_domain :=
      PyStr.rstrip_slash
        (PyStr.replace "http://" "" (PyStr.replace "https://" "" site_url)) in
    put_config (Some (WpCom
      (PyStr.rstrip_slash site_url) site_domain username password
      ("https://public-api.wordpress.com/rest/v1.1/sites/" ++ site_domain)
      {[ "Content-Type" := "application/json";
         "Authorization" := "Bearer " ++ password ]}))
  else
    put_config (Some (SelfHosted
      (PyStr.rstrip_slash site_url) username password None
      {[ "Content-Type" := "application/json";
         "Authorization" :=
           "Basic " ++ Base64.b64encode (username ++ ":" ++ password) ]})).

(** The URL of an endpoint under a given configuration. *)
Definition api_url_of (cfg : option wp_config) (endpoint : string) : outcome string :=
  match cfg with
  | None => Raise (Exn ValueError "WordPress configuration not set.")
  | Some (WpCom _ _ _ _ api_base _) => Return (api_base ++ endpoint)
  | Some (SelfHosted site_url _ _ q _) =>
      match q with
      | Some true => Return (site_url ++ "/?rest_route=" ++ endpoint)
      | _ => Return (site_url ++ "/wp-json" ++ endpoint)
      end
  end.

Definition _get_api_url (endpoint : string) : M string :=
  cfg ← get_config;
  lift (api_url_of cfg endpoint).

Definition auth_failed : string :=
  "Authentication failed. Please check your username and application password.".

(** The final [return] of the self-hosted branch of the connection test. *)
Definition api_error (response : response) : gmap string json :=
  failure ("WordPress API error: " ++ PyStr.of_int (status_code response) ++ " - "
           ++ text response
           ++ ". Check if REST API is enabled and credentials are correct.").

Definition connected (message : string) : gmap string json :=
  {[ "success" := JBool true; "message" := JStr message ]}.

(** The [except] clauses of [test_wordpress_connection]. *)
Definition test_except (e : exn) : M (gmap string json) :=
  if is_timeout e then
    mret (failure "Connection timed out. Please check the URL and your network connection.")
  else if is_request_exception e then
    mret (failure ("Network error or invalid URL: " ++ exn_str e))
  else mret (failure (exn_str e)).

Definition test_wordpress_connection : M (gmap string json) :=
  cfg ← get_config;
  match cfg with
  | None => mret (failure "WordPress not configured")
  | Some c =>
      try_except
        (if is_wpcom c then
           url ← _get_api_url "/";
           response ← requests_get url (headers c) 10;
           if status_code response =? 200 then
             site_data ← lift (json_body response);
             name ← lift (get_default site_data "name" (JStr "Unknown"));
             mret (connected ("Connected to WordPress.com site: " ++ py_str name))
           else if status_code response =? 403 then
             mret (failure "WordPress.com site is private or in Coming Soon mode. Please make your site public first.")
           else
             mret (failure ("WordPress.com API error: "
                            ++ PyStr.of_int (status_code response) ++ " - "
                            ++ text response))
         else
           let headers_to_use := <[ "Accept" := "application/json" ]> (headers c) in
           pretty_url ← _get_api_url "/wp/v2/users/me";
           response ← requests_get pretty_url headers_to_use 10;
           if status_code response =? 404 then
             let fallback_url := site_url c ++ "/?rest_route=/wp/v2/users/me" in
             response ← requests_get fallback_url headers_to_use 10;
             if status_code response =? 200 then
               user_data ← lift (json_body response);
               modify_config (set_use_query_params true);;
               name ← lift (get_default user_data "name" (JStr "Unknown"));
               mret (connected ("Connected as " ++ py_str name
                                ++ " (using query parameter format)"))
             else if status_code response =? 401 then
               mret (failure auth_failed)
             else mret (api_error response)
           else if status_code response =? 200 then
             user_data ← lift (json_body response);
             modify_config (set_use_query_params false);;
             name ← lift (get_default user_data "name" (JStr "Unknown"));
             mret (connected ("Connected as " ++ py_str name))
           else if status_code response =? 401 then
             mret (failure auth_failed)
           else mret (api_error response))
        test_except
  end.

(** *** _get_terms_robust *)

(** [for term in terms_data]: what iterating a decoded JSON value yields. *)
Definition iter_json (v : json) : outcome (list json) :=
  match v with
  | JList l => Return l
  | JObj l => Return (map (fun kv => JStr (fst kv)) l)
  | JStr s => Return (map (fun c => JStr (String c "")) (list_ascii_of_string s))
  | _ => Raise (Exn TypeError "object is not iterable")
  end.

(** [{'id': term['id'], 'name': term['name']}] *)
Definition term_of (t : json) : outcome term :=
  match getitem t "id" with
  | Raise e => Raise e
  | Return i =>
      match getitem t "name" with
      | Raise e => Raise e
      | Return n => Return (Term i n)
      end
  end.

(** The loop over [terms_data]: the local [terms_list] when the loop ends,
    and the exception that ended it, if one did. *)
Fixpoint append_terms (terms_list : list term) (items : list json)
  : list term * option exn :=
  match items with
  | [] => (terms_list, None)
  | t :: r =>
      match term_of t with
      | Return x => append_terms (terms_list ++ [x]) r
      | Raise e => (terms_list, Some e)
      end
  end.

(** The 200 branch: decode, iterate, collect. *)
Definition terms_of_response (response : response) : list term * option exn :=
  match json_body response with
  | Raise e => ([], Some e)
  | Return terms_data =>
      match iter_json terms_data with
      | Raise e => ([], Some e)
      | Return items => append_terms [] items
      end
  end.

(** The [except] clauses of [_get_terms_robust]; [response] is [None] while
    the local variable is unbound, [terms_list] is the list collected so far.
    The last clause does not return: control reaches [return terms_list]. *)
Definition terms_except (term_type : string) (response : option response)
    (terms_list : list term) (e : exn) : M (list term) :=
  if is_timeout e then
    st StError ("Timed out fetching " ++ term_type
                ++ ". Check network or site responsiveness.");;
    mret []
  else if is_request_exception e then
    st StError ("Network error fetching " ++ term_type ++ ": " ++ exn_str e);;
    mret []
  else if is_json_decode_error e then
    match response with
    | Some r =>
        st StError ("Failed to decode JSON from " ++ term_type ++ " response: "
                    ++ text r);;
        mret []
    | None => raise (Exn OtherException "cannot access local variable 'response'")
    end
  else
    st StError ("Error processing " ++ term_type ++ " data: " ++ exn_str e);;
    mret terms_list.

Definition _get_terms_robust (term_type : string) : M (list term) :=
  cfg ← get_config;
  if match cfg with Some c => is_wpcom c | None => false end then
    st StWarning ("Fetching " ++ term_type
                  ++ " list is not fully supported for WordPress.com via this API configuration.");;
    mret []
  else
    hdrs ← match cfg with
           | Some c => mret (headers c)
           | None => raise (Exn KeyError "'headers'")
           end;
    let headers_to_use := <[ "Accept" := "application/json" ]> hdrs in
    let endpoint := "/wp/v2/" ++ term_type in
    api_url ← _get_api_url endpoint;
    try_except
      (response ← requests_get api_url headers_to_use 10;
       if status_code response =? 200 then
         match terms_of_response response with
         | (terms_list, None) => mret terms_list
         | (terms_list, Some e) => terms_except term_type (Some response) terms_list e
         end
       else
         st StError ("Failed to fetch " ++ term_type ++ " from " ++ api_url ++ ": "
                     ++ PyStr.of_int (status_code response) ++ " - " ++ text response);;
         mret [])
      (terms_except term_type None []).

Definition fetch_categories : M (list term) := _get_terms_robust "categories".
Definition fetch_tags : M (list term) := _get_terms_robust "tags".

(** *** upload_image_to_wordpress *)

Definition upload_except (e : exn) : M (gmap string json) :=
  if is_timeout e then
    mret (failure "Image upload timed out. The WordPress site might be slow or unreachable.")
  else if is_request_exception e then
    mret (failure ("Network error during image upload: " ++ exn_str e))
  else mret (failure ("Unexpected error during image upload: " ++ exn_str e)).

(** The headers of the media request: a copy of the shared ones, updated. *)
Definition media_headers (hdrs : gmap string string) (filename mime_type : string)
  : gmap string string :=
  <[ "Content-Disposition" := "attachment; filename=" ++ dquote ++ filename ++ dquote ]>
    (<[ "Content-Type" := mime_type ]> hdrs).

(** The result of a successful upload. *)
Definition uploaded (media_id media_url : json) (filename : string)
  : gmap string json :=
  {[ "success" := JBool true;
     "media_id" := media_id;
     "media_url" := media_url;
     "message" := JStr ("Image '" ++ filename
                        ++ "' uploaded successfully to media library.") ]}.

Definition upload_image_to_wordpress (image_data filename mime_type : string)
  : M (gmap string json) :=
  cfg ← get_config;
  match cfg with
  | None => mret (failure "WordPress not configured")
  | Some c =>
      if is_wpcom c then
        st StWarning "WordPress.com image upload is more complex and not fully implemented for direct file upload in this version.";;
        mret (failure "WordPress.com image upload not fully supported in this version. Try self-hosted WP.")
      else
        try_except
          (media_api_url ← _get_api_url "/wp/v2/media";
           let headers_to_use := media_headers (headers c) filename mime_type in
           response ← requests_post_data media_api_url headers_to_use image_data 30;
           if status_code response =? 201 then
             media_info ← lift (json_body response);
             media_id ← lift (getitem media_info "id");
             media_url ← lift (getitem media_info "source_url");
             mret (uploaded media_id media_url filename)
           else
             mret (failure ("Image upload failed: "
                            ++ PyStr.of_int (status_code response) ++ " - "
                            ++ text response)))
          upload_except
  end.

(** *** publish_to_wordpress *)

(** [[t['id'] for t in all_existing if t['name'].lower() in
      [n.lower() for n in names]]]: a name that is not a string has no
    [lower]. *)
Fixpoint select_term_ids (names : list string) (all_existing : list term)
  : outcome (list json) :=
  match all_existing with
  | [] => Return []
  | t :: r =>
      match term_name t with
      | JStr name =>
          match select_term_ids names r with
          | Return ids =>
              Return (if bool_decide (PyStr.lower name ∈ map PyStr.lower names)
                      then term_id t :: ids else ids)
          | Raise e => Raise e
          end
      | _ => Raise (Exn AttributeError "object has no attribute 'lower'")
      end
  end.

Definition none_found (kind names tail : string) : string :=
  "None of the specified " ++ kind ++ " (" ++ names
  ++ ") were found or selected. " ++ tail.

(** One of the two [if categories:] / [if tags:] blocks of the self-hosted
    branch: [key] is the payload field, [cache] the session entry. *)
Definition add_terms (key : string) (names : option (list string))
    (cache : option (list term)) (tail : string)
    (post_data : gmap string json) : M (gmap string json) :=
  if nonempty names then
    let names := default [] names in
    let all_existing := default [] cache in
    selected_ids ← lift (select_term_ids names all_existing);
    match selected_ids with
    | _ :: _ => mret (<[ key := JList selected_ids ]> post_data)
    | [] =>
        st StWarning (none_found key (PyStr.join ", " names) tail);;
        mret post_data
    end
  else mret post_data.

Definition publish_except (e : exn) : M (gmap string json) :=
  if is_timeout e then
    mret (failure "WordPress publishing timed out. The WordPress site might be slow or unreachable.")
  else if is_request_exception e then
    mret (failure ("Network error during WordPress publishing: " ++ exn_str e))
  else mret (failure ("WordPress publishing error: " ++ exn_str e)).

Definition edit_url (c : wp_config) (post_id : json) : string :=
  site_url c ++ "/wp-admin/post.php?post=" ++ py_str post_id ++ "&action=edit".

Definition categories_unsupported : string :=
  "Categories not directly supported for WordPress.com via this API version's post creation. Post will be uncategorized or default.".

(** [post_data] as it is built before the two branches: the four fixed
    fields, and [featured_media] under [if featured_image_id:]. *)
Definition initial_post_data (title html_content status : string)
    (featured_image_id : option json) : gmap string json :=
  let post_data : gmap string json :=
    {[ "title" := JStr title; "content" := JStr html_content;
       "status" := JStr status; "format" := JStr "standard" ]} in
  match featured_image_id with
  | Some v => if truthy v then <[ "featured_media" := v ]> post_data else post_data
  | None => post_data
  end.

Definition publish_to_wordpress (title content status : string)
    (categories tags : option (list string)) (featured_image_id : option json)
  : M (gmap string json) :=
  cfg ← get_config;
  match cfg with
  | None => mret (failure "WordPress not configured")
  | Some c =>
      let html_content := markdown content in
      try_except
        (let post_data := initial_post_data title html_content status featured_image_id in
         if is_wpcom c then
           let post_data :=
             if nonempty tags
             then <[ "tags" := JStr (PyStr.join "," (default [] tags)) ]> post_data
             else post_data in
           (if nonempty categories then st StWarning categories_unsupported
            else mret tt);;
           url ← _get_api_url "/posts/new";
           response ← requests_post_json url post_data (headers c) 30;
           if status_code response =? 200 then
             post_info ← lift (json_body response);
             post_id ← lift (getitem post_info "ID");
             url ← lift (getitem post_info "URL");
             post_id' ← lift (getitem post_info "ID");
             mret ({[ "success" := JBool true;
                      "post_id" := post_id;
                      "url" := url;
                      "edit_url" := JStr (edit_url c post_id');
                      "message" := JStr ("Post published successfully to WordPress.com (Status: "
                                         ++ status ++ ")") ]} : gmap string json)
           else
             mret (failure ("WordPress.com API error: "
                            ++ PyStr.of_int (status_code response) ++ " - "
                            ++ text response))
         else
           w ← get_world;
           post_data ← add_terms "categories" categories (wp_all_categories w)
                         "Post will be uncategorized or default." post_data;
           post_data ← add_terms "tags" tags (wp_all_tags w)
                         "Post will be published without specified tags." post_data;
           api_url ← _get_api_url "/wp/v2/posts";
           response ← requests_post_json api_url post_data (headers c) 30;
           if status_code response =? 201 then
             post_info ← lift (json_body response);
             post_id ← lift (getitem post_info "id");
             url ← lift (getitem post_info "link");
             post_id' ← lift (getitem post_info "id");
             mret ({[ "success" := JBool true;
                      "post_id" := post_id;
                      "url" := url;
                      "edit_url" := JStr (edit_url c post_id');
                      "message" := JStr ("Post published successfully to WordPress (Status: "
                                         ++ status ++ ")") ]} : gmap string json)
           else
             mret (failure ("WordPress API error: "
                            ++ PyStr.of_int (status_code response) ++ " - "
                            ++ text response)))
        publish_except
  end.

(** *** The publish button of [main]

    The body of [if st.button("Publish Post to WordPress")] down to the call
    of [publish_to_wordpress], whose result it returns ([None] when the
    session is not configured).  The two icons that start the console
    messages are characters outside the modelled range. *)
Variable icon_ok icon_fail : string.

Definition no_image_warning : string :=
  "Proceeding to publish post without featured image.".

Definition publish_button (wp_configured : bool)
    (featured_image_option : string) (featured_image_data : option string)
    (featured_image_filename featured_image_mime_type : string)
    (content_title generated_content publish_status : string)
    (selected_categories selected_tags : option (list string))
  : M (option (gmap string json)) :=
  if negb wp_configured then
    st StError (icon_fail ++ " WordPress is not configured. Please set up your credentials in the sidebar and test the connection.");;
    mret None
  else
    let has_data :=
      match featured_image_data with
      | Some d => negb (String.eqb d "")
      | None => false
      end in
    featured_media_id ←
      (if negb (String.eqb featured_image_option "None") && has_data then
         upload_result ← upload_image_to_wordpress (default "" featured_image_data)
                           featured_image_filename featured_image_mime_type;
         ok ← lift (dict_item upload_result "success");
         if truthy ok then
           message ← lift (dict_item upload_result "message");
           st StSuccess (icon_ok ++ " " ++ py_str message);;
           media_id ← lift (dict_item upload_result "media_id");
           mret (Some media_id)
         else
           error ← lift (dict_item upload_result "error");
           st StError (icon_fail ++ " Failed to upload featured image: " ++ py_str error);;
           st StWarning no_image_warning;;
           mret None
       else if negb (String.eqb featured_image_option "None") && negb has_data then
         st StWarning "No image data available for featured image. Please upload/generate an image first.";;
         mret None
       else mret None);
    result ← publish_to_wordpress content_title generated_content publish_status
               selected_categories selected_tags featured_media_id;
    mret (Some result).

(** *** A session after the connection test *)

Definition perform (k : call) (w : world) : world :=
  match k with
  | GetApiUrl endpoint => (_get_api_url endpoint w).2
  | FetchTerms term_type => (_get_terms_robust term_type w).2
  | UploadImage d f m => (upload_image_to_wordpress d f m w).2
  | Publish t c s cs ts fid => (publish_to_wordpress t c s cs ts fid w).2
  end.

Definition perform_all (ks : list call) (w : world) : world :=
  fold_left (fun w k => perform k w) ks w.

End AdvancedPublisher.

(** ** Regular expressions

    The fragment of Python's [re] that [parse_project_files] uses, with its
    backtracking order: a greedy repetition tries the longest run first, a lazy
    one the shortest, an optional group is tried before it is skipped, and the
    first way to match that succeeds is the match. *)

Module Re.

Inductive regex : Type :=
| Eps
| Chr (p : ascii -> bool)                  (* one character of a class *)
| Seq (a b : regex)
| Star (greedy : bool) (p : ascii -> bool) (* [p*] or [p*?] *)
| Opt (a : regex)                          (* [(?:a)?] *)
| Group (i : nat) (a : regex).             (* capture group number i *)

(** The groups that took part in the match, the latest first. *)
Definition groups : Type := list (nat * string).

Fixpoint group (i : nat) (g : groups) : string :=
  match g with
  | [] => ""
  | (j, s) :: r => if Nat.eqb i j then s else group i r
  end.

(** What was consumed between the input [s] and its suffix [s']. *)
Definition consumed (s s' : string) : string :=
  substring 0 (String.length s - String.length s') s.

Section Matcher.

Context {T : Type}.

Fixpoint star (greedy : bool) (p : ascii -> bool) (s : string)
    (k : string -> option T) : option T :=
  if greedy then
    match s with
    | String c s' =>
        if p c then
          match star greedy p s' k with
          | Some x => Some x
          | None => k s
          end
        else k s
    | EmptyString => k s
    end
  else
    match k s with
    | Some x => Some x
    | None =>
        match s with
        | String c s' => if p c then star greedy p s' k else None
        | EmptyString => None
        end
    end.

Fixpoint go (r : regex) (s : string) (g : groups)
    (k : string -> groups -> option T) : option T :=
  match r with
  | Eps => k s g
  | Chr p =>
      match s with
      | String c s' => if p c then k s' g else None
      | EmptyString => None
      end
  | Seq a b => go a s g (fun s' g' => go b s' g' k)
  | Star greedy p => star greedy p s (fun s' => k s' g)
  | Opt a =>
      match go a s g k with
      | Some x => Some x
      | None => k s g
      end
  | Group i a => go a s g (fun s' g' => k s' ((i, consumed s s') :: g'))
  end.

End Matcher.

(** [re.match] at the start of [s]: the rest of the input and the groups. *)
Definition match_here (r : regex) (s : string) : option (string * groups) :=
  go r s [] (fun s' g => Some (s', g)).

(** The matches from left to right, without overlap.  The patterns below
    match no empty string, so the search resumes where a match ended. *)
Fixpoint findall_go (fuel : nat) (r : regex) (s : string) : list groups :=
  match fuel with
  | O => []
  | S fuel' =>
      match match_here r s with
      | Some (s', g) =>
          if (String.length s' <? String.length s)%nat
          then g :: findall_go fuel' r s'
          else g :: match s with
                    | String _ t => findall_go fuel' r t
                    | EmptyString => []
                    end
      | None =>
          match s with
          | String _ t => findall_go fuel' r t
          | EmptyString => []
          end
      end
  end.

Definition findall (r : regex) (s : string) : list groups :=
  findall_go (S (String.length s)) r s.

(** [re.split] for a pattern with one group: the pieces between the
    matches, each match's group 1 between them. *)
Fixpoint split_go (fuel : nat) (r : regex) (piece : string) (s : string)
  : list string :=
  match fuel with
  | O => [String.rev piece]
  | S fuel' =>
      match s with
      | EmptyString => [String.rev piece]
      | String c t =>
          match match_here r s with
          | Some (s', g) =>
              if (String.length s' <? String.length s)%nat
              then String.rev piece :: group 1 g :: split_go fuel' r "" s'
              else split_go fuel' r (String c piece) t
          | None => split_go fuel' r (String c piece) t
          end
      end
  end.

Definition split (r : regex) (s : string) : list string :=
  split_go (S (String.length s)) r "" s.

(** Character classes *)
Definition char (c : ascii) : ascii -> bool := fun x => if ascii_dec x c then true else false.
Definition letter (c : ascii) : ascii -> bool :=
  fun x => if ascii_dec (PyStr.lower_char x) (PyStr.lower_char c) then true else false.
Definition not_newline : ascii -> bool := fun x => negb (char "010" x).
Definition any : ascii -> bool := fun _ => true.
Definition alnum : ascii -> bool := fun x =>
  let n := N_of_ascii x in
  (((48 <=? n) && (n <=? 57)) || ((65 <=? n) && (n <=? 90)) || ((97 <=? n) && (n <=? 122)))%N.

Fixpoint lit (by_class : ascii -> ascii -> bool) (s : string) : regex :=
  match s with
  | EmptyString => Eps
  | String c r => Seq (Chr (by_class c)) (lit by_class r)
  end.

(** [p+] *)
Definition plus (p : ascii -> bool) : regex := Seq (Chr p) (Star true p).

End Re.

Definition nl : string := String "010" "".

(** ** CompleteAIContentAgent.parse_project_files *)

(** [FILE:\s*([^\n]+)\n```(?:([a-zA-Z0-9]+))?\n(.*?)\n```], with [re.DOTALL] *)
Definition strict_pattern : Re.regex :=
  Re.Seq (Re.lit Re.char "FILE:")
 (Re.Seq (Re.Star true PyStr.is_space)
 (Re.Seq (Re.Group 1 (Re.plus Re.not_newline))
 (Re.Seq (Re.lit Re.char (nl ++ "```"))
 (Re.Seq (Re.Opt (Re.Group 2 (Re.plus Re.alnum)))
 (Re.Seq (Re.lit Re.char nl)
 (Re.Seq (Re.Group 3 (Re.Star false Re.any))
         (Re.lit Re.char (nl ++ "```")))))))).

(** [(FILE:\s*[^\n]+)], with [re.IGNORECASE] *)
Definition lenient_pattern : Re.regex :=
  Re.Group 1
    (Re.Seq (Re.lit Re.letter "FILE:")
    (Re.Seq (Re.Star true PyStr.is_space) (Re.plus Re.not_newline))).

(** [re.findall] with the strict pattern: (filename, lang, file_content). *)
Definition file_blocks_matches (content : string) : list (string * string * string) :=
  map (fun g => (Re.group 1 g, Re.group 2 g, Re.group 3 g))
      (Re.findall strict_pattern content).

(** The first loop: [files[filename.strip()] = file_content.strip()]. *)
Definition store_blocks (blocks : list (string * string * string))
    (files : gmap string string) : gmap string string :=
  fold_left
    (fun files '(filename, _, file_content) =>
       <[ PyStr.strip filename := PyStr.strip file_content ]> files)
    blocks files.

(** The state of the lenient loop. *)
Record scan : Type := Scan {
  scan_files : gmap string string;
  current_filename : option string;
  current_content : list string
}.

(** [if current_filename and current_content: files[current_filename] = ...] *)
Definition flush (s : scan) : gmap string string :=
  match current_filename s, current_content s with
  | Some name, _ :: _ =>
      if String.eqb name "" then scan_files s
      else <[ name := PyStr.strip (PyStr.join nl (current_content s)) ]> (scan_files s)
  | _, _ => scan_files s
  end.

Definition scan_part (s : scan) (part : string) : scan :=
  if PyStr.startswith "file:" (PyStr.lower part) then
    Scan (flush s) (Some (PyStr.strip (PyStr.replace "FILE:" "" part))) []
  else
    Scan (scan_files s) (current_filename s) (current_content s ++ [part]).

(** The last loop of the lenient path: drop the code fences of a content. *)
Definition unfence (fcontent : string) : string :=
  if PyStr.startswith "```" fcontent && PyStr.endswith "```" fcontent then
    PyStr.strip (PyStr.join nl (removelast (tail (PyStr.split_lines fcontent))))
  else if PyStr.startswith "```" fcontent then
    PyStr.strip (PyStr.join nl (tail (PyStr.split_lines fcontent)))
  else fcontent.

Definition lenient_files (content : string) : gmap string string :=
  let potential_files := Re.split lenient_pattern content in
  unfence <$> flush (fold_left scan_part potential_files (Scan ∅ None [])).

Definition placeholder_files : gmap string string :=
  <[ "requirements.txt" := "# Add your dependencies here" ]>
    (<[ "main.py" := "# Main project file" ++ nl ++ "print('Hello, World!')" ]>
       (<[ "README.md" := "# AI Generated Project" ++ nl ++ nl
                          ++ "Project generated by AI Content Agent Pro" ]> ∅)).

Definition is_empty_dict (files : gmap string string) : bool :=
  bool_decide (files = ∅).

Definition parse_project_files (content : string) : M (gmap string string) :=
  let files := store_blocks (file_blocks_matches content) ∅ in
  files ← (if is_empty_dict files then
             st StWarning "Could not parse files using strict FILE: and ``` markers. Attempting simpler parsing.";;
             mret (lenient_files content)
           else mret files);
  if is_empty_dict files then
    st StError "Failed to parse any files from AI response. Generated minimal placeholder files.";;
    mret placeholder_files
  else mret files.

(** ** Frame condition *)

Definition keeps_config {A : Type} (m : M A) : Prop :=
  forall w, wordpress_config (m w).2 = wordpress_config w.


(** ** The requests of the connection test *)

Definition probe_headers (c : wp_config) : gmap string string :=
  <[ "Accept" := "application/json" ]> (headers c).

(** The first probe, built by [_get_api_url] from the current mode. *)
Definition first_probe (c : wp_config) : request :=
  Request GET
    (site_url c
     ++ match use_query_params c with
        | Some true => "/?rest_route="
        | _ => "/wp-json"
        end
     ++ "/wp/v2/users/me")
    (probe_headers c) NoBody 10.

Definition fallback_probe (c : wp_config) : request :=
  Request GET (site_url c ++ "/?rest_route=/wp/v2/users/me") (probe_headers c) NoBody 10.

(** The one request of a self-hosted publication. *)
Definition post_request (c : wp_config) (post_data : gmap string json) : request :=
  Request POST
    (site_url c
     ++ match use_query_params c with
        | Some true => "/?rest_route="
        | _ => "/wp-json"
        end
     ++ "/wp/v2/posts")
    (headers c) (JsonBody post_data) 30.

(** The one request of a self-hosted upload. *)
Definition media_request (c : wp_config) (image_data filename mime_type : string)
  : request :=
  Request POST
    (site_url c
     ++ match use_query_params c with
        | Some true => "/?rest_route="
        | _ => "/wp-json"
        end
     ++ "/wp/v2/media")
    (media_headers (headers c) filename mime_type) (DataBody image_data) 30.



(** ** Term resolution, as a filter

    The identifiers [select_term_ids] collects when every cached name is a
    string: those of the cached terms whose lower-cased name is the lower-cased
    form of a requested name, in cache order. *)

Definition name_matches (names : list string) (t : term) : bool :=
  match term_name t with
  | JStr name => bool_decide (PyStr.lower name ∈ map PyStr.lower names)
  | _ => false
  end.

Definition matched_ids (names : list string) (cache : list term) : list json :=
  map term_id (filter (fun t => name_matches names t = true) cache).

Definition named (t : term) : Prop := exists s, term_name t = JStr s.

(** What one [if categories:] / [if tags:] block leaves in the payload and on
    the console. *)
Definition with_terms (key : string) (names : option (list string))
    (cache : option (list term)) (post_data : gmap string json) : gmap string json :=
  if nonempty names then
    match matched_ids (default [] names) (default [] cache) with
    | [] => post_data
    | ids => <[ key := JList ids ]> post_data
    end
  else post_data.

Definition terms_warning (key : string) (names : option (list string))
    (cache : option (list term)) (tail : string) : list (level * string) :=
  if nonempty names then
    match matched_ids (default [] names) (default [] cache) with
    | [] => [(StWarning, none_found key (PyStr.join ", " (default [] names)) tail)]
    | _ => []
    end
  else [].

(** The payload of a self-hosted publication, given the converted content. *)
Definition selfhosted_post_data (title html_content status : string)
    (categories tags : option (list string)) (featured_image_id : option json)
    (all_categories all_tags : option (list term)) : gmap string json :=
  with_terms "tags" tags all_tags
    (with_terms "categories" categories all_categories
       (initial_post_data title html_content status featured_image_id)).

Definition categories_tail : string := "Post will be uncategorized or default.".
Definition tags_tail : string := "Post will be published without specified tags.".

(** A field of the dictionary an operation returned. *)
Definition result_field (o : outcome (gmap string json)) (k : string) : option json :=
  match o with
  | Return d => d !! k
  | Raise _ => None
  end.

(** ** Example data *)

(** [str()] on the scalars, enough for the examples below. *)
Definition scalar_str (v : json) : string :=
  match v with
  | JStr s => s
  | JInt n => PyStr.of_int n
  | JBool true => "True"
  | JBool false => "False"
  | JNull => "None"
  | _ => ""
  end.

(** A stand-in for the Markdown converter. *)
Definition paragraph (s : string) : string := "<p>" ++ s ++ "</p>".

(** A network that answers the i-th request of the session with the i-th
    entry of a script, and refuses the connection after that. *)
Definition scripted (answers : list (outcome response))
  : list request -> request -> outcome response :=
  fun log _ =>
    default (Raise (Exn RequestException "Connection refused")) (answers !! length log).

Definition undecodable : outcome json :=
  Raise (Exn RequestsJSONDecodeError "Expecting value: line 1 column 1 (char 0)").

Definition not_found : response := Response 404 "<html>Not Found</html>" undecodable.
Definition html_page : response := Response 200 "<html>Welcome</html>" undecodable.
Definition unauthorized : response := Response 401 "<html>Unauthorized</html>" undecodable.
Definition server_error : response := Response 500 "Internal Server Error" undecodable.

Definition quoted (s : string) : string := dquote ++ s ++ dquote.

Definition user_admin : response :=
  Response 200 ("{" ++ quoted "id" ++ ": 1, " ++ quoted "name" ++ ": " ++ quoted "admin" ++ "}")
           (Return (JObj [("id", JInt 1); ("name", JStr "admin")])).

Definition example_headers : gmap string string :=
  {[ "Content-Type" := "application/json";
     "Authorization" := "Basic YWRtaW46YXBwLXB3" ]}.

(** What [setup_wordpress("https://example.com", "admin", "app-pw")] stores. *)
Definition example_config : wp_config :=
  SelfHosted "https://example.com" "admin" "app-pw" None example_headers.

Definition example_world : world := World (Some example_config) None None [] [].

Definition news : term := Term (JInt 3) (JStr "News").

(** A generated project with one file, in the strict format. *)
Definition one_file_response : string :=
  "Here is the project." ++ nl ++ "FILE: main.py" ++ nl ++ "```python" ++ nl
  ++ "print(1)" ++ nl ++ "```" ++ nl.

(** The answer to a post request that created post 7. *)
Definition created : response :=
  Response 201
    ("{" ++ quoted "id" ++ ": 7, " ++ quoted "link" ++ ": "
         ++ quoted "https://example.com/?p=7" ++ "}")
    (Return (JObj [("id", JInt 7); ("link", JStr "https://example.com/?p=7")])).

(** The answer to a media request that stored attachment 12. *)
Definition stored : response :=
  Response 201
    ("{" ++ quoted "id" ++ ": 12, " ++ quoted "source_url" ++ ": "
         ++ quoted "https://example.com/wp-content/uploads/cover.gif" ++ "}")
    (Return (JObj [("id", JInt 12);
                   ("source_url", JStr "https://example.com/wp-content/uploads/cover.gif")])).

(** A 201 whose body is no JSON: a notice printed in front of the document. *)
Definition stored_garbled : response :=
  Response 201 "<br /><b>Notice</b>: Undefined index in media.php" undecodable.

(** ** The other requests of the publisher *)

(** The probe of a WordPress.com connection test. *)
Definition hosted_probe (c : wp_config) : request :=
  Request GET
    (match c with
     | WpCom _ _ _ _ api_base _ => api_base
     | SelfHosted _ _ _ _ _ => ""
     end ++ "/")
    (headers c) NoBody 10.

(** The request of [_get_terms_robust] on a self-hosted site. *)
Definition terms_request (c : wp_config) (term_type : string) : request :=
  Request GET
    (site_url c
     ++ match use_query_params c with
        | Some true => "/?rest_route="
        | _ => "/wp-json"
        end
     ++ "/wp/v2/" ++ term_type)
    (probe_headers c) NoBody 10.

(** The request of a publication to WordPress.com. *)
Definition hosted_post_request (c : wp_config) (post_data : gmap string json) : request :=
  Request POST
    (match c with
     | WpCom _ _ _ _ api_base _ => api_base
     | SelfHosted _ _ _ _ _ => ""
     end ++ "/posts/new")
    (headers c) (JsonBody post_data) 30.

(** The message an [except] chain of the publisher puts after its prefixes:
    [timed_out] for a timeout, [network ++ str(e)] for another request
    exception, [other ++ str(e)] for the rest. *)
Definition classify (timed_out network other : string) (e : exn) : string :=
  if is_timeout e then timed_out
  else if is_request_exception e then network ++ exn_str e
  else other ++ exn_str e.

(** ** More example data *)

(** What [setup_wordpress("https://myblog.wordpress.com/", "me", "token")]
    stores. *)
Definition hosted_config : wp_config :=
  WpCom "https://myblog.wordpress.com" "myblog.wordpress.com" "me" "token"
        "https://public-api.wordpress.com/rest/v1.1/sites/myblog.wordpress.com"
        {[ "Content-Type" := "application/json"; "Authorization" := "Bearer token" ]}.

Definition hosted_world : world := World (Some hosted_config) None None [] [].

(** The answer of WordPress.com to the site probe. *)
Definition site_info : response :=
  Response 200 ("{" ++ quoted "name" ++ ": " ++ quoted "My Blog" ++ "}")
           (Return (JObj [("name", JStr "My Blog")])).

Definition forbidden : response := Response 403 "Forbidden" undecodable.

(** A JSON value from which [_get_terms_robust] builds the term [t]: an
    object whose [id] and [name] are those of [t]. *)
Definition describes (item : json) (t : term) : Prop :=
  getitem item "id" = Return (term_id t) /\ getitem item "name" = Return (term_name t).

Definition unsupported_terms (term_type : string) : string :=
  "Fetching " ++ term_type
  ++ " list is not fully supported for WordPress.com via this API configuration.".

(** A 200 answer that lists the categories News (3) and Tech (5). *)
Definition two_categories : response :=
  Response 200 "[...]"
    (Return (JList [JObj [("id", JInt 3); ("name", JStr "News"); ("count", JInt 4)];
                    JObj [("id", JInt 5); ("name", JStr "Tech"); ("count", JInt 0)]])).


(** ** Publication payloads and answers *)

(** The payload of a publication to WordPress.com. *)
Definition hosted_post_data (title html_content status : string)
    (tags : option (list string)) (featured_image_id : option json)
  : gmap string json :=
  if nonempty tags
  then <[ "tags" := JStr (PyStr.join "," (default [] tags)) ]>
         (initial_post_data title html_content status featured_image_id)
  else initial_post_data title html_content status featured_image_id.

(** A cached term whose name is JSON [null]. *)
Definition nameless : term := Term (JInt 4) JNull.

Definition bad_gateway : response := Response 502 "<html>Bad Gateway</html>" undecodable.

(** ** The connection button of [main]

    The body of [if st.button("Test WordPress Connection")]: configure, test,
    and after a successful test of a self-hosted site fetch the categories and
    the tags into the session.  The result is the value it leaves in
    [st.session_state.wp_configured].  The hints it writes with [st.markdown]
    after a failure are page text, not console messages; the icons are
    characters outside the modelled range. *)

Definition put_categories (l : list term) : M unit := fun w =>
  (Return tt, World (wordpress_config w) (Some l) (wp_all_tags w) (sent w) (console w)).

Definition put_tags (l : list term) : M unit := fun w =>
  (Return tt, World (wordpress_config w) (wp_all_categories w) (Some l) (sent w) (console w)).

Definition none_fetched (kind : string) : string :=
  "Could not fetch any " ++ kind ++ ". Ensure " ++ kind
  ++ " exist and API permissions are correct.".

(** What the button says about a fetched list: its length, or a warning when
    it is empty. *)
Definition fetched_message (kind : string) (l : list term) : level * string :=
  match l with
  | _ :: _ =>
      (StSuccess, "Fetched " ++ PyStr.of_int (Z.of_nat (length l)) ++ " " ++ kind ++ ".")
  | [] => (StWarning, none_fetched kind)
  end.

Definition report_fetched (kind : string) (l : list term) : M unit :=
  st (fetched_message kind l).1 (fetched_message kind l).2.

Definition detected_query : string :=
  " **Detected**: Your site uses query parameter format for REST API".
Definition detected_pretty : string :=
  " **Detected**: Your site uses pretty permalinks for REST API".
Definition terms_not_fetched : string :=
  "Category and Tag fetching is not directly supported for WordPress.com via this application's API configuration yet.".

(** What the button writes after a successful test of a self-hosted site:
    the message of the test, then the detected form. *)
Definition connection_messages (icon_ok icon_detected shown : string)
    (mode : option bool) : list (level * string) :=
  [(StSuccess, icon_ok ++ " " ++ shown);
   (StInfo, icon_detected
            ++ match mode with
               | Some true => detected_query
               | _ => detected_pretty
               end)].

Section ConnectButton.

Variable net : list request -> request -> outcome response.
Variable py_str : json -> string.
Variable icon_ok icon_fail icon_detected icon_link : string.

Definition retest_hint : string :=
  "Click '" ++ icon_link ++ " Test WordPress Connection' manually if you change credentials.".

Definition connect_button (wp_site wp_user wp_pass : string) : M bool :=
  setup_wordpress wp_site wp_user wp_pass;;
  result ← test_wordpress_connection net py_str;
  ok ← lift (dict_item result "success");
  if truthy ok then
    message ← lift (dict_item result "message");
    st StSuccess (icon_ok ++ " " ++ py_str message);;
    cfg ← get_config;
    if negb (match cfg with Some c => is_wpcom c | None => false end) then
      (if match cfg ≫= use_query_params with Some true => true | _ => false end
       then st StInfo (icon_detected ++ detected_query)
       else st StInfo (icon_detected ++ detected_pretty));;
      categories ← fetch_categories net;
      put_categories categories;;
      tags ← fetch_tags net;
      put_tags tags;;
      report_fetched "categories" categories;;
      report_fetched "tags" tags;;
      mret true
    else
      st StWarning terms_not_fetched;;
      mret true
  else
    error ← lift (dict_item result "error");
    st StError (icon_fail ++ " " ++ py_str error);;
    st StWarning retest_hint;;
    mret false.

End ConnectButton.

(** A 200 answer with an empty list. *)
Definition no_terms : response := Response 200 "[]" (Return (JList [])).

Definition tech : term := Term (JInt 5) (JStr "Tech").

(** ** The messages of a publication without an upload *)






(** ** Titles and file names of the content agent *)

(** [\w] of a [str] pattern on one character: the letters, the digits and
    the underscore, with those of Latin-1. *)
Definition is_word (c : ascii) : bool :=
  let n := PyStr.code c in
  (((48 <=? n) && (n <=? 57)) || ((65 <=? n) && (n <=? 90)) || (n =? 95)
   || ((97 <=? n) && (n <=? 122)) || (n =? 170) || (n =? 178) || (n =? 179)
   || (n =? 181) || (n =? 185) || (n =? 186) || ((188 <=? n) && (n <=? 190))
   || ((192 <=? n) && (n <=? 214)) || ((216 <=? n) && (n <=? 246)) || (248 <=? n))%N.

Definition is_hyphen (c : ascii) : bool := if ascii_dec c "-" then true else false.

(** [re.sub(r'[^...]', '', s)]: the characters of the class are kept. *)
Fixpoint keep (p : ascii -> bool) (s : string) : string :=
  match s with
  | EmptyString => EmptyString
  | String c r => if p c then String c (keep p r) else keep p r
  end.

(** [re.sub(r'[...]+', '-', s)]: each run of characters of the class becomes
    one hyphen.  [in_run] tells that the character before was of the class. *)
Fixpoint hyphenate (p : ascii -> bool) (in_run : bool) (s : string) : string :=
  match s with
  | EmptyString => EmptyString
  | String c r =>
      if p c then (if in_run then hyphenate p true r else String "-" (hyphenate p true r))
      else String c (hyphenate p false r)
  end.

(** The loop of [extract_title_from_content]: the first line that starts
    with one [#] and not with two. *)
Fixpoint first_heading (lines : list string) : option string :=
  match lines with
  | [] => None
  | line :: rest =>
      if PyStr.startswith "#" line && negb (PyStr.startswith "##" line)
      then Some line
      else first_heading rest
  end.

Definition extract_title_from_content (content : string) : string :=
  match first_heading (PyStr.split_lines content) with
  | Some line =>
      let potential_title := PyStr.strip (PyStr.replace "#" "" line) in
      PyStr.strip (keep (fun c => is_word c || PyStr.is_space c) potential_title)
  | None => "Generated Content"
  end.

(** The file name of [save_markdown_file], which writes
    [generated_content/<filename>.md]. *)
Definition markdown_filename (title : string) : string :=
  let filename :=
    PyStr.strip (keep (fun c => is_word c || PyStr.is_space c || is_hyphen c) title) in
  PyStr.lower (hyphenate (fun c => is_hyphen c || PyStr.is_space c) false filename).

(** Two hyphens in a row, read from the start of the string. *)
Fixpoint doubled (s : string) : bool :=
  match s with
  | String a ((String b _) as r) => (is_hyphen a && is_hyphen b) || doubled r
  | _ => false
  end.

Definition starts_with_hyphen (s : string) : bool :=
  match s with String a _ => is_hyphen a | EmptyString => false end.

(** ** The calls of the content agent to the Gemini API *)

(** [len(v) > 0] *)
Definition len_positive (v : json) : outcome bool :=
  match v with
  | JList l => Return (match l with [] => false | _ => true end)
  | JObj l => Return (match l with [] => false | _ => true end)
  | JStr s => Return (negb (String.eqb s ""))
  | _ => Raise (Exn TypeError "object has no len()")
  end.

(** [v[0]]: the first item of a list, the first character of a string; a
    decoded object has no key [0].  An [IndexError] is among the other
    exceptions. *)
Definition first_item (v : json) : outcome json :=
  match v with
  | JList (x :: _) => Return x
  | JList [] => Raise (Exn OtherException "list index out of range")
  | JStr (String c _) => Return (JStr (String c ""))
  | JStr EmptyString => Raise (Exn OtherException "string index out of range")
  | JObj _ => Raise (Exn KeyError "0")
  | _ => Raise (Exn TypeError "object is not subscriptable")
  end.

(** [v.startswith(prefix)]: only a [str] has the method. *)
Definition py_startswith (v : json) (prefix : string) : outcome bool :=
  match v with
  | JStr s => Return (PyStr.startswith prefix s)
  | _ => Raise (Exn AttributeError "object has no attribute 'startswith'")
  end.

Definition gemini_url (api_key : string) : string :=
  "https://generativelanguage.googleapis.com/v1beta/models/gemini-2.0-flash:generateContent?key="
  ++ api_key.

(** [{"contents": [{"role": "user", "parts": [{"text": prompt}]}]}] *)
Definition gemini_payload (prompt : string) : json :=
  JObj [("contents",
         JList [JObj [("role", JStr "user");
                      ("parts", JList [JObj [("text", JStr prompt)]])]])].

Definition no_key_configured : string := "Error: Gemini AI API key not configured".

Section GeminiAnswer.

#[local] Instance outcome_bind : MBind outcome := fun A B f o =>
  match o with
  | Return a => f a
  | Raise e => Raise e
  end.

(** What [requests.post(api_url, headers={'Content-Type': 'application/json'},
    data=body)] is answered with at the time of the call, by URL and body.
    The call sets no timeout. *)
Variable gemini : string -> string -> outcome response.

(** [json.dumps(v)] and [json.dumps(v, indent=2)] *)
Variable json_dumps : json -> string.
Variable json_dumps_indent : json -> string.

(** The text of the [HTTPError] of [raise_for_status], by URL and response. *)
Variable status_error : string -> response -> string.

(** [response.raise_for_status()]: an [HTTPError], which is a
    [RequestException], for the statuses 400 to 599. *)
Definition raise_for_status (url : string) (response : response) : outcome unit :=
  if (400 <=? status_code response) && (status_code response <? 600)
  then Raise (Exn RequestException (status_error url response))
  else Return tt.

(** [result["candidates"][0]] *)
Definition first_candidate (result : json) : outcome json :=
  candidates ← getitem result "candidates";
  first_item candidates.

(** [result["candidates"][0]["content"]] *)
Definition first_content (result : json) : outcome json :=
  candidate ← first_candidate result;
  getitem candidate "content".

(** [result["candidates"][0]["content"]["parts"]] *)
Definition first_parts (result : json) : outcome json :=
  content ← first_content result;
  getitem content "parts".

(** The condition of [call_gemini_api], a chain of [and]: each conjunct is
    evaluated only when those before it are true. *)
Definition has_text (result : json) : outcome bool :=
  found ← get_default result "candidates" JNull;
  if truthy found then
    candidates ← getitem result "candidates";
    listed ← len_positive candidates;
    if (listed : bool) then
      candidate ← first_candidate result;
      content ← get_default candidate "content" JNull;
      if truthy content then
        content ← first_content result;
        parts ← get_default content "parts" JNull;
        if truthy parts then
          parts ← first_parts result;
          len_positive parts
        else Return false
      else Return false
    else Return false
  else Return false.

(** [result["candidates"][0]["content"]["parts"][0]["text"]] *)
Definition generated_text (result : json) : outcome json :=
  parts ← first_parts result;
  part ← first_item parts;
  getitem part "text".

(** The body of the [try] once the request is answered. *)
Definition read_answer (url : string) (response : response) : outcome json :=
  raise_for_status url response;;
  result ← json_body response;
  ok ← has_text result;
  if (ok : bool) then generated_text result
  else Return (JStr ("Error: No content generated. API Response: "
                   ++ json_dumps_indent result)).

(** The three handlers.  The second reads [response], which is bound only
    once the request is answered; before that the read is an
    [UnboundLocalError], which leaves the function. *)
Definition gemini_except (response : option response) (e : exn) : outcome json :=
  if is_request_exception e then
    Return (JStr ("Error making API request: " ++ exn_str e))
  else if is_json_decode_error e then
    match response with
    | Some r => Return (JStr ("Error decoding JSON response: " ++ text r))
    | None =>
        Raise (Exn OtherException
                 "cannot access local variable 'response' where it is not associated with a value")
    end
  else Return (JStr ("An unexpected error occurred: " ++ exn_str e)).

(** The value is the generated text, whatever JSON value the service put
    there, or one of the error texts. *)
Definition call_gemini_api (prompt api_key : string) : outcome json :=
  let api_url := gemini_url api_key in
  match gemini api_url (json_dumps (gemini_payload prompt)) with
  | Raise e => gemini_except None e
  | Return response =>
      match read_answer api_url response with
      | Return v => Return v
      | Raise e => gemini_except (Some response) e
      end
  end.

(** [result and not result.startswith("Error:")], the test that the callers
    of [call_gemini_api] apply to its value. *)
Definition usable (result : json) : outcome bool :=
  if truthy result then
    is_error ← py_startswith result "Error:";
    Return (negb is_error)
  else Return false.

End GeminiAnswer.

Section ContentAgent.

Variable gemini : string -> string -> outcome response.
Variable json_dumps : json -> string.
Variable json_dumps_indent : json -> string.
Variable status_error : string -> response -> string.
Variable py_str : json -> string.

(** [setup_gemini] stores the key in [self.gemini_api_key] first, which
    cannot fail; the generators below take that attribute as their argument
    [gemini_api_key], [None] while it is not set. *)
Definition setup_gemini (api_key : string) : M bool :=
  try_except
    (test_result ← lift (call_gemini_api gemini json_dumps json_dumps_indent status_error
                           "Hello" api_key);
     ok ← lift (usable test_result);
     if (ok : bool) then mret true
     else
       st StError ("Gemini AI test failed: " ++ py_str test_result);;
       mret false)
    (fun e =>
       st StError ("Error initializing Gemini AI: " ++ exn_str e);;
       mret false).

(** [prompt] is the text that the function builds from its arguments before
    the [try]. *)
Definition generate_project_files (prompt : string) (gemini_api_key : option string)
  : M (option (gmap string string)) :=
  try_except
    (match gemini_api_key with
     | None => mret None
     | Some key =>
         result ← lift (call_gemini_api gemini json_dumps json_dumps_indent status_error
                          prompt key);
         ok ← lift (usable result);
         if (ok : bool) then
           match result with
           | JStr content =>
               files ← parse_project_files content;
               mret (Some files)
           | _ => raise (Exn TypeError "expected string or bytes-like object")
           end
         else
           st StError ("Project generation failed: " ++ py_str result);;
           mret None
     end)
    (fun e =>
       st StError ("Error generating project: " ++ exn_str e);;
       mret None).

(** The value is a Python object: the text, or [None]. *)
Definition generate_enhanced_content (prompt : string) (gemini_api_key : option string)
  : M json :=
  try_except
    (match gemini_api_key with
     | None => mret (JStr no_key_configured)
     | Some key =>
         result ← lift (call_gemini_api gemini json_dumps json_dumps_indent status_error
                          prompt key);
         lift (usable result);;
         mret result
     end)
    (fun e =>
       st StError ("Error generating content: " ++ exn_str e);;
       mret JNull).

End ContentAgent.

(** A service that cannot be reached, one that refuses the key, and one that
    answers without a candidate. *)
Definition unreachable : string -> string -> outcome response :=
  fun _ _ => Raise (Exn RequestException "Connection refused").

Definition bad_request : response := Response 400 "API key not valid" undecodable.

Definition no_candidates : response := Response 200 "{}" (Return (JObj [])).

Definition status_text : string -> response -> string :=
  fun url r => PyStr.of_int (status_code r) ++ " Client Error for url: " ++ url.

(** The request of a call yields no JSON document: it raises a
    [RequestException], or it is answered with an error status, or with a
    body that [json()] cannot decode. *)
Definition request_failed (answer : outcome response) : Prop :=
  match answer with
  | Raise e => is_request_exception e = true
  | Return r => 400 <= status_code r < 600 \/ exists e, json_body r = Raise e
  end.

(** The three texts that the handlers of [call_gemini_api] return. *)
Definition handler_text (text : string) : Prop :=
  exists s, text = "Error making API request: " ++ s
            \/ text = "Error decoding JSON response: " ++ s
            \/ text = "An unexpected error occurred: " ++ s.

(** * Properties *)

(** ** Operations that leave the configuration alone *)

Section Frame.

Context {A B : Type}.

Lemma keeps_ret (a : A) : keeps_config (mret a).
Proof. intros w; reflexivity. Qed.

Lemma keeps_lift (o : outcome A) : keeps_config (lift o).
Proof. intros w; reflexivity. Qed.

Lemma keeps_raise (e : exn) : keeps_config (raise e : M A).
Proof. intros w; reflexivity. Qed.

Lemma keeps_bind (m : M A) (f : A -> M B) :
  keeps_config m -> (forall a, keeps_config (f a)) -> keeps_config (m ≫= f).
Proof.
  intros Hm Hf w. unfold mbind, M_bind. specialize (Hm w).
  destruct (m w) as [[a|e] w']; simpl in *; [|assumption].
  rewrite Hf. assumption.
Qed.

Lemma keeps_try (m : M A) (h : exn -> M A) :
  keeps_config m -> (forall e, keeps_config (h e)) -> keeps_config (try_except m h).
Proof.
  intros Hm Hh w. unfold try_except. specialize (Hm w).
  destruct (m w) as [[a|e] w']; simpl in *; [assumption|].
  rewrite Hh. assumption.
Qed.

End Frame.

Lemma keeps_get_config : keeps_config get_config.
Proof. intros w; reflexivity. Qed.

Lemma keeps_st l msg : keeps_config (st l msg).
Proof. intros w; reflexivity. Qed.

Lemma keeps_send net q : keeps_config (send net q).
Proof. intros w; reflexivity. Qed.

Lemma keeps_get_api_url endpoint : keeps_config (_get_api_url endpoint).
Proof. intros w; reflexivity. Qed.

Create HintDb keeps.
#[global] Hint Resolve keeps_ret keeps_lift keeps_raise keeps_get_config keeps_st
  keeps_send keeps_get_api_url : keeps.

(** Decompose a computation into its binds, handlers and branches. *)
Ltac keeps :=
  repeat first
    [ progress auto with keeps
    | apply keeps_bind
    | apply keeps_try
    | progress intros
    | match goal with
      | |- keeps_config (if ?b then _ else _) => destruct b
      | |- keeps_config (match ?x with _ => _ end) => destruct x
      | |- keeps_config (let _ := _ in _) => cbv zeta
      end ].

Section FrameOfOperations.

Variable net : list request -> request -> outcome response.
Variable py_str : json -> string.
Variable markdown : string -> string.

Lemma keeps_terms_except term_type response terms_list e :
  keeps_config (terms_except term_type response terms_list e).
Proof. unfold terms_except. keeps. Qed.

Lemma keeps_get_terms_robust term_type :
  keeps_config (_get_terms_robust net term_type).
Proof.
  unfold _get_terms_robust, requests_get. keeps; apply keeps_terms_except.
Qed.

Lemma keeps_upload image_data filename mime_type :
  keeps_config (upload_image_to_wordpress net image_data filename mime_type).
Proof.
  unfold upload_image_to_wordpress, upload_except, requests_post_data. keeps.
Qed.

Lemma keeps_add_terms key names cache tail post_data :
  keeps_config (add_terms key names cache tail post_data).
Proof. unfold add_terms. keeps. Qed.

Lemma keeps_publish title content status categories tags featured :
  keeps_config (publish_to_wordpress net py_str markdown title content status
                                     categories tags featured).
Proof.
  unfold publish_to_wordpress, publish_except, requests_post_json.
  keeps; try apply keeps_add_terms; intros w; reflexivity.
Qed.

End FrameOfOperations.

Section Session.

Variable net : list request -> request -> outcome response.
Variable py_str : json -> string.
Variable markdown : string -> string.

Lemma perform_keeps_config k w :
  wordpress_config (perform net py_str markdown k w) = wordpress_config w.
Proof.
  destruct k; simpl.
  - reflexivity.
  - apply keeps_get_terms_robust.
  - apply keeps_upload.
  - apply keeps_publish.
Qed.

Lemma perform_all_keeps_config ks w :
  wordpress_config (perform_all net py_str markdown ks w) = wordpress_config w.
Proof.
  unfold perform_all. revert w.
  induction ks as [|k ks IH]; intros w; [reflexivity|].
  cbn [fold_left]. rewrite IH. apply perform_keeps_config.
Qed.

End Session.

Arguments api_url_of : simpl never.
Arguments first_probe : simpl never.
Arguments fallback_probe : simpl never.
Arguments add_terms : simpl never.
Arguments initial_post_data : simpl never.
Arguments post_request : simpl never.
Arguments media_request : simpl never.
Arguments uploaded : simpl never.
Arguments failure : simpl never.
Arguments publish_to_wordpress : simpl never.
Arguments upload_image_to_wordpress : simpl never.

Ltac run :=
  unfold mbind, M_bind, mret, M_ret, get_config, try_except, lift, modify_config,
    _get_api_url, requests_get, requests_post_json, requests_post_data, send, st,
    raise; simpl.

(** Name the two requests of the connection test where they occur. *)
Ltac name_probes :=
  repeat match goal with
  | |- context [Request GET (req_url (first_probe ?c)) ?h NoBody 10] =>
      change (Request GET (req_url (first_probe c)) h NoBody 10) with (first_probe c)
  | |- context [Request GET (?u ++ "/?rest_route=/wp/v2/users/me")
                        (<[ "Accept" := "application/json" ]> ?h) NoBody 10] =>
      match goal with
      | _ : context [fallback_probe ?c] |- _ =>
          change (Request GET (u ++ "/?rest_route=/wp/v2/users/me")
                          (<[ "Accept" := "application/json" ]> h) NoBody 10)
            with (fallback_probe c)
      end
  end.

Section ConnectionTest.

Variable net : list request -> request -> outcome response.
Variable py_str : json -> string.

Lemma first_probe_url u n p q h :
  api_url_of (Some (SelfHosted u n p q h)) "/wp/v2/users/me"
  = Return (req_url (first_probe (SelfHosted u n p q h))).
Proof. destruct q as [[]|]; reflexivity. Qed.

(** Until the fallback form has been detected, the first probe goes to the
    pretty form of the endpoint. *)
Lemma first_probe_is_pretty u n p q h :
  q <> Some true ->
  req_url (first_probe (SelfHosted u n p q h)) = u ++ "/wp-json/wp/v2/users/me".
Proof. destruct q as [[]|]; [congruence | reflexivity | reflexivity]. Qed.

(** The [except] clauses only build a result. *)
Lemma test_except_world e w : (test_except e w).2 = w.
Proof.
  unfold test_except.
  destruct (is_timeout e); [reflexivity|].
  destruct (is_request_exception e); reflexivity.
Qed.

(** C8.  A self-hosted connection test whose first probe is answered 401
    returns the authentication failure, and that probe is the only request
    sent: the query-parameter fallback is not attempted.  The configuration
    and the console are left as they were. *)
Theorem test_401_is_terminal u n p q h cats tags log con r :
  let c := SelfHosted u n p q h in
  net log (first_probe c) = Return r ->
  status_code r = 401 ->
  test_wordpress_connection net py_str (World (Some c) cats tags log con)
  = (Return (failure auth_failed),
     World (Some c) cats tags (log ++ [first_probe c]) con).
Proof.
  intros c Hnet Hst. subst c. unfold test_wordpress_connection. run.
  rewrite first_probe_url. name_probes.
  rewrite Hnet. simpl. rewrite Hst. reflexivity.
Qed.

(** The first probe answered 200 with a body that decodes: the mode becomes
    [False], one request was sent. *)
Lemma test_200_sets_pretty u n p q h cats tags log con r j :
  let c := SelfHosted u n p q h in
  net log (first_probe c) = Return r ->
  status_code r = 200 ->
  json_body r = Return j ->
  snd (test_wordpress_connection net py_str (World (Some c) cats tags log con))
  = World (Some (SelfHosted u n p (Some false) h)) cats tags
          (log ++ [first_probe c]) con.
Proof.
  intros c Hnet Hst Hj. subst c. unfold test_wordpress_connection. run.
  rewrite first_probe_url. name_probes.
  rewrite Hnet. simpl. rewrite Hst. simpl. rewrite Hj.
  destruct (get_default j "name" (JStr "Unknown")); simpl;
    [reflexivity | apply test_except_world].
Qed.

(** The first probe answered 404 and the fallback 200 with a body that
    decodes: the mode becomes [True], two requests were sent. *)
Lemma test_404_200_sets_query u n p q h cats tags log con r1 r2 j :
  let c := SelfHosted u n p q h in
  net log (first_probe c) = Return r1 ->
  status_code r1 = 404 ->
  net (log ++ [first_probe c]) (fallback_probe c) = Return r2 ->
  status_code r2 = 200 ->
  json_body r2 = Return j ->
  snd (test_wordpress_connection net py_str (World (Some c) cats tags log con))
  = World (Some (SelfHosted u n p (Some true) h)) cats tags
          (log ++ [first_probe c; fallback_probe c]) con.
Proof.
  intros c Hnet1 Hst1 Hnet2 Hst2 Hj. subst c. unfold test_wordpress_connection. run.
  rewrite first_probe_url. name_probes.
  rewrite Hnet1. simpl. rewrite Hst1. simpl. name_probes.
  rewrite Hnet2. simpl. rewrite Hst2. simpl. rewrite Hj.
  rewrite <- app_assoc. simpl.
  destruct (get_default j "name" (JStr "Unknown")); simpl;
    [reflexivity | apply test_except_world].
Qed.

(** C3, as the code has it.  The first probe answered 404 and the fallback
    a status other than 200 and 401: the result is the generic API error
    built from the fallback response alone, its status and its body; the
    first response does not enter the message.  Both requests were sent and
    the mode is untouched. *)
Theorem test_404_then_error_reports_fallback u n p q h cats tags log con r1 r2 :
  let c := SelfHosted u n p q h in
  net log (first_probe c) = Return r1 ->
  status_code r1 = 404 ->
  net (log ++ [first_probe c]) (fallback_probe c) = Return r2 ->
  status_code r2 <> 200 ->
  status_code r2 <> 401 ->
  test_wordpress_connection net py_str (World (Some c) cats tags log con)
  = (Return (failure ("WordPress API error: " ++ PyStr.of_int (status_code r2)
                      ++ " - " ++ text r2
                      ++ ". Check if REST API is enabled and credentials are correct.")),
     World (Some c) cats tags (log ++ [first_probe c; fallback_probe c]) con).
Proof.
  intros c Hnet1 Hst1 Hnet2 Hne200 Hne401. subst c.
  unfold test_wordpress_connection. run.
  rewrite first_probe_url. name_probes.
  rewrite Hnet1. simpl. rewrite Hst1. simpl. name_probes.
  rewrite Hnet2. simpl.
  destruct (Z.eqb_spec (status_code r2) 200) as [|_]; [done|].
  destruct (Z.eqb_spec (status_code r2) 401) as [|_]; [done|].
  rewrite <- app_assoc. reflexivity.
Qed.

(** C1, as the code has it.  For a self-hosted connection the connection
    test sets the mode from the probe outcomes, provided the body of the
    200 response decodes as JSON: a first probe answered 200 sets
    [use_query_params] to [False] and is the only request sent; a first probe
    answered 404 followed by a fallback answered 200 sets it to [True], and
    from then on, whatever the session fetches, uploads or publishes,
    [_get_api_url] returns the [?rest_route=] form. *)
Theorem probe_outcomes_set_mode markdown u n p q h cats tags log con r1 :
  let c := SelfHosted u n p q h in
  let w' := (test_wordpress_connection net py_str (World (Some c) cats tags log con)).2 in
  net log (first_probe c) = Return r1 ->
  (status_code r1 = 200 ->
   (exists j, json_body r1 = Return j) ->
   wordpress_config w' = Some (SelfHosted u n p (Some false) h) /\
   sent w' = (log ++ [first_probe c])%list)
  /\
  (forall r2,
     status_code r1 = 404 ->
     net (log ++ [first_probe c]) (fallback_probe c) = Return r2 ->
     status_code r2 = 200 ->
     (exists j, json_body r2 = Return j) ->
     wordpress_config w' = Some (SelfHosted u n p (Some true) h) /\
     sent w' = (log ++ [first_probe c; fallback_probe c])%list /\
     forall ks endpoint,
       let w'' := perform_all net py_str markdown ks w' in
       _get_api_url endpoint w'' = (Return (u ++ "/?rest_route=" ++ endpoint), w'')).
Proof.
  intros c w' Hnet1. split.
  - intros Hst [j Hj]. subst w' c.
    rewrite (test_200_sets_pretty u n p q h cats tags log con r1 j Hnet1 Hst Hj).
    split; reflexivity.
  - intros r2 Hst1 Hnet2 Hst2 [j Hj]. subst w' c.
    rewrite (test_404_200_sets_query u n p q h cats tags log con r1 r2 j
               Hnet1 Hst1 Hnet2 Hst2 Hj).
    repeat split. intros ks endpoint w''.
    unfold _get_api_url, mbind, M_bind, get_config, lift. subst w''.
    rewrite perform_all_keeps_config. reflexivity.
Qed.

End ConnectionTest.

(** ** The connection test on example.com *)

Lemma setup_example :
  setup_wordpress "https://example.com" "admin" "app-pw" (World None None None [] [])
  = (Return tt, example_world).
Proof. vm_compute. reflexivity. Qed.

Lemma test_401_is_terminal_witness :
  test_wordpress_connection (scripted [Return unauthorized]) scalar_str example_world
  = (Return (failure auth_failed),
     World (Some example_config) None None [first_probe example_config] []).
Proof.
  apply (test_401_is_terminal (scripted [Return unauthorized]) scalar_str
           "https://example.com" "admin" "app-pw" None example_headers
           None None [] [] unauthorized); reflexivity.
Defined.

Lemma probe_outcomes_set_mode_witness :
  (use_query_params <$>
     wordpress_config
       (test_wordpress_connection (scripted [Return user_admin]) scalar_str example_world).2)
  = Some (Some false)
  /\
  (use_query_params <$>
     wordpress_config
       (test_wordpress_connection (scripted [Return not_found; Return user_admin])
                                  scalar_str example_world).2)
  = Some (Some true).
Proof.
  split.
  - destruct (probe_outcomes_set_mode (scripted [Return user_admin]) scalar_str paragraph
                "https://example.com" "admin" "app-pw" None example_headers
                None None [] [] user_admin eq_refl) as [Hpretty _].
    destruct Hpretty as [Hcfg _]; [reflexivity | eexists; reflexivity |].
    unfold example_world, example_config. rewrite Hcfg. reflexivity.
  - destruct (probe_outcomes_set_mode (scripted [Return not_found; Return user_admin])
                scalar_str paragraph
                "https://example.com" "admin" "app-pw" None example_headers
                None None [] [] not_found eq_refl) as [_ Hquery].
    destruct (Hquery user_admin) as [Hcfg _];
      [reflexivity | reflexivity | reflexivity | eexists; reflexivity |].
    unfold example_world, example_config. rewrite Hcfg. reflexivity.
Defined.

(** C1, as stated, fails: the first probe is answered 404 and the fallback
    200, but with a page that is no JSON.  [response.json()] raises before the
    assignment, the mode stays [None], and the next URL is still built in the
    [/wp-json] form. *)
Lemma fallback_200_undecodable_keeps_mode :
  let net := scripted [Return not_found; Return html_page] in
  let w' := (test_wordpress_connection net scalar_str example_world).2 in
  net [] (first_probe example_config) = Return not_found /\
  status_code not_found = 404 /\
  net [first_probe example_config] (fallback_probe example_config) = Return html_page /\
  status_code html_page = 200 /\
  sent w' = [first_probe example_config; fallback_probe example_config] /\
  (use_query_params <$> wordpress_config w') = Some None /\
  (_get_api_url "/wp/v2/posts" w').1 = Return "https://example.com/wp-json/wp/v2/posts".
Proof. vm_compute. repeat split; reflexivity. Qed.

Lemma test_404_then_error_reports_fallback_witness :
  test_wordpress_connection (scripted [Return not_found; Return server_error])
                            scalar_str example_world
  = (Return (failure "WordPress API error: 500 - Internal Server Error. Check if REST API is enabled and credentials are correct."),
     World (Some example_config) None None
           [first_probe example_config; fallback_probe example_config] []).
Proof.
  apply (test_404_then_error_reports_fallback
           (scripted [Return not_found; Return server_error]) scalar_str
           "https://example.com" "admin" "app-pw" None example_headers
           None None [] [] not_found server_error); try reflexivity; discriminate.
Defined.

(** C3, as stated, fails: after a 404 and a 500 the error message carries the
    status of the fallback response only; the 404 of the first probe is not
    in it. *)
Lemma api_error_omits_first_status :
  let net := scripted [Return not_found; Return server_error] in
  let result := (test_wordpress_connection net scalar_str example_world).1 in
  exists msg,
    result = Return (failure msg) /\
    PyStr.contains "500" msg = true /\
    PyStr.contains "404" msg = false.
Proof. eexists. vm_compute. repeat split; reflexivity. Qed.

(** ** Before [setup_wordpress] *)

Section NotConfigured.

Variable net : list request -> request -> outcome response.
Variable py_str : json -> string.
Variable markdown : string -> string.

(** C2.  With the empty configuration the connection test, the upload and
    the publication return the "WordPress not configured" result and touch
    nothing.  [_get_terms_robust] has no such guard: it reads
    [wordpress_config['headers']] outside its [try], and the [KeyError]
    reaches the caller of [fetch_categories] and [fetch_tags]. *)
Theorem unconfigured_fetch_raises cats tags log con :
  let w := World None cats tags log con in
  test_wordpress_connection net py_str w
    = (Return (failure "WordPress not configured"), w) /\
  (forall image_data filename mime_type,
      upload_image_to_wordpress net image_data filename mime_type w
      = (Return (failure "WordPress not configured"), w)) /\
  (forall title content status categories tag_names featured_image_id,
      publish_to_wordpress net py_str markdown title content status
                           categories tag_names featured_image_id w
      = (Return (failure "WordPress not configured"), w)) /\
  fetch_categories net w = (Raise (Exn KeyError "'headers'"), w) /\
  fetch_tags net w = (Raise (Exn KeyError "'headers'"), w).
Proof. intros w. repeat split. Qed.

End NotConfigured.

(** ** Media upload *)

Section MediaUpload.

Variable net : list request -> request -> outcome response.

Lemma upload_except_world e w : (upload_except e w).2 = w.
Proof.
  unfold upload_except.
  destruct (is_timeout e); [reflexivity|].
  destruct (is_request_exception e); reflexivity.
Qed.

Lemma media_endpoint u n p q h :
  api_url_of (Some (SelfHosted u n p q h)) "/wp/v2/media"
  = Return (u ++ match q with
                 | Some true => "/?rest_route="
                 | _ => "/wp-json"
                 end ++ "/wp/v2/media").
Proof. destruct q as [[]|]; reflexivity. Qed.

(** Whatever the network does, a self-hosted upload sends the media request
    and changes nothing else. *)
Lemma upload_world u n p q h cats tags log con image_data filename mime_type :
  let c := SelfHosted u n p q h in
  (upload_image_to_wordpress net image_data filename mime_type
     (World (Some c) cats tags log con)).2
  = World (Some c) cats tags
          (log ++ [media_request c image_data filename mime_type]) con.
Proof.
  intros c. subst c. unfold upload_image_to_wordpress. run.
  rewrite media_endpoint. simpl.
  change (Request POST _ _ (DataBody image_data) 30)
    with (media_request (SelfHosted u n p q h) image_data filename mime_type).
  destruct (net log _) as [r|e]; simpl; [|apply upload_except_world].
  destruct (status_code r =? 201); [|reflexivity].
  destruct (json_body r) as [mi|e]; simpl; [|apply upload_except_world].
  destruct (getitem mi "id") as [i|e]; simpl; [|apply upload_except_world].
  destruct (getitem mi "source_url") as [l|e]; simpl; [|apply upload_except_world].
  reflexivity.
Qed.

(** C9.  A self-hosted upload sends one request whose [Content-Type] is the
    asset's MIME type and whose [Content-Disposition] names the file as an
    attachment; the other headers are the shared ones.  When the call
    returns, with a success, a failure or a caught exception, the
    configuration is the one it started from: its header set still maps
    [Content-Type] to the JSON type and [Authorization] to the credentials
    it held. *)
Theorem upload_leaves_shared_headers
    u n p q h cats tags log con image_data filename mime_type auth :
  let c := SelfHosted u n p q h in
  let w' := (upload_image_to_wordpress net image_data filename mime_type
               (World (Some c) cats tags log con)).2 in
  h !! "Content-Type" = Some "application/json" ->
  h !! "Authorization" = Some auth ->
  exists sent_request,
    sent w' = (log ++ [sent_request])%list /\
    req_method sent_request = POST /\
    req_body sent_request = DataBody image_data /\
    req_headers sent_request !! "Content-Type" = Some mime_type /\
    req_headers sent_request !! "Content-Disposition"
      = Some ("attachment; filename=" ++ dquote ++ filename ++ dquote) /\
    req_headers sent_request !! "Authorization" = Some auth /\
    wordpress_config w' = Some c /\
    (headers <$> wordpress_config w') = Some h /\
    (wordpress_config w' ≫= fun c' => headers c' !! "Content-Type")
      = Some "application/json" /\
    (wordpress_config w' ≫= fun c' => headers c' !! "Authorization") = Some auth /\
    (wordpress_config w' ≫= fun c' => headers c' !! "Content-Disposition")
      = h !! "Content-Disposition".
Proof.
  intros c w' Hct Hauth. subst w' c. rewrite upload_world.
  exists (media_request (SelfHosted u n p q h) image_data filename mime_type). simpl.
  unfold media_headers.
  repeat split; try assumption.
  - rewrite lookup_insert_ne by discriminate. apply lookup_insert_eq.
  - apply lookup_insert_eq.
  - rewrite !lookup_insert_ne by discriminate. assumption.
Qed.

End MediaUpload.

Lemma upload_leaves_shared_headers_witness :
  let w' := (upload_image_to_wordpress (scripted [Return server_error])
               "GIF89a" "cover.gif" "image/gif" example_world).2 in
  wordpress_config w' = Some example_config.
Proof.
  destruct (upload_leaves_shared_headers (scripted [Return server_error])
              "https://example.com" "admin" "app-pw" None example_headers
              None None [] [] "GIF89a" "cover.gif" "image/gif"
              "Basic YWRtaW46YXBwLXB3" eq_refl eq_refl)
    as (q & _ & _ & _ & _ & _ & _ & Hcfg & _).
  exact Hcfg.
Defined.

(** ** Term resolution *)

Lemma select_term_ids_named names cache :
  Forall named cache ->
  select_term_ids names cache = Return (matched_ids names cache).
Proof.
  induction 1 as [|t cache [s Hs] _ IH]; [reflexivity|].
  assert (Hm : name_matches names t
               = bool_decide (PyStr.lower s ∈ map PyStr.lower names))
    by (unfold name_matches; rewrite Hs; reflexivity).
  simpl. rewrite Hs, IH. unfold matched_ids.
  rewrite filter_cons, Hm.
  destruct (bool_decide (PyStr.lower s ∈ map PyStr.lower names)).
  - rewrite decide_True by reflexivity. reflexivity.
  - rewrite decide_False by discriminate. reflexivity.
Qed.

(** An identifier is selected exactly when a cached term carries it under a
    name that equals a requested name once both are lower-cased. *)
Lemma matched_ids_spec names cache i :
  i ∈ matched_ids names cache <->
  exists t s name,
    t ∈ cache /\ term_id t = i /\ term_name t = JStr s /\
    name ∈ names /\ PyStr.lower s = PyStr.lower name.
Proof.
  unfold matched_ids. rewrite list_elem_of_fmap. split.
  - intros (t & -> & Ht). apply list_elem_of_filter in Ht as [Hm Ht].
    unfold name_matches in Hm. destruct (term_name t) as [| | |s| |] eqn:Hs;
      try discriminate.
    apply bool_decide_eq_true in Hm. apply list_elem_of_fmap in Hm as (name & Hl & Hn).
    exists t, s, name. auto.
  - intros (t & s & name & Ht & <- & Hs & Hn & Hl).
    exists t. split; [reflexivity|]. apply list_elem_of_filter. split; [|assumption].
    unfold name_matches. rewrite Hs. apply bool_decide_eq_true.
    rewrite Hl. apply list_elem_of_fmap. eauto.
Qed.

(** The selection is a subsequence of the cached identifiers. *)
Lemma matched_ids_sublist names cache :
  sublist (matched_ids names cache) (map term_id cache).
Proof.
  unfold matched_ids. apply fmap_sublist, sublist_filter.
Qed.

Lemma matched_ids_NoDup names cache :
  NoDup (map term_id cache) -> NoDup (matched_ids names cache).
Proof. intros H. eapply sublist_NoDup; [exact H | apply matched_ids_sublist]. Qed.

Lemma add_terms_named key names cache tail post_data w :
  Forall named (default [] cache) ->
  add_terms key names cache tail post_data w
  = (Return (with_terms key names cache post_data),
     World (wordpress_config w) (wp_all_categories w) (wp_all_tags w) (sent w)
           (console w ++ terms_warning key names cache tail)).
Proof.
  intros Hnamed. unfold add_terms, with_terms, terms_warning.
  destruct (nonempty names).
  - run. rewrite (select_term_ids_named _ _ Hnamed).
    destruct (matched_ids (default [] names) (default [] cache)); simpl.
    + reflexivity.
    + rewrite app_nil_r. destruct w; reflexivity.
  - run. rewrite app_nil_r. destruct w; reflexivity.
Qed.

(** ** Publication to a self-hosted site *)

Section SelfHostedPublication.

Variable net : list request -> request -> outcome response.
Variable py_str : json -> string.
Variable markdown : string -> string.

Lemma publish_except_world e w : (publish_except e w).2 = w.
Proof.
  unfold publish_except.
  destruct (is_timeout e); [reflexivity|].
  destruct (is_request_exception e); reflexivity.
Qed.

Lemma publish_except_returns e w : exists r, (publish_except e w).1 = Return r.
Proof.
  unfold publish_except.
  destruct (is_timeout e); [eexists; reflexivity|].
  destruct (is_request_exception e); eexists; reflexivity.
Qed.

Lemma posts_url u n p q h :
  api_url_of (Some (SelfHosted u n p q h)) "/wp/v2/posts"
  = Return (req_url (post_request (SelfHosted u n p q h) ∅)).
Proof. destruct q as [[]|]; reflexivity. Qed.

Ltac name_post :=
  match goal with
  | |- context [Request POST ?url ?h (JsonBody ?d) 30] =>
      match goal with
      | |- context [SelfHosted ?u ?n ?p ?q h] =>
          change (Request POST url h (JsonBody d) 30)
            with (post_request (SelfHosted u n p q h) d)
      end
  end.

(** With string names in the cache, a self-hosted publication sends the one
    post request, whatever was requested and whatever the network answers,
    and reports the lists of which nothing was found. *)
Lemma publish_selfhosted_world u n p q h cats tags log con
    title content status categories tag_names featured_image_id :
  let c := SelfHosted u n p q h in
  Forall named (default [] cats) ->
  Forall named (default [] tags) ->
  (publish_to_wordpress net py_str markdown title content status
     categories tag_names featured_image_id (World (Some c) cats tags log con)).2
  = World (Some c) cats tags
      (log ++ [post_request c
                 (selfhosted_post_data title (markdown content) status
                    categories tag_names featured_image_id cats tags)])
      (con ++ terms_warning "categories" categories cats categories_tail
           ++ terms_warning "tags" tag_names tags tags_tail).
Proof.
  intros c Hcats Htags. subst c. unfold publish_to_wordpress, get_world. run.
  rewrite (add_terms_named _ _ _ _ _ _ Hcats). simpl.
  rewrite (add_terms_named _ _ _ _ _ _ Htags). simpl.
  rewrite posts_url. simpl. name_post.
  fold categories_tail tags_tail.
  change (with_terms "tags" tag_names tags _)
    with (selfhosted_post_data title (markdown content) status
            categories tag_names featured_image_id cats tags).
  rewrite <- app_assoc.
  destruct (net log _) as [r|e]; simpl; [|apply publish_except_world].
  destruct (status_code r =? 201); [|reflexivity].
  destruct (json_body r) as [info|e]; simpl; [|apply publish_except_world].
  destruct (getitem info "id") as [i|e]; simpl; [|apply publish_except_world].
  destruct (getitem info "link") as [l|e]; simpl; [|apply publish_except_world].
  reflexivity.
Qed.

(** The post request answered 201 with the new post: a success. *)
Lemma publish_selfhosted_created u n p q h cats tags log con
    title content status categories tag_names featured_image_id r info i l :
  let c := SelfHosted u n p q h in
  Forall named (default [] cats) ->
  Forall named (default [] tags) ->
  net log (post_request c
             (selfhosted_post_data title (markdown content) status
                categories tag_names featured_image_id cats tags)) = Return r ->
  status_code r = 201 ->
  json_body r = Return info ->
  getitem info "id" = Return i ->
  getitem info "link" = Return l ->
  exists result,
    (publish_to_wordpress net py_str markdown title content status
       categories tag_names featured_image_id (World (Some c) cats tags log con)).1
    = Return result /\
    result !! "success" = Some (JBool true) /\
    result !! "post_id" = Some i /\
    result !! "url" = Some l.
Proof.
  intros c Hcats Htags Hnet Hst Hinfo Hid Hlink. subst c.
  unfold publish_to_wordpress, get_world. run.
  rewrite (add_terms_named _ _ _ _ _ _ Hcats). simpl.
  rewrite (add_terms_named _ _ _ _ _ _ Htags). simpl.
  rewrite posts_url. simpl. name_post.
  change (with_terms "tags" tag_names tags _)
    with (selfhosted_post_data title (markdown content) status
            categories tag_names featured_image_id cats tags).
  rewrite Hnet. simpl. rewrite Hst. simpl. rewrite Hinfo, Hid, Hlink. simpl.
  eexists. split; [reflexivity|]. repeat split.
Qed.

(** A publication returns a result dictionary in every case. *)
Lemma publish_returns title content status categories tag_names featured_image_id w :
  exists result,
    (publish_to_wordpress net py_str markdown title content status
       categories tag_names featured_image_id w).1 = Return result.
Proof.
  unfold publish_to_wordpress. run.
  destruct (wordpress_config w) as [c|]; [|eexists; reflexivity].
  unfold try_except.
  match goal with |- context [let (o, w') := ?m w in _] => destruct (m w) as [[r|e] w'] end.
  - eexists; reflexivity.
  - apply publish_except_returns.
Qed.

End SelfHostedPublication.

(** ** The fields of the payload *)

Lemma initial_post_data_featured title html status fid :
  initial_post_data title html status fid !! "featured_media"
  = match fid with
    | Some v => if truthy v then Some v else None
    | None => None
    end.
Proof.
  unfold initial_post_data. destruct fid as [v|]; [destruct (truthy v)|].
  - apply lookup_insert_eq.
  - reflexivity.
  - reflexivity.
Qed.

Lemma initial_post_data_other title html status fid k :
  k ∉ ["title"; "content"; "status"; "format"; "featured_media"] ->
  initial_post_data title html status fid !! k = None.
Proof.
  intros Hk. rewrite !not_elem_of_cons in Hk.
  destruct Hk as (H1 & H2 & H3 & H4 & H5 & _).
  assert (Hbase : ({[ "title" := JStr title; "content" := JStr html;
                      "status" := JStr status; "format" := JStr "standard" ]}
                   : gmap string json) !! k = None).
  { rewrite !lookup_insert_ne by congruence. apply lookup_singleton_ne. congruence. }
  unfold initial_post_data. destruct fid as [v|]; [destruct (truthy v)|];
    try exact Hbase.
  rewrite lookup_insert_ne by congruence. exact Hbase.
Qed.

(** A key that is none of the listed ones. *)
Ltac other_key :=
  rewrite !not_elem_of_cons; repeat split; try discriminate; apply not_elem_of_nil.

Lemma with_terms_other key k names cache post_data :
  key <> k ->
  with_terms key names cache post_data !! k = post_data !! k.
Proof.
  intros Hne. unfold with_terms.
  destruct (nonempty names); [|reflexivity].
  destruct (matched_ids _ _); [reflexivity|].
  apply lookup_insert_ne, Hne.
Qed.

Lemma with_terms_key key names cache post_data :
  post_data !! key = None ->
  with_terms key names cache post_data !! key
  = if nonempty names then
      match matched_ids (default [] names) (default [] cache) with
      | [] => None
      | ids => Some (JList ids)
      end
    else None.
Proof.
  intros Hnone. unfold with_terms.
  destruct (nonempty names); [|assumption].
  destruct (matched_ids _ _); [assumption|].
  apply lookup_insert_eq.
Qed.

(** ** Publication to WordPress.com *)

Section HostedPublication.

Variable net : list request -> request -> outcome response.
Variable py_str : json -> string.
Variable markdown : string -> string.

(** C6.  A publication to WordPress.com sends one request, a POST to
    [/posts/new], whatever the category names and whatever the session
    cache holds.  Its payload has no [categories] field; it has a [tags]
    field exactly when tags were given, and then the field is the names
    joined by commas in one string.  The console receives the warning that
    categories are not supported exactly when categories were given. *)
Theorem hosted_payload_has_no_categories
    site domain user token api_base h cats tags log con
    title content status categories tag_names featured_image_id :
  let c := WpCom site domain user token api_base h in
  let w' := (publish_to_wordpress net py_str markdown title content status
               categories tag_names featured_image_id
               (World (Some c) cats tags log con)).2 in
  exists post_data,
    sent w' = (log ++ [Request POST (api_base ++ "/posts/new") h
                         (JsonBody post_data) 30])%list /\
    post_data !! "categories" = None /\
    post_data !! "tags"
      = (if nonempty tag_names
         then Some (JStr (PyStr.join "," (default [] tag_names)))
         else None) /\
    console w'
      = (con ++ if nonempty categories
                then [(StWarning, categories_unsupported)]
                else [])%list /\
    wordpress_config w' = Some c.
Proof.
  intros c w'.
  exists (if nonempty tag_names
          then <[ "tags" := JStr (PyStr.join "," (default [] tag_names)) ]>
                 (initial_post_data title (markdown content) status featured_image_id)
          else initial_post_data title (markdown content) status featured_image_id).
  split; [|split; [|split]].
  - subst w' c. unfold publish_to_wordpress. run.
    destruct (nonempty categories); simpl;
      (destruct (net log _) as [r|e]; simpl;
       [ destruct (status_code r =? 200); simpl;
         [ destruct (json_body r) as [info|e]; simpl;
           [ destruct (getitem info "ID") as [i|e]; simpl;
             [ destruct (getitem info "URL") as [l|e]; simpl | ] | ] | ] | ];
       rewrite ?publish_except_world; reflexivity).
  - destruct (nonempty tag_names).
    + rewrite lookup_insert_ne by discriminate.
      apply initial_post_data_other. other_key.
    + apply initial_post_data_other. other_key.
  - destruct (nonempty tag_names).
    + apply lookup_insert_eq.
    + apply initial_post_data_other. other_key.
  - subst w' c. unfold publish_to_wordpress. run.
    destruct (nonempty categories); simpl;
      (destruct (net log _) as [r|e]; simpl;
       [ destruct (status_code r =? 200); simpl;
         [ destruct (json_body r) as [info|e]; simpl;
           [ destruct (getitem info "ID") as [i|e]; simpl;
             [ destruct (getitem info "URL") as [l|e]; simpl | ] | ] | ] | ];
       rewrite ?publish_except_world, ?app_nil_r; split; reflexivity).
Qed.

End HostedPublication.

(** ** Category and tag names of a self-hosted publication *)

Section TermNames.

Variable net : list request -> request -> outcome response.
Variable py_str : json -> string.
Variable markdown : string -> string.

(** C4.  Resolution against the cache is by equality of the lower-cased
    names and goes through the cache once.  With the cache holding News
    under identifier 3, the names News and news resolve to the single
    identifier 3 and Unknown to nothing; in a publication the first gives
    the payload [categories: [3]], the second no [categories] field.  In
    general the result is the identifiers of the cached terms whose
    lower-cased name is that of a requested name, in cache order, so an
    identifier the cache holds once is yielded at most once. *)
Theorem resolve_case_insensitive_once :
  select_term_ids ["News"; "news"] [news] = Return [JInt 3] /\
  select_term_ids ["Unknown"] [news] = Return [] /\
  (forall names cache,
      Forall named cache ->
      select_term_ids names cache = Return (matched_ids names cache) /\
      (forall i,
          i ∈ matched_ids names cache <->
          exists t s name,
            t ∈ cache /\ term_id t = i /\ term_name t = JStr s /\
            name ∈ names /\ PyStr.lower s = PyStr.lower name) /\
      (NoDup (map term_id cache) -> NoDup (matched_ids names cache))) /\
  (forall u n p q h tags log con title content status tag_names featured_image_id
          requested,
      Forall named (default [] tags) ->
      requested = ["News"; "news"] \/ requested = ["Unknown"] ->
      let c := SelfHosted u n p q h in
      let w' := (publish_to_wordpress net py_str markdown title content status
                   (Some requested) tag_names featured_image_id
                   (World (Some c) (Some [news]) tags log con)).2 in
      exists post_data,
        sent w' = (log ++ [post_request c post_data])%list /\
        post_data !! "categories"
          = if decide (requested = ["Unknown"]) then None else Some (JList [JInt 3])).
Proof.
  split; [reflexivity|]. split; [reflexivity|]. split.
  - intros names cache Hnamed. split; [|split].
    + apply select_term_ids_named, Hnamed.
    + intros i. apply matched_ids_spec.
    + apply matched_ids_NoDup.
  - intros u n p q h tags log con title content status tag_names fid requested
           Htags Hreq c w'.
    assert (Hnews : Forall named (default [] (Some [news])))
      by (repeat constructor; eexists; reflexivity).
    eexists. split.
    + subst w' c.
      rewrite (publish_selfhosted_world net py_str markdown u n p q h (Some [news])
                 tags log con title content status (Some requested) tag_names fid
                 Hnews Htags).
      reflexivity.
    + unfold selfhosted_post_data.
      rewrite with_terms_other by discriminate.
      rewrite with_terms_key by (apply initial_post_data_other; other_key).
      destruct Hreq as [-> | ->]; reflexivity.
Qed.

(** C5, as the code has it.  With string names in the cache, the
    [categories] and [tags] fields of the payload hold the identifiers of the
    requested names that the cache knows, and nothing for the others; a field
    is left out when no requested name is known.  The post request is sent
    in every case, and a 201 answer makes the publication a success.  The
    console is told only of a list of which no name was found, in one warning
    that quotes the whole list; when some names were found, the others are
    dropped without a message. *)
Theorem unmatched_names_are_dropped
    u n p q h cats tags log con title content status categories tag_names
    featured_image_id :
  let c := SelfHosted u n p q h in
  let w := World (Some c) cats tags log con in
  let run := publish_to_wordpress net py_str markdown title content status
               categories tag_names featured_image_id w in
  Forall named (default [] cats) ->
  Forall named (default [] tags) ->
  exists post_data,
    sent run.2 = (log ++ [post_request c post_data])%list /\
    post_data !! "categories"
      = (if nonempty categories then
           match matched_ids (default [] categories) (default [] cats) with
           | [] => None
           | ids => Some (JList ids)
           end
         else None) /\
    post_data !! "tags"
      = (if nonempty tag_names then
           match matched_ids (default [] tag_names) (default [] tags) with
           | [] => None
           | ids => Some (JList ids)
           end
         else None) /\
    console run.2
      = (con ++ terms_warning "categories" categories cats categories_tail
             ++ terms_warning "tags" tag_names tags tags_tail)%list /\
    (forall r info i l,
        net log (post_request c post_data) = Return r ->
        status_code r = 201 ->
        json_body r = Return info ->
        getitem info "id" = Return i ->
        getitem info "link" = Return l ->
        exists result,
          run.1 = Return result /\ result !! "success" = Some (JBool true)).
Proof.
  intros c w run Hcats Htags.
  exists (selfhosted_post_data title (markdown content) status categories
            tag_names featured_image_id cats tags).
  subst run w c.
  rewrite (publish_selfhosted_world net py_str markdown u n p q h cats tags log con
             title content status categories tag_names featured_image_id
             Hcats Htags).
  split; [reflexivity|]. split; [|split; [|split; [reflexivity|]]].
  - unfold selfhosted_post_data.
    rewrite with_terms_other by discriminate.
    apply with_terms_key, initial_post_data_other. other_key.
  - unfold selfhosted_post_data.
    apply with_terms_key. rewrite with_terms_other by discriminate.
    apply initial_post_data_other. other_key.
  - intros r info i l Hnet Hst Hinfo Hid Hlink.
    destruct (publish_selfhosted_created net py_str markdown u n p q h cats tags
                log con title content status categories tag_names
                featured_image_id r info i l Hcats Htags Hnet Hst Hinfo Hid Hlink)
      as (result & Hres & Hok & _).
    exists result. split; assumption.
Qed.

End TermNames.

Lemma resolve_case_insensitive_once_witness :
  select_term_ids ["News"; "news"] [news] = Return (matched_ids ["News"; "news"] [news]) /\
  NoDup (matched_ids ["News"; "news"] [news]).
Proof.
  destruct (resolve_case_insensitive_once (scripted []) scalar_str paragraph)
    as (_ & _ & Hgeneral & _).
  destruct (Hgeneral ["News"; "news"] [news]) as (Hsel & _ & Honce).
  { repeat constructor. eexists. reflexivity. }
  split; [exact Hsel|]. apply Honce. simpl.
  apply NoDup_singleton.
Defined.

Lemma unmatched_names_are_dropped_witness :
  exists post_data,
    sent (publish_to_wordpress (scripted [Return created]) scalar_str paragraph
            "Hello" "Body" "draft" (Some ["News"; "Unknown"]) (Some ["Other"]) None
            (World (Some example_config) (Some [news]) (Some [news]) [] [])).2
    = [post_request example_config post_data] /\
    post_data !! "categories" = Some (JList [JInt 3]) /\
    post_data !! "tags" = None.
Proof.
  destruct (unmatched_names_are_dropped (scripted [Return created]) scalar_str paragraph
              "https://example.com" "admin" "app-pw" None example_headers
              (Some [news]) (Some [news]) [] [] "Hello" "Body" "draft"
              (Some ["News"; "Unknown"]) (Some ["Other"]) None)
    as (post_data & Hsent & Hcats & Htags & _).
  - repeat constructor. eexists. reflexivity.
  - repeat constructor. eexists. reflexivity.
  - exists post_data. split; [exact Hsent|]. split; [exact Hcats | exact Htags].
Defined.

(** C5, as stated, fails: News and Unknown are requested and the cache holds
    News.  Unknown has no match, the post is created with [categories: [3]],
    and the console receives nothing: the unmatched name is not reported. *)
Lemma unmatched_name_beside_a_match_is_silent :
  let run := publish_to_wordpress (scripted [Return created]) scalar_str paragraph
               "Hello" "Body" "draft" (Some ["News"; "Unknown"]) None None
               (World (Some example_config) (Some [news]) None [] []) in
  matched_ids ["Unknown"] [news] = [] /\
  sent run.2
    = [post_request example_config
         (<[ "categories" := JList [JInt 3] ]>
            (initial_post_data "Hello" "<p>Body</p>" "draft" None))] /\
  console run.2 = [] /\
  result_field run.1 "success" = Some (JBool true).
Proof. vm_compute. repeat split; reflexivity. Qed.

(** ** The publish button: featured image, then post *)

Section PublishButton.

Variable net : list request -> request -> outcome response.
Variable py_str : json -> string.
Variable markdown : string -> string.
Variable icon_ok icon_fail : string.

(** The media request answered 201 with the stored attachment. *)
Lemma upload_stored u n p q h cats tags log con image_data filename mime_type
    r info media_id media_url :
  let c := SelfHosted u n p q h in
  net log (media_request c image_data filename mime_type) = Return r ->
  status_code r = 201 ->
  json_body r = Return info ->
  getitem info "id" = Return media_id ->
  getitem info "source_url" = Return media_url ->
  upload_image_to_wordpress net image_data filename mime_type
    (World (Some c) cats tags log con)
  = (Return (uploaded media_id media_url filename),
     World (Some c) cats tags
           (log ++ [media_request c image_data filename mime_type]) con).
Proof.
  intros c Hnet Hst Hinfo Hid Hurl. subst c. unfold upload_image_to_wordpress. run.
  rewrite media_endpoint. simpl.
  change (Request POST _ _ (DataBody image_data) 30)
    with (media_request (SelfHosted u n p q h) image_data filename mime_type).
  rewrite Hnet. simpl. rewrite Hst. simpl. rewrite Hinfo, Hid, Hurl. reflexivity.
Qed.

(** The media request answered with another status. *)
Lemma upload_refused u n p q h cats tags log con image_data filename mime_type r :
  let c := SelfHosted u n p q h in
  net log (media_request c image_data filename mime_type) = Return r ->
  status_code r <> 201 ->
  upload_image_to_wordpress net image_data filename mime_type
    (World (Some c) cats tags log con)
  = (Return (failure ("Image upload failed: " ++ PyStr.of_int (status_code r)
                      ++ " - " ++ text r)),
     World (Some c) cats tags
           (log ++ [media_request c image_data filename mime_type]) con).
Proof.
  intros c Hnet Hst. subst c. unfold upload_image_to_wordpress. run.
  rewrite media_endpoint. simpl.
  change (Request POST _ _ (DataBody image_data) 30)
    with (media_request (SelfHosted u n p q h) image_data filename mime_type).
  rewrite Hnet. simpl.
  destruct (Z.eqb_spec (status_code r) 201) as [|_]; [done|]. reflexivity.
Qed.

Lemma uploaded_fields media_id media_url filename :
  dict_item (uploaded media_id media_url filename) "success" = Return (JBool true) /\
  dict_item (uploaded media_id media_url filename) "media_id" = Return media_id /\
  dict_item (uploaded media_id media_url filename) "message"
  = Return (JStr ("Image '" ++ filename ++ "' uploaded successfully to media library.")).
Proof. repeat split. Qed.

Lemma failure_fields msg :
  dict_item (failure msg) "success" = Return (JBool false) /\
  dict_item (failure msg) "error" = Return (JStr msg).
Proof. repeat split. Qed.

Lemma has_image choice data :
  choice <> "None" -> data <> "" ->
  negb (String.eqb choice "None") && negb (String.eqb data "") = true.
Proof.
  intros Hc Hd. apply String.eqb_neq in Hc, Hd. rewrite Hc, Hd. reflexivity.
Qed.

(** C7, as the code has it.  A publication with a featured image on a
    self-hosted site whose cache holds string names sends the media request
    and then the post request.  When the media request is answered 201 with
    a JSON object that has a [source_url] and an [id] that is true as a
    Python value, that [id] is the [featured_media] of the post payload.
    When it is answered with any other status, the console receives the
    error and the warning that the post goes without the image, the payload
    has no [featured_media], and the outcome of the button is the outcome of
    the publication alone. *)
Theorem featured_media_follows_upload
    u n p q h cats tags log con choice data filename mime_type
    title content status categories tag_names r :
  let c := SelfHosted u n p q h in
  let upload := media_request c data filename mime_type in
  let run := publish_button net py_str markdown icon_ok icon_fail true choice
               (Some data) filename mime_type title content status
               categories tag_names (World (Some c) cats tags log con) in
  choice <> "None" ->
  data <> "" ->
  Forall named (default [] cats) ->
  Forall named (default [] tags) ->
  net log upload = Return r ->
  (forall info media_id media_url,
      status_code r = 201 ->
      json_body r = Return info ->
      getitem info "id" = Return media_id ->
      getitem info "source_url" = Return media_url ->
      truthy media_id = true ->
      exists post_data,
        sent run.2 = (log ++ [upload; post_request c post_data])%list /\
        post_data !! "featured_media" = Some media_id)
  /\
  (status_code r <> 201 ->
   let reported :=
     [(StError, icon_fail ++ " Failed to upload featured image: "
                ++ py_str (JStr ("Image upload failed: "
                                 ++ PyStr.of_int (status_code r) ++ " - " ++ text r)));
      (StWarning, no_image_warning)] in
   let publication :=
     publish_to_wordpress net py_str markdown title content status
       categories tag_names None
       (World (Some c) cats tags (log ++ [upload]) (con ++ reported)) in
   exists post_data result,
     sent run.2 = (log ++ [upload; post_request c post_data])%list /\
     post_data !! "featured_media" = None /\
     (StWarning, no_image_warning) ∈ console run.2 /\
     publication.1 = Return result /\
     run = (Return (Some result), publication.2)).
Proof.
  intros c upload run Hopt Hdata Hcats Htags Hnet. split.
  - intros info media_id media_url Hst Hinfo Hid Hurl Htrue.
    exists (selfhosted_post_data title (markdown content) status categories
              tag_names (Some media_id) cats tags).
    assert (Hrun : run.2 = (publish_to_wordpress net py_str markdown title content
                              status categories tag_names (Some media_id)
                              (World (Some c) cats tags (log ++ [upload])
                                 (con ++ [(StSuccess, icon_ok ++ " "
                                     ++ py_str (JStr ("Image '" ++ filename
                                          ++ "' uploaded successfully to media library.")))]))).2).
    { subst run upload c. unfold publish_button.
      rewrite (has_image _ _ Hopt Hdata). run.
      rewrite (upload_stored u n p q h cats tags log con data filename mime_type
                 r info media_id media_url Hnet Hst Hinfo Hid Hurl).
      destruct (uploaded_fields media_id media_url filename) as (-> & -> & ->).
      run.
      match goal with |- context [publish_to_wordpress ?a ?b ?c ?d ?e ?f ?g ?h ?i ?w] =>
        destruct (publish_to_wordpress a b c d e f g h i w) as [[res|err] w2] end;
        reflexivity. }
    rewrite Hrun. subst c upload.
    rewrite (publish_selfhosted_world net py_str markdown u n p q h cats tags _ _
               title content status categories tag_names (Some media_id)
               Hcats Htags).
    simpl. rewrite <- app_assoc. split; [reflexivity|].
    unfold selfhosted_post_data. rewrite !with_terms_other by discriminate.
    rewrite initial_post_data_featured, Htrue. reflexivity.
  - intros Hst reported publication.
    destruct (publish_returns net py_str markdown title content status categories
                tag_names None
                (World (Some c) cats tags (log ++ [upload]) (con ++ reported)))
      as [result Hres].
    fold publication in Hres.
    assert (Hrun : run = (Return (Some result), publication.2)).
    { subst run publication reported upload c. unfold publish_button.
      rewrite (has_image _ _ Hopt Hdata). run.
      rewrite (upload_refused u n p q h cats tags log con data filename mime_type
                 r Hnet Hst).
      destruct (failure_fields ("Image upload failed: "
                  ++ PyStr.of_int (status_code r) ++ " - " ++ text r)) as (-> & ->).
      run. rewrite <- app_assoc. simpl. revert Hres.
      match goal with |- context [publish_to_wordpress ?a ?b ?c ?d ?e ?f ?g ?h ?i ?w] =>
        destruct (publish_to_wordpress a b c d e f g h i w) as [[res|err] w2] end;
        simpl; intros Hres; [injection Hres as ->; reflexivity | discriminate]. }
    exists (selfhosted_post_data title (markdown content) status categories
              tag_names None cats tags), result.
    rewrite Hrun. subst publication c upload. simpl.
    rewrite (publish_selfhosted_world net py_str markdown u n p q h cats tags _ _
               title content status categories tag_names None Hcats Htags).
    simpl. rewrite <- app_assoc. split; [reflexivity|]. split; [|split; [|split]].
    + unfold selfhosted_post_data. rewrite !with_terms_other by discriminate.
      apply initial_post_data_featured.
    + subst reported. rewrite !elem_of_app, !elem_of_cons. auto.
    + exact Hres.
    + reflexivity.
Qed.

End PublishButton.

Lemma featured_media_follows_upload_witness :
  exists post_data,
    sent (publish_button (scripted [Return stored; Return created]) scalar_str paragraph
            "[ok]" "[failed]" true "Manual Upload" (Some "GIF89a") "cover.gif" "image/gif"
            "Hello" "Body" "draft" None None example_world).2
    = [media_request example_config "GIF89a" "cover.gif" "image/gif";
       post_request example_config post_data] /\
    post_data !! "featured_media" = Some (JInt 12).
Proof.
  destruct (featured_media_follows_upload
              (scripted [Return stored; Return created]) scalar_str paragraph
              "[ok]" "[failed]"
              "https://example.com" "admin" "app-pw" None example_headers
              None None [] [] "Manual Upload" "GIF89a" "cover.gif" "image/gif"
              "Hello" "Body" "draft" None None stored)
    as [Hstored _]; try (constructor || discriminate || reflexivity).
  apply (Hstored (JObj [("id", JInt 12);
                        ("source_url",
                         JStr "https://example.com/wp-content/uploads/cover.gif")])
                 (JInt 12)
                 (JStr "https://example.com/wp-content/uploads/cover.gif"));
    reflexivity.
Defined.

(** C7, as stated, fails.  The media request is answered 201, but with a body
    that is no JSON: the upload reports a failure and the post is created
    without [featured_media].  And when the 201 body carries the identifier 0,
    the upload succeeds with that identifier and [if featured_image_id:]
    leaves it out of the payload. *)
Lemma upload_201_without_featured_media :
  let button net :=
    publish_button net scalar_str paragraph "[ok]" "[failed]" true
      "Manual Upload" (Some "GIF89a") "cover.gif" "image/gif"
      "Hello" "Body" "draft" None None example_world in
  let plain := initial_post_data "Hello" "<p>Body</p>" "draft" None in
  let zero :=
    Response 201 "" (Return (JObj [("id", JInt 0); ("source_url", JStr "")])) in
  status_code stored_garbled = 201 /\
  sent (button (scripted [Return stored_garbled; Return created])).2
    = [media_request example_config "GIF89a" "cover.gif" "image/gif";
       post_request example_config plain] /\
  (StWarning, no_image_warning)
    ∈ console (button (scripted [Return stored_garbled; Return created])).2 /\
  status_code zero = 201 /\
  sent (button (scripted [Return zero; Return created])).2
    = [media_request example_config "GIF89a" "cover.gif" "image/gif";
       post_request example_config plain] /\
  plain !! "featured_media" = None.
Proof.
  vm_compute. repeat split; try reflexivity.
  apply list_elem_of_In. right. left. reflexivity.
Qed.

(** ** parse_project_files *)

Lemma store_blocks_cons block blocks files :
  store_blocks (block :: blocks) files
  = store_blocks blocks (<[ PyStr.strip block.1.1 := PyStr.strip block.2 ]> files).
Proof. destruct block as [[filename lang] file_content]. reflexivity. Qed.

(** A key that is present stays present. *)
Lemma store_blocks_keeps blocks files name :
  is_Some (files !! name) -> is_Some (store_blocks blocks files !! name).
Proof.
  revert files. induction blocks as [|block blocks IH]; intros files Hin; [exact Hin|].
  rewrite store_blocks_cons. apply IH.
  destruct (decide (PyStr.strip block.1.1 = name)) as [<-|Hne].
  - rewrite lookup_insert_eq. eauto.
  - rewrite lookup_insert_ne by exact Hne. exact Hin.
Qed.

(** Every block leaves an entry under its stripped file name. *)
Lemma store_blocks_covers blocks files filename lang file_content :
  (filename, lang, file_content) ∈ blocks ->
  is_Some (store_blocks blocks files !! PyStr.strip filename).
Proof.
  revert files. induction blocks as [|block blocks IH]; intros files Hin.
  - inversion Hin.
  - rewrite store_blocks_cons. apply elem_of_cons in Hin as [<- | Hin].
    + apply store_blocks_keeps. simpl. rewrite lookup_insert_eq. eauto.
    + apply IH, Hin.
Qed.

(** Every entry is an earlier one or comes from a block, name and content
    stripped. *)
Lemma store_blocks_lookup blocks files name body :
  store_blocks blocks files !! name = Some body ->
  files !! name = Some body \/
  exists filename lang file_content,
    (filename, lang, file_content) ∈ blocks /\
    name = PyStr.strip filename /\ body = PyStr.strip file_content.
Proof.
  revert files. induction blocks as [|[[filename lang] file_content] blocks IH];
    intros files Hlook; [left; exact Hlook|].
  rewrite store_blocks_cons in Hlook. simpl in Hlook.
  destruct (IH _ Hlook) as [Hhere | (f & l & c & Hin & Hname & Hbody)].
  - destruct (decide (PyStr.strip filename = name)) as [Heq|Hne].
    + rewrite <- Heq, lookup_insert_eq in Hhere. injection Hhere as <-.
      right. exists filename, lang, file_content.
      split; [apply list_elem_of_here | auto].
    + rewrite lookup_insert_ne in Hhere by exact Hne. left. exact Hhere.
  - right. exists f, l, c. split; [apply list_elem_of_further, Hin | auto].
Qed.

Lemma store_blocks_nonempty block blocks files :
  store_blocks (block :: blocks) files <> ∅.
Proof.
  destruct block as [[filename lang] file_content].
  intros Hempty.
  destruct (store_blocks_covers ((filename, lang, file_content) :: blocks) files
              filename lang file_content (list_elem_of_here _ _)) as [body Hbody].
  rewrite Hempty, lookup_empty in Hbody. discriminate.
Qed.

Lemma placeholder_files_nonempty : placeholder_files <> ∅.
Proof. apply insert_non_empty. Qed.

Lemma is_empty_dict_true : is_empty_dict ∅ = true.
Proof. apply bool_decide_eq_true_2. reflexivity. Qed.

Lemma is_empty_dict_false files : files <> ∅ -> is_empty_dict files = false.
Proof. apply bool_decide_eq_false_2. Qed.

(** The three ways through [parse_project_files]. *)
Lemma parse_strict content w block blocks :
  file_blocks_matches content = block :: blocks ->
  parse_project_files content w = (Return (store_blocks (block :: blocks) ∅), w).
Proof.
  intros Hblocks. unfold parse_project_files. rewrite Hblocks.
  rewrite (is_empty_dict_false _ (store_blocks_nonempty block blocks ∅)).
  unfold mbind, M_bind, mret, M_ret.
  rewrite (is_empty_dict_false _ (store_blocks_nonempty block blocks ∅)).
  reflexivity.
Qed.

Lemma parse_lenient content w :
  file_blocks_matches content = [] ->
  lenient_files content <> ∅ ->
  (parse_project_files content w).1 = Return (lenient_files content).
Proof.
  intros Hblocks Hlenient. unfold parse_project_files. rewrite Hblocks.
  change (store_blocks [] ∅) with (∅ : gmap string string).
  rewrite is_empty_dict_true. unfold mbind, M_bind, mret, M_ret, st. simpl.
  rewrite (is_empty_dict_false _ Hlenient). reflexivity.
Qed.

Lemma parse_placeholders content w :
  file_blocks_matches content = [] ->
  lenient_files content = ∅ ->
  (parse_project_files content w).1 = Return placeholder_files.
Proof.
  intros Hblocks Hlenient. unfold parse_project_files. rewrite Hblocks.
  change (store_blocks [] ∅) with (∅ : gmap string string).
  rewrite is_empty_dict_true. unfold mbind, M_bind, mret, M_ret, st. simpl.
  rewrite Hlenient, is_empty_dict_true. reflexivity.
Qed.

(** C10.  [parse_project_files] returns a dictionary for every input, and
    never an empty one.  When the strict pattern finds blocks, the result is
    what the first loop stored, without a console message: every block has
    an entry under its stripped file name, and every entry is the stripped
    name and the stripped content of a block.  When the strict pattern finds
    nothing and the lenient split yields no file, the result is the three
    placeholder files [README.md], [main.py] and [requirements.txt]. *)
Theorem parse_project_files_never_empty content w :
  let blocks := file_blocks_matches content in
  exists files,
    (parse_project_files content w).1 = Return files /\
    files <> ∅ /\
    (blocks <> [] ->
     (parse_project_files content w).2 = w /\
     files = store_blocks blocks ∅ /\
     (forall filename lang file_content,
         (filename, lang, file_content) ∈ blocks ->
         is_Some (files !! PyStr.strip filename)) /\
     (forall name body,
         files !! name = Some body ->
         exists filename lang file_content,
           (filename, lang, file_content) ∈ blocks /\
           name = PyStr.strip filename /\ body = PyStr.strip file_content)) /\
    (blocks = [] ->
     lenient_files content = ∅ ->
     files = placeholder_files /\
     dom files = {[ "README.md"; "main.py"; "requirements.txt" ]} /\
     size files = 3%nat).
Proof.
  intros blocks. destruct blocks as [|block blocks'] eqn:Hblocks; subst blocks.
  - (* the strict pattern found nothing *)
    destruct (decide (lenient_files content = ∅)) as [Hempty | Hlenient].
    + exists placeholder_files.
      split; [apply parse_placeholders; assumption|].
      split; [apply placeholder_files_nonempty|].
      split; [intros Hne; contradiction|].
      intros _ _. split; [reflexivity|]. split; [|reflexivity].
      apply leibniz_equiv. unfold placeholder_files.
      rewrite !dom_insert, dom_empty. set_solver.
    + exists (lenient_files content).
      split; [apply parse_lenient; assumption|].
      split; [exact Hlenient|].
      split; [intros Hne; contradiction|].
      intros _ Hempty. contradiction.
  - (* the strict pattern found blocks *)
    rewrite (parse_strict content w block blocks' Hblocks).
    exists (store_blocks (block :: blocks') ∅). split; [reflexivity|].
    split; [apply store_blocks_nonempty|]. split; [|intros Hnil; discriminate].
    intros _. split; [reflexivity|]. split; [reflexivity|]. split.
    + intros filename lang file_content Hin.
      apply (store_blocks_covers _ _ _ lang file_content), Hin.
    + intros name body Hlook.
      destruct (store_blocks_lookup _ _ _ _ Hlook) as [Hinit | Hblock].
      * rewrite lookup_empty in Hinit. discriminate.
      * exact Hblock.
Qed.

Lemma parse_project_files_never_empty_witness :
  (parse_project_files one_file_response example_world).1
  = Return {[ "main.py" := "print(1)" ]}.
Proof.
  destruct (parse_project_files_never_empty one_file_response example_world)
    as (files & Hreturned & _ & Hstrict & _).
  destruct Hstrict as (_ & Hfiles & _); [vm_compute; discriminate|].
  rewrite Hreturned, Hfiles. vm_compute. reflexivity.
Defined.

(** The other two ways: a marker without fences, and no marker at all. *)
Example parse_lenient_example :
  (parse_project_files ("file: notes.txt" ++ nl ++ "remember") example_world).1
  = Return {[ "file: notes.txt" := "remember" ]}.
Proof. vm_compute. reflexivity. Qed.

Example parse_placeholder_example :
  (parse_project_files "I cannot help with that." example_world).1
  = Return placeholder_files.
Proof. vm_compute. reflexivity. Qed.

(** A publication to WordPress.com, from [setup_wordpress] on. *)
Example hosted_publication_example :
  let w0 := (setup_wordpress "https://myblog.wordpress.com/" "me" "token"
               (World None (Some [news]) None [] [])).2 in
  let w1 := (publish_to_wordpress (scripted []) scalar_str paragraph
               "Hello" "Body" "publish" (Some ["News"]) (Some ["a"; "b"]) None w0).2 in
  sent w1
  = [Request POST "https://public-api.wordpress.com/rest/v1.1/sites/myblog.wordpress.com/posts/new"
       {[ "Content-Type" := "application/json"; "Authorization" := "Bearer token" ]}
       (JsonBody (<[ "tags" := JStr "a,b" ]>
                    (initial_post_data "Hello" "<p>Body</p>" "publish" None))) 30] /\
  console w1 = [(StWarning, categories_unsupported)].
Proof. vm_compute. split; reflexivity. Qed.

(** * Further properties of the publisher and the content agent *)

(** Destructure every branch of a computation that has been unfolded. *)
Ltac innermost x :=
  lazymatch x with
  | context [match ?y with _ => _ end] => innermost y
  | _ => destruct x eqn:?
  end.

Ltac branches :=
  repeat (simpl; match goal with
          | |- context [match ?x with _ => _ end] => innermost x
          end); simpl.

(** Close a goal that lists what a run returned and left behind. *)
Ltac answered :=
  repeat match goal with
  | |- _ /\ _ => split
  | |- exists _, _ => eexists
  | |- _ = _ => reflexivity
  | |- Forall _ _ => constructor
  | |- (_ <= _)%nat => simpl; lia
  | |- _ \/ _ =>
      first [ left; answered; fail | right; answered; fail ]
  end.

Section ConnectionTestOutcomes.

Variable net : list request -> request -> outcome response.
Variable py_str : json -> string.

(** X1.  On a configured publisher the connection test returns a result
    dictionary whatever the network does, exceptions included: [success] is a
    boolean, with a [message] beside [True] and an [error] beside [False].  It
    sends the first probe and at most the fallback probe, and leaves the
    session caches, the console, the site URL, the credentials and the shared
    headers as they were; only the permalink mode of a self-hosted
    configuration can change. *)
Theorem connection_test_always_answers c cats tags log con :
  let run := test_wordpress_connection net py_str (World (Some c) cats tags log con) in
  exists d b c' probes,
    run.1 = Return d /\
    d !! "success" = Some (JBool b) /\
    (exists text, d !! (if b then "message" else "error") = Some (JStr text)) /\
    run.2 = World (Some c') cats tags (log ++ probes) con /\
    (probes = [hosted_probe c] \/ probes = [first_probe c]
     \/ probes = [first_probe c; fallback_probe c]) /\
    (c' = c \/ exists mode, is_wpcom c = false /\ c' = set_use_query_params mode c).
Proof.
  intros run. subst run. unfold test_wordpress_connection, test_except. run.
  assert (Hfb : forall u n p q h,
             Request GET (u ++ "/?rest_route=/wp/v2/users/me")
               (<[ "Accept" := "application/json" ]> h) NoBody 10
             = fallback_probe (SelfHosted u n p q h)) by reflexivity.
  destruct c as [site domain user token api_base h | u n p q h]; simpl.
  - change (Request GET (api_base ++ "/") h NoBody 10)
      with (hosted_probe (WpCom site domain user token api_base h)).
    branches; eexists _, _, _, _; answered.
  - rewrite first_probe_url. simpl. name_probes. rewrite (Hfb u n p q h).
    branches; rewrite <- ?app_assoc; eexists _, _, _, _; answered.
Qed.

(** X2.  A first probe of a self-hosted site answered with a status other
    than 200, 401 and 404 ends the test: the result is the generic API error
    with that status and body, the fallback form is not tried, and the mode is
    not touched. *)
Theorem test_other_status_no_fallback u n p q h cats tags log con r :
  let c := SelfHosted u n p q h in
  net log (first_probe c) = Return r ->
  status_code r <> 404 ->
  status_code r <> 200 ->
  status_code r <> 401 ->
  test_wordpress_connection net py_str (World (Some c) cats tags log con)
  = (Return (failure ("WordPress API error: " ++ PyStr.of_int (status_code r)
                      ++ " - " ++ text r
                      ++ ". Check if REST API is enabled and credentials are correct.")),
     World (Some c) cats tags (log ++ [first_probe c]) con).
Proof.
  intros c Hnet H404 H200 H401. subst c. unfold test_wordpress_connection. run.
  rewrite first_probe_url. name_probes. rewrite Hnet. simpl.
  destruct (Z.eqb_spec (status_code r) 404) as [|_]; [done|].
  destruct (Z.eqb_spec (status_code r) 200) as [|_]; [done|].
  destruct (Z.eqb_spec (status_code r) 401) as [|_]; [done|].
  reflexivity.
Qed.

(** X3.  When the first probe is answered 404 and the fallback 401, the
    result is the authentication failure; two requests were sent and the
    mode is not touched. *)
Theorem test_fallback_401 u n p q h cats tags log con r1 r2 :
  let c := SelfHosted u n p q h in
  net log (first_probe c) = Return r1 ->
  status_code r1 = 404 ->
  net (log ++ [first_probe c]) (fallback_probe c) = Return r2 ->
  status_code r2 = 401 ->
  test_wordpress_connection net py_str (World (Some c) cats tags log con)
  = (Return (failure auth_failed),
     World (Some c) cats tags (log ++ [first_probe c; fallback_probe c]) con).
Proof.
  intros c Hnet1 Hst1 Hnet2 Hst2. subst c. unfold test_wordpress_connection. run.
  rewrite first_probe_url. name_probes.
  rewrite Hnet1. simpl. rewrite Hst1. simpl. name_probes.
  rewrite Hnet2. simpl. rewrite Hst2. simpl.
  rewrite <- app_assoc. reflexivity.
Qed.

(** X4.  A probe that raises is turned into a result: the timeout text for
    a [Timeout], "Network error or invalid URL: " and the exception's text
    for another request exception, the bare text for any other exception.
    This holds for the first request of either kind of site and for the
    fallback request; the configuration is not touched. *)
Theorem test_transport_failure c cats tags log con e :
  let first := if is_wpcom c then hosted_probe c else first_probe c in
  let answer :=
    Return (failure (classify
      "Connection timed out. Please check the URL and your network connection."
      "Network error or invalid URL: " "" e)) in
  (net log first = Raise e ->
   test_wordpress_connection net py_str (World (Some c) cats tags log con)
   = (answer, World (Some c) cats tags (log ++ [first]) con))
  /\
  (forall r1,
      is_wpcom c = false ->
      net log first = Return r1 ->
      status_code r1 = 404 ->
      net (log ++ [first]) (fallback_probe c) = Raise e ->
      test_wordpress_connection net py_str (World (Some c) cats tags log con)
      = (answer, World (Some c) cats tags (log ++ [first; fallback_probe c]) con)).
Proof.
  intros first answer. subst first answer. unfold classify. split.
  - intros Hnet. unfold test_wordpress_connection, test_except. run.
    destruct c as [site domain user token api_base h | u n p q h]; simpl in *.
    + change (Request GET (api_base ++ "/") h NoBody 10)
        with (hosted_probe (WpCom site domain user token api_base h)).
      rewrite Hnet. simpl.
      destruct (is_timeout e); [reflexivity|].
      destruct (is_request_exception e); reflexivity.
    + rewrite first_probe_url. name_probes. rewrite Hnet. simpl.
      destruct (is_timeout e); [reflexivity|].
      destruct (is_request_exception e); reflexivity.
  - intros r1 Hself Hnet1 Hst1 Hnet2.
    destruct c as [site domain user token api_base h | u n p q h]; [discriminate|].
    simpl in *. unfold test_wordpress_connection, test_except. run.
    rewrite first_probe_url. name_probes.
    rewrite Hnet1. simpl. rewrite Hst1. simpl. name_probes.
    rewrite Hnet2. simpl. rewrite <- app_assoc.
    destruct (is_timeout e); [reflexivity|].
    destruct (is_request_exception e); reflexivity.
Qed.

(** X5.  The connection test of a WordPress.com site sends one GET to the
    base path with the shared headers and never sets a permalink mode.  A 200
    whose body is a JSON object reports the site's [name], or Unknown when the
    object has none; a 403 gives the private-site message; any other status
    gives the API error with that status and body. *)
Theorem hosted_test_outcomes site domain user token api_base h cats tags log con r :
  let c := WpCom site domain user token api_base h in
  let run := test_wordpress_connection net py_str (World (Some c) cats tags log con) in
  net log (Request GET (api_base ++ "/") h NoBody 10) = Return r ->
  run.2 = World (Some c) cats tags (log ++ [Request GET (api_base ++ "/") h NoBody 10]) con /\
  (forall members,
      status_code r = 200 ->
      json_body r = Return (JObj members) ->
      run.1 = Return (connected
                ("Connected to WordPress.com site: "
                 ++ py_str (default (JStr "Unknown") (assoc "name" members))))) /\
  (status_code r = 403 ->
   run.1 = Return (failure "WordPress.com site is private or in Coming Soon mode. Please make your site public first.")) /\
  (status_code r <> 200 ->
   status_code r <> 403 ->
   run.1 = Return (failure ("WordPress.com API error: "
                            ++ PyStr.of_int (status_code r) ++ " - " ++ text r))).
Proof.
  intros c run Hnet. subst run c. unfold test_wordpress_connection, test_except. run.
  rewrite Hnet. simpl. split; [|split; [|split]].
  - branches; reflexivity.
  - intros members Hst Hjson. rewrite Hst. simpl. rewrite Hjson. reflexivity.
  - intros Hst. rewrite Hst. reflexivity.
  - intros H200 H403.
    destruct (Z.eqb_spec (status_code r) 200) as [|_]; [done|].
    destruct (Z.eqb_spec (status_code r) 403) as [|_]; [done|].
    reflexivity.
Qed.

End ConnectionTestOutcomes.

Lemma test_other_status_no_fallback_witness :
  test_wordpress_connection (scripted [Return server_error]) scalar_str example_world
  = (Return (failure "WordPress API error: 500 - Internal Server Error. Check if REST API is enabled and credentials are correct."),
     World (Some example_config) None None [first_probe example_config] []).
Proof.
  apply (test_other_status_no_fallback (scripted [Return server_error]) scalar_str
           "https://example.com" "admin" "app-pw" None example_headers
           None None [] [] server_error); try reflexivity; discriminate.
Defined.

Lemma test_fallback_401_witness :
  test_wordpress_connection (scripted [Return not_found; Return unauthorized])
                            scalar_str example_world
  = (Return (failure auth_failed),
     World (Some example_config) None None
           [first_probe example_config; fallback_probe example_config] []).
Proof.
  apply (test_fallback_401 (scripted [Return not_found; Return unauthorized])
           scalar_str "https://example.com" "admin" "app-pw" None example_headers
           None None [] [] not_found unauthorized); reflexivity.
Defined.

Lemma hosted_test_outcomes_witness :
  (test_wordpress_connection (scripted [Return site_info]) scalar_str hosted_world).1
  = Return (connected "Connected to WordPress.com site: My Blog").
Proof.
  destruct (hosted_test_outcomes (scripted [Return site_info]) scalar_str
              "https://myblog.wordpress.com" "myblog.wordpress.com" "me" "token"
              "https://public-api.wordpress.com/rest/v1.1/sites/myblog.wordpress.com"
              {[ "Content-Type" := "application/json"; "Authorization" := "Bearer token" ]}
              None None [] [] site_info eq_refl) as (_ & Hok & _).
  apply (Hok [("name", JStr "My Blog")]); reflexivity.
Defined.

(** ** setup_wordpress *)

(** What [rstrip] returns does not end with a stripped character. *)
Lemma rstrip_by_no_trailing p s t c :
  p c = true -> PyStr.rstrip_by p s <> t ++ String c "".
Proof.
  intros Hp. revert t. induction s as [|a r IH]; intros t; simpl.
  - destruct t; discriminate.
  - destruct (PyStr.rstrip_by p r) as [|b r'] eqn:Hr.
    + destruct (p a) eqn:Hpa.
      * destruct t; discriminate.
      * destruct t as [|x t]; simpl.
        -- intros [= ->]. congruence.
        -- intros [= _ Ht]. destruct t; discriminate.
    + destruct t as [|x t]; simpl.
      * discriminate.
      * intros [= _ Ht]. exact (IH t Ht).
Qed.

(** X6.  [setup_wordpress] replaces the configuration, whatever it was: the
    site is a WordPress.com site exactly when its URL contains wordpress.com
    in any letter case, the stored URL is the given one without its trailing
    slashes, the permalink mode is unknown again, and the header set is the
    JSON content type with Bearer or Basic credentials.  For a self-hosted
    site every endpoint is then addressed in the [/wp-json] form.  The session
    caches, the request log and the console are left as they were. *)
Theorem setup_replaces_configuration net py_str markdown site user pw w :
  exists c,
    setup_wordpress site user pw w
    = (Return tt,
       World (Some c) (wp_all_categories w) (wp_all_tags w) (sent w) (console w)) /\
    is_wpcom c = PyStr.contains "wordpress.com" (PyStr.lower site) /\
    site_url c = PyStr.rstrip_slash site /\
    (forall t, site_url c <> t ++ "/") /\
    use_query_params c = None /\
    headers c
    = {[ "Content-Type" := "application/json";
         "Authorization" :=
           if is_wpcom c then "Bearer " ++ pw
           else "Basic " ++ Base64.b64encode (user ++ ":" ++ pw) ]} /\
    (is_wpcom c = false ->
     forall ks endpoint,
       let w' := perform_all net py_str markdown ks (setup_wordpress site user pw w).2 in
       (_get_api_url endpoint w').1
       = Return (PyStr.rstrip_slash site ++ "/wp-json" ++ endpoint)).
Proof.
  unfold setup_wordpress, put_config.
  destruct (PyStr.contains "wordpress.com" (PyStr.lower site)) eqn:Hkind;
    eexists; (split; [reflexivity|]); simpl; repeat split;
    try (intros t; apply rstrip_by_no_trailing; reflexivity);
    try discriminate.
  intros _ ks endpoint.
  unfold _get_api_url, mbind, M_bind, get_config, lift. simpl.
  rewrite perform_all_keeps_config. reflexivity.
Qed.

(** ** Fetching categories and tags *)

Arguments terms_request : simpl never.

Section TermsFetch.

Variable net : list request -> request -> outcome response.

Lemma terms_url u n p q h term_type :
  api_url_of (Some (SelfHosted u n p q h)) ("/wp/v2/" ++ term_type)
  = Return (req_url (terms_request (SelfHosted u n p q h) term_type)).
Proof. destruct q as [[]|]; reflexivity. Qed.

Ltac name_terms_request :=
  match goal with
  | |- context [Request GET (req_url (terms_request ?c ?t)) ?h NoBody 10] =>
      change (Request GET (req_url (terms_request c t)) h NoBody 10)
        with (terms_request c t)
  end.

Lemma term_of_describes item t : term_of item = Return t <-> describes item t.
Proof.
  unfold term_of, describes. destruct t as [i n]. simpl. split.
  - destruct (getitem item "id") as [i'|]; [|discriminate].
    destruct (getitem item "name") as [n'|]; [|discriminate].
    intros [= -> ->]. split; reflexivity.
  - intros [-> ->]. reflexivity.
Qed.


Lemma append_terms_all items : forall terms acc,
  Forall2 describes items terms ->
  forall rest, append_terms acc (items ++ rest) = append_terms (acc ++ terms) rest.
Proof.
  induction items as [|item items IH]; intros terms acc Hall rest.
  - inversion Hall. rewrite app_nil_r. reflexivity.
  - inversion Hall as [|? t ? terms' Hitem Hitems]; subst. simpl.
    apply term_of_describes in Hitem. rewrite Hitem.
    rewrite (IH terms' (acc ++ [t])%list Hitems rest), <- app_assoc. reflexivity.
Qed.

(** X7.  A 200 answer whose body is a JSON list of objects, each with an [id]
    and a [name], gives the terms of those objects in the order of the list,
    extra members ignored.  One GET was sent, to the endpoint in the form of
    the current permalink mode and with [Accept: application/json] added to
    the shared headers; nothing is written on the console. *)
Theorem fetch_returns_listed_terms
    u n p q h cats tags log con term_type r items terms :
  let c := SelfHosted u n p q h in
  net log (terms_request c term_type) = Return r ->
  status_code r = 200 ->
  json_body r = Return (JList items) ->
  Forall2 describes items terms ->
  _get_terms_robust net term_type (World (Some c) cats tags log con)
  = (Return terms, World (Some c) cats tags (log ++ [terms_request c term_type]) con).
Proof.
  intros c Hnet Hst Hjson Hall. subst c. unfold _get_terms_robust. run.
  rewrite terms_url. name_terms_request.
  rewrite Hnet. simpl. rewrite Hst. simpl.
  unfold terms_of_response. rewrite Hjson. simpl.
  rewrite <- (app_nil_r items), (append_terms_all items terms [] Hall []). reflexivity.
Qed.


(** X9.  Fetching is best effort.  A status other than 200 gives the empty
    list and an error message with the URL, the status and the body; a
    request that raises a request exception gives the empty list and the
    timeout or network message; a 200 whose body does not decode gives the
    empty list and a message.  In each case one request was sent and the
    configuration and the caches are untouched. *)
Theorem fetch_failures_give_empty_list u n p q h cats tags log con term_type :
  let c := SelfHosted u n p q h in
  let told msg :=
    (Return ([] : list term),
     World (Some c) cats tags (log ++ [terms_request c term_type])
           (con ++ [(StError, msg)])) in
  let run := _get_terms_robust net term_type (World (Some c) cats tags log con) in
  (forall r,
      net log (terms_request c term_type) = Return r ->
      status_code r <> 200 ->
      run = told ("Failed to fetch " ++ term_type ++ " from "
                  ++ req_url (terms_request c term_type) ++ ": "
                  ++ PyStr.of_int (status_code r) ++ " - " ++ text r)) /\
  (forall e,
      net log (terms_request c term_type) = Raise e ->
      is_request_exception e = true ->
      run = told (if is_timeout e
                  then "Timed out fetching " ++ term_type
                       ++ ". Check network or site responsiveness."
                  else "Network error fetching " ++ term_type ++ ": " ++ exn_str e)) /\
  (forall r e,
      net log (terms_request c term_type) = Return r ->
      status_code r = 200 ->
      json_body r = Raise e ->
      is_json_decode_error e = true ->
      run = told (if is_request_exception e
                  then "Network error fetching " ++ term_type ++ ": " ++ exn_str e
                  else "Failed to decode JSON from " ++ term_type ++ " response: "
                       ++ text r)).
Proof.
  intros c told run. subst c told run. unfold _get_terms_robust. run.
  rewrite terms_url. name_terms_request. split; [|split].
  - intros r Hnet Hst. rewrite Hnet. simpl.
    destruct (Z.eqb_spec (status_code r) 200) as [|_]; [done|]. reflexivity.
  - intros e Hnet He. rewrite Hnet. simpl. unfold terms_except. rewrite He.
    destruct (is_timeout e); reflexivity.
  - intros r e Hnet Hst Hjson He. rewrite Hnet. simpl. rewrite Hst. simpl.
    unfold terms_of_response. rewrite Hjson. simpl. unfold terms_except. rewrite He.
    destruct e as [[] msg]; try discriminate; reflexivity.
Qed.

End TermsFetch.

Lemma fetch_returns_listed_terms_witness :
  _get_terms_robust (scripted [Return two_categories]) "categories" example_world
  = (Return [Term (JInt 3) (JStr "News"); Term (JInt 5) (JStr "Tech")],
     World (Some example_config) None None
           [terms_request example_config "categories"] []).
Proof.
  apply (fetch_returns_listed_terms (scripted [Return two_categories])
           "https://example.com" "admin" "app-pw" None example_headers
           None None [] [] "categories" two_categories
           [JObj [("id", JInt 3); ("name", JStr "News"); ("count", JInt 4)];
            JObj [("id", JInt 5); ("name", JStr "Tech"); ("count", JInt 0)]]);
    try reflexivity.
  repeat constructor.
Defined.


(** ** Upload and publication in every case *)

Section EveryOutcome.

Variable net : list request -> request -> outcome response.
Variable py_str : json -> string.
Variable markdown : string -> string.

(** X10.  An upload returns a result dictionary whatever the state and the
    network: either a failure with its message or the success record with the
    identifier and the URL.  It reports a success only when the site is
    self-hosted and answered the media request 201 with a JSON body that has
    that [id] and that [source_url].  At most one request is sent, and the
    configuration and the caches are left alone. *)
Theorem upload_always_answers image_data filename mime_type w :
  let run := upload_image_to_wordpress net image_data filename mime_type w in
  exists d new,
    run.1 = Return d /\
    ((exists msg, d = failure msg) \/
     (exists u n p q h r info media_id source,
         wordpress_config w = Some (SelfHosted u n p q h) /\
         new = [media_request (SelfHosted u n p q h) image_data filename mime_type] /\
         net (sent w) (media_request (SelfHosted u n p q h) image_data filename mime_type)
           = Return r /\
         status_code r = 201 /\
         json_body r = Return info /\
         getitem info "id" = Return media_id /\
         getitem info "source_url" = Return source /\
         d = uploaded media_id source filename)) /\
    sent run.2 = (sent w ++ new)%list /\
    (length new <= 1)%nat /\
    wordpress_config run.2 = wordpress_config w /\
    wp_all_categories run.2 = wp_all_categories w /\
    wp_all_tags run.2 = wp_all_tags w.
Proof.
  intros run. subst run. destruct w as [[c|] cats tags log con].
  - destruct c as [site domain user token api_base h | u n p q h].
    + exists (failure "WordPress.com image upload not fully supported in this version. Try self-hosted WP."), [].
      unfold upload_image_to_wordpress. run. rewrite app_nil_r.
      repeat split; eauto.
    + unfold upload_image_to_wordpress, upload_except. run.
      rewrite media_endpoint. simpl.
      change (Request POST _ _ (DataBody image_data) 30)
        with (media_request (SelfHosted u n p q h) image_data filename mime_type).
      destruct (net log _) as [r|e] eqn:Hnet; simpl.
      * destruct (Z.eqb_spec (status_code r) 201) as [Hst|Hst]; simpl.
        -- destruct (json_body r) as [info|e] eqn:Hinfo; simpl.
           ++ destruct (getitem info "id") as [i|e] eqn:Hid; simpl.
              ** destruct (getitem info "source_url") as [l|e] eqn:Hurl; simpl.
                 --- eexists _, [_]. split; [reflexivity|]. split.
                     { right. exists u, n, p, q, h, r, info, i, l. repeat split; auto. }
                     repeat split; auto.
                 --- branches; eexists _, [_]; (split; [reflexivity|]);
                       (split; [left; eexists; reflexivity|]); repeat split; auto.
              ** branches; eexists _, [_]; (split; [reflexivity|]);
                   (split; [left; eexists; reflexivity|]); repeat split; auto.
           ++ branches; eexists _, [_]; (split; [reflexivity|]);
                (split; [left; eexists; reflexivity|]); repeat split; auto.
        -- eexists _, [_]. split; [reflexivity|].
           split; [left; eexists; reflexivity|]. repeat split; auto.
      * branches; eexists _, [_]; (split; [reflexivity|]);
          (split; [left; eexists; reflexivity|]); repeat split; auto.
  - exists (failure "WordPress not configured"), [].
    unfold upload_image_to_wordpress. run. rewrite app_nil_r. repeat split; eauto.
Qed.

Lemma select_term_ids_unnamed names cache :
  (exists t, t ∈ cache /\ ~ named t) ->
  exists msg, select_term_ids names cache = Raise (Exn AttributeError msg).
Proof.
  intros (t & Hin & Hbad). induction cache as [|t' cache IH]; [inversion Hin|].
  simpl. destruct (term_name t') as [| | |s| |] eqn:Hname; try (eexists; reflexivity).
  apply elem_of_cons in Hin as [-> | Hin].
  - exfalso. apply Hbad. exists s. exact Hname.
  - destruct (IH Hin) as [msg ->]. eexists. reflexivity.
Qed.

(** X11.  A publication returns a result dictionary whatever the state and
    the network: a failure with its message, or a success with [post_id],
    [url] and an [edit_url] that is the stored site URL followed by
    [/wp-admin/post.php?post=<id>&action=edit].  At most one request is sent,
    a POST with the shared headers and a timeout of 30; the configuration and
    the caches are left alone. *)
Theorem publish_always_answers
    title content status categories tag_names featured_image_id w :
  let run := publish_to_wordpress net py_str markdown title content status
               categories tag_names featured_image_id w in
  exists d new,
    run.1 = Return d /\
    ((exists msg, d = failure msg) \/
     (exists c post_id link,
         wordpress_config w = Some c /\
         d !! "success" = Some (JBool true) /\
         d !! "post_id" = Some post_id /\
         d !! "url" = Some link /\
         d !! "edit_url"
         = Some (JStr (site_url c ++ "/wp-admin/post.php?post=" ++ py_str post_id
                       ++ "&action=edit")))) /\
    sent run.2 = (sent w ++ new)%list /\
    (length new <= 1)%nat /\
    Forall (fun sent_request =>
              req_method sent_request = POST /\ req_timeout sent_request = 30 /\
              Some (req_headers sent_request) = headers <$> wordpress_config w) new /\
    wordpress_config run.2 = wordpress_config w /\
    wp_all_categories run.2 = wp_all_categories w /\
    wp_all_tags run.2 = wp_all_tags w.
Proof.
  intros run. subst run. destruct w as [[c|] cats tags log con].
  - unfold publish_to_wordpress, publish_except, add_terms, get_world, edit_url. run.
    destruct c as [site domain user token api_base h | u n p q h]; simpl.
    + branches; first [ eexists _, [_]; answered; fail
                      | eexists _, []; rewrite ?app_nil_r; answered ].
    + destruct q as [[]|]; unfold api_url_of;
        branches; first [ eexists _, [_]; answered; fail
                        | eexists _, []; rewrite ?app_nil_r; answered ].
  - exists (failure "WordPress not configured"), [].
    unfold publish_to_wordpress. run. rewrite app_nil_r. answered.
Qed.

(** X12.  On a self-hosted site, when categories are requested and the cache
    holds a category whose name is not a string, the publication fails with a
    "WordPress publishing error" and nothing is sent: no post is created, and
    the console and the state are as before. *)
Theorem publish_fails_on_unnamed_category
    u n p q h cache tags log con title content status name names tag_names
    featured_image_id :
  let w := World (Some (SelfHosted u n p q h)) (Some cache) tags log con in
  (exists t, t ∈ cache /\ ~ named t) ->
  exists msg,
    publish_to_wordpress net py_str markdown title content status
      (Some (name :: names)) tag_names featured_image_id w
    = (Return (failure ("WordPress publishing error: " ++ msg)), w).
Proof.
  intros w Hbad. subst w.
  destruct (select_term_ids_unnamed (name :: names) cache Hbad) as [msg Hsel].
  exists msg. unfold publish_to_wordpress, get_world. run.
  unfold add_terms. run. rewrite Hsel. reflexivity.
Qed.

End EveryOutcome.

Arguments hosted_post_request : simpl never.

Lemma publish_fails_on_unnamed_category_witness :
  exists msg,
    publish_to_wordpress (scripted []) scalar_str paragraph "Hello" "Body" "draft"
      (Some ["News"]) None None
      (World (Some example_config) (Some [news; nameless]) None [] [])
    = (Return (failure ("WordPress publishing error: " ++ msg)),
       World (Some example_config) (Some [news; nameless]) None [] []).
Proof.
  apply (publish_fails_on_unnamed_category (scripted []) scalar_str paragraph
           "https://example.com" "admin" "app-pw" None example_headers
           [news; nameless] None [] [] "Hello" "Body" "draft" "News" [] None None).
  exists nameless. split.
  - apply list_elem_of_In. right. left. reflexivity.
  - intros [s Hs]. discriminate.
Defined.

Section PublicationFailures.

Variable net : list request -> request -> outcome response.
Variable py_str : json -> string.
Variable markdown : string -> string.

(** X13.  A post request answered with a status other than the expected one
    (201 on a self-hosted site with string names in its cache, 200 on
    WordPress.com) gives a failure whose message is the site's prefix, the
    status and the body as received.  A post request that raises gives the
    timeout text, the network text or the generic text with the exception's
    message.  The request was sent and nothing else changed but the
    warnings of the term resolution. *)
Theorem publish_reports_status_and_body
    c cats tags log con title content status categories tag_names featured_image_id :
  let run := publish_to_wordpress net py_str markdown title content status
               categories tag_names featured_image_id
               (World (Some c) cats tags log con) in
  let post :=
    if is_wpcom c
    then hosted_post_request c
           (hosted_post_data title (markdown content) status tag_names featured_image_id)
    else post_request c
           (selfhosted_post_data title (markdown content) status categories tag_names
              featured_image_id cats tags) in
  let console' :=
    (con ++ if is_wpcom c
            then (if nonempty categories then [(StWarning, categories_unsupported)] else [])
            else terms_warning "categories" categories cats categories_tail
                 ++ terms_warning "tags" tag_names tags tags_tail)%list in
  (is_wpcom c = false -> Forall named (default [] cats) /\ Forall named (default [] tags)) ->
  run.2 = World (Some c) cats tags (log ++ [post]) console' /\
  (forall r,
      net log post = Return r ->
      status_code r <> (if is_wpcom c then 200 else 201) ->
      run.1 = Return (failure ((if is_wpcom c then "WordPress.com API error: "
                                else "WordPress API error: ")
                               ++ PyStr.of_int (status_code r) ++ " - " ++ text r))) /\
  (forall e,
      net log post = Raise e ->
      run.1 = Return (failure (classify
                "WordPress publishing timed out. The WordPress site might be slow or unreachable."
                "Network error during WordPress publishing: "
                "WordPress publishing error: " e))).
Proof.
  intros run post console' Hnamed.
  destruct c as [site domain user token api_base h | u n p q h].
  - subst run post console'. simpl. unfold publish_to_wordpress, publish_except. run.
    change (if nonempty tag_names then _ else _)
      with (hosted_post_data title (markdown content) status tag_names featured_image_id).
    set (pd := hosted_post_data title (markdown content) status tag_names featured_image_id).
    destruct (nonempty categories); simpl;
      change (Request POST (api_base ++ "/posts/new") h (JsonBody pd) 30)
        with (hosted_post_request (WpCom site domain user token api_base h) pd).
    + split; [|split].
      * branches; rewrite ?publish_except_world; reflexivity.
      * intros r Hnet Hst. rewrite Hnet. simpl.
        destruct (Z.eqb_spec (status_code r) 200) as [|_]; [done|]. reflexivity.
      * intros e Hnet. rewrite Hnet. simpl. unfold classify.
        destruct (is_timeout e); [reflexivity|].
        destruct (is_request_exception e); reflexivity.
    + rewrite app_nil_r. split; [|split].
      * branches; rewrite ?publish_except_world; reflexivity.
      * intros r Hnet Hst. rewrite Hnet. simpl.
        destruct (Z.eqb_spec (status_code r) 200) as [|_]; [done|]. reflexivity.
      * intros e Hnet. rewrite Hnet. simpl. unfold classify.
        destruct (is_timeout e); [reflexivity|].
        destruct (is_request_exception e); reflexivity.
  - destruct (Hnamed eq_refl) as [Hcats Htags]. subst run post console'. simpl.
    split.
    + apply publish_selfhosted_world; assumption.
    + unfold publish_to_wordpress, publish_except, get_world. run.
      rewrite (add_terms_named _ _ _ _ _ _ Hcats). simpl.
      rewrite (add_terms_named _ _ _ _ _ _ Htags). simpl.
      rewrite posts_url. simpl.
      change (with_terms "tags" tag_names tags _)
        with (selfhosted_post_data title (markdown content) status
                categories tag_names featured_image_id cats tags).
      set (pd := selfhosted_post_data title (markdown content) status
                   categories tag_names featured_image_id cats tags).
      change (Request POST _ h (JsonBody pd) 30)
        with (post_request (SelfHosted u n p q h) pd).
      split.
      * intros r Hnet Hst. rewrite Hnet. simpl.
        destruct (Z.eqb_spec (status_code r) 201) as [|_]; [done|]. reflexivity.
      * intros e Hnet. rewrite Hnet. simpl. unfold classify.
        destruct (is_timeout e); [reflexivity|].
        destruct (is_request_exception e); reflexivity.
Qed.

End PublicationFailures.

Lemma publish_reports_status_and_body_witness :
  (publish_to_wordpress (scripted [Return bad_gateway]) scalar_str paragraph
     "Hello" "Body" "draft" (Some ["News"]) None None
     (World (Some example_config) (Some [news]) None [] [])).1
  = Return (failure "WordPress API error: 502 - <html>Bad Gateway</html>").
Proof.
  destruct (publish_reports_status_and_body (scripted [Return bad_gateway]) scalar_str
              paragraph example_config (Some [news]) None [] [] "Hello" "Body" "draft"
              (Some ["News"]) None None) as (_ & Hstatus & _).
  - intros _. split; repeat constructor. eexists. reflexivity.
  - apply (Hstatus bad_gateway); [reflexivity | discriminate].
Defined.

(** ** The connection button *)

Arguments connected : simpl never.
Arguments setup_wordpress : simpl never.
Arguments test_wordpress_connection : simpl never.
Arguments _get_terms_robust : simpl never.
Arguments fetched_message : simpl never.
Arguments dict_item : simpl never.

Section ConnectionButton.

Variable net : list request -> request -> outcome response.
Variable py_str : json -> string.
Variable markdown : string -> string.
Variable icon_ok icon_fail icon_detected icon_link : string.

(** The connection test changes neither the caches nor the console. *)
Lemma test_keeps_session w :
  let w' := (test_wordpress_connection net py_str w).2 in
  wp_all_categories w' = wp_all_categories w /\
  wp_all_tags w' = wp_all_tags w /\
  console w' = console w.
Proof.
  destruct w as [[c|] cats tags log con]; unfold test_wordpress_connection, test_except;
    run; [|repeat split].
  destruct c as [site domain user token api_base h | u n p q h]; simpl.
  - branches; repeat split.
  - destruct q as [[]|]; unfold api_url_of; branches; repeat split.
Qed.

Lemma setup_replaces_nothing_else wp_site wp_user wp_pass w :
  exists c,
    setup_wordpress wp_site wp_user wp_pass w
    = (Return tt,
       World (Some c) (wp_all_categories w) (wp_all_tags w) (sent w) (console w)).
Proof.
  unfold setup_wordpress, put_config.
  destruct (PyStr.contains "wordpress.com" (PyStr.lower wp_site));
    eexists; reflexivity.
Qed.

(** A first probe answered 200 with a JSON object. *)
Lemma test_200_object u n p q h cats tags log con r members :
  let c := SelfHosted u n p q h in
  net log (first_probe c) = Return r ->
  status_code r = 200 ->
  json_body r = Return (JObj members) ->
  test_wordpress_connection net py_str (World (Some c) cats tags log con)
  = (Return (connected ("Connected as "
                        ++ py_str (default (JStr "Unknown") (assoc "name" members)))),
     World (Some (SelfHosted u n p (Some false) h)) cats tags
           (log ++ [first_probe c]) con).
Proof.
  intros c Hnet Hst Hj. subst c. unfold test_wordpress_connection. run.
  rewrite first_probe_url. name_probes.
  rewrite Hnet. simpl. rewrite Hst. simpl. rewrite Hj. reflexivity.
Qed.

(** A first probe answered 404 and a fallback answered 200 with a JSON
    object. *)
Lemma test_404_200_object u n p q h cats tags log con r1 r2 members :
  let c := SelfHosted u n p q h in
  net log (first_probe c) = Return r1 ->
  status_code r1 = 404 ->
  net (log ++ [first_probe c]) (fallback_probe c) = Return r2 ->
  status_code r2 = 200 ->
  json_body r2 = Return (JObj members) ->
  test_wordpress_connection net py_str (World (Some c) cats tags log con)
  = (Return (connected ("Connected as "
                        ++ py_str (default (JStr "Unknown") (assoc "name" members))
                        ++ " (using query parameter format)")),
     World (Some (SelfHosted u n p (Some true) h)) cats tags
           (log ++ [first_probe c; fallback_probe c]) con).
Proof.
  intros c Hnet1 Hst1 Hnet2 Hst2 Hj. subst c. unfold test_wordpress_connection. run.
  rewrite first_probe_url. name_probes.
  rewrite Hnet1. simpl. rewrite Hst1. simpl. name_probes.
  rewrite Hnet2. simpl. rewrite Hst2. simpl. rewrite Hj.
  rewrite <- app_assoc. reflexivity.
Qed.

Lemma connected_fields message :
  dict_item (connected message) "success" = Return (JBool true) /\
  dict_item (connected message) "message" = Return (JStr message).
Proof. repeat split. Qed.

(** X14.  When the connection test of the button fails, the button leaves
    [wp_configured] false and fetches nothing: the only requests are the
    probes.  The new configuration stays in place, and the categories and tags
    cached for the site configured before stay in the session. *)
Theorem connect_button_failure_keeps_old_terms
    wp_site wp_user wp_pass w d w2 error :
  test_wordpress_connection net py_str (setup_wordpress wp_site wp_user wp_pass w).2
  = (Return d, w2) ->
  d !! "success" = Some (JBool false) ->
  d !! "error" = Some error ->
  connect_button net py_str icon_ok icon_fail icon_detected icon_link
    wp_site wp_user wp_pass w
  = (Return false,
     World (wordpress_config w2) (wp_all_categories w) (wp_all_tags w) (sent w2)
           (console w ++ [(StError, icon_fail ++ " " ++ py_str error);
                          (StWarning, retest_hint icon_link)])).
Proof.
  intros Htest Hfalse Herror.
  pose proof (test_keeps_session (setup_wordpress wp_site wp_user wp_pass w).2)
    as (Hcats & Htags & Hcon).
  rewrite Htest in Hcats, Htags, Hcon. simpl in Hcats, Htags, Hcon.
  unfold connect_button. unfold mbind at 1, M_bind at 1.
  destruct (setup_replaces_nothing_else wp_site wp_user wp_pass w) as (c & Hsetup).
  rewrite Hsetup in *. simpl in Hcats, Htags, Hcon.
  unfold mbind at 1, M_bind at 1. simpl in Htest. rewrite Htest.
  unfold dict_item. run. rewrite Hfalse. simpl. rewrite Herror. simpl.
  rewrite Hcats, Htags, Hcon, <- app_assoc. reflexivity.
Qed.

Lemma bind_returned {A B : Type} (m : M A) (f : A -> M B) w a w' :
  m w = (Return a, w') -> (m ≫= f) w = f a w'.
Proof. intros H. unfold mbind, M_bind. rewrite H. reflexivity. Qed.

Lemma seq_returned {A B : Type} (m : M A) (k : M B) w a w' :
  m w = (Return a, w') -> (m ;; k) w = k w'.
Proof. intros H. unfold mbind, M_bind. rewrite H. reflexivity. Qed.

Lemma setup_selfhosted wp_site wp_user wp_pass w :
  PyStr.contains "wordpress.com" (PyStr.lower wp_site) = false ->
  setup_wordpress wp_site wp_user wp_pass w
  = (Return tt,
     World (Some (SelfHosted (PyStr.rstrip_slash wp_site) wp_user wp_pass None
                    {[ "Content-Type" := "application/json";
                       "Authorization" :=
                         "Basic " ++ Base64.b64encode (wp_user ++ ":" ++ wp_pass) ]}))
           (wp_all_categories w) (wp_all_tags w) (sent w) (console w)).
Proof. intros Hkind. unfold setup_wordpress, put_config. rewrite Hkind. reflexivity. Qed.

(** A 200 answer that lists terms, as [fetch_categories] and [fetch_tags]
    read it. *)
Lemma fetch_listed u n p q h cats tags log con term_type r items terms :
  let c := SelfHosted u n p q h in
  net log (terms_request c term_type) = Return r ->
  status_code r = 200 ->
  json_body r = Return (JList items) ->
  Forall2 describes items terms ->
  _get_terms_robust net term_type (World (Some c) cats tags log con)
  = (Return terms, World (Some c) cats tags (log ++ [terms_request c term_type]) con).
Proof.
  intros c Hnet Hst Hjson Hall. subst c. unfold _get_terms_robust. run.
  rewrite terms_url.
  change (Request GET (req_url (terms_request ?c ?t)) _ NoBody 10)
    with (terms_request (SelfHosted u n p q h) term_type).
  rewrite Hnet. simpl. rewrite Hst. simpl.
  unfold terms_of_response. rewrite Hjson. simpl.
  rewrite <- (app_nil_r items), (append_terms_all items terms [] Hall []). reflexivity.
Qed.

(** What the button does after a successful test of a self-hosted site, from
    the two fetches on. *)
Lemma connect_button_fetching
    wp_site wp_user wp_pass w message u n p q h cats tags log con
    rc rt items_c terms_c items_t terms_t :
  let c := SelfHosted u n p q h in
  let announced :=
    (con ++ connection_messages icon_ok icon_detected (py_str (JStr message)) q)%list in
  test_wordpress_connection net py_str (setup_wordpress wp_site wp_user wp_pass w).2
  = (Return (connected message), World (Some c) cats tags log con) ->
  net log (terms_request c "categories") = Return rc ->
  status_code rc = 200 ->
  json_body rc = Return (JList items_c) ->
  Forall2 describes items_c terms_c ->
  net (log ++ [terms_request c "categories"]) (terms_request c "tags") = Return rt ->
  status_code rt = 200 ->
  json_body rt = Return (JList items_t) ->
  Forall2 describes items_t terms_t ->
  connect_button net py_str icon_ok icon_fail icon_detected icon_link
    wp_site wp_user wp_pass w
  = (Return true,
     World (Some c) (Some terms_c) (Some terms_t)
           (log ++ [terms_request c "categories"; terms_request c "tags"])
           (announced ++ [fetched_message "categories" terms_c;
                          fetched_message "tags" terms_t])%list).
Proof.
  intros c announced Htest Hnc Hsc Hjc Hc Hnt Hst Hjt Ht. subst c announced.
  destruct (setup_replaces_nothing_else wp_site wp_user wp_pass w) as (c0 & Hsetup).
  rewrite Hsetup in Htest. simpl in Htest.
  destruct (connected_fields message) as [Hok Hmsg].
  unfold connect_button, fetch_categories, fetch_tags, report_fetched,
    put_categories, put_tags.
  rewrite (seq_returned _ _ _ _ _ Hsetup).
  rewrite (bind_returned _ _ _ _ _ Htest).
  run. rewrite Hok. simpl. rewrite Hmsg. simpl.
  assert (Hcats : forall con',
    _get_terms_robust net "categories" (World (Some (SelfHosted u n p q h)) cats tags log con')
    = (Return terms_c,
       World (Some (SelfHosted u n p q h)) cats tags
             (log ++ [terms_request (SelfHosted u n p q h) "categories"]) con'))
    by (intros con'; apply (fetch_listed u n p q h cats tags log con' "categories"
                              rc items_c terms_c Hnc Hsc Hjc Hc)).
  assert (Htags : forall con',
    _get_terms_robust net "tags"
      (World (Some (SelfHosted u n p q h)) (Some terms_c) tags
             (log ++ [terms_request (SelfHosted u n p q h) "categories"]) con')
    = (Return terms_t,
       World (Some (SelfHosted u n p q h)) (Some terms_c) tags
             ((log ++ [terms_request (SelfHosted u n p q h) "categories"])
                ++ [terms_request (SelfHosted u n p q h) "tags"]) con'))
    by (intros con'; apply (fetch_listed u n p q h (Some terms_c) tags _ con' "tags"
                              rt items_t terms_t Hnt Hst Hjt Ht)).
  unfold connection_messages.
  destruct q as [[]|]; simpl; rewrite Hcats; simpl; rewrite Htags; simpl;
    rewrite <- !app_assoc; simpl;
    destruct (fetched_message "categories" terms_c) as [lc mc],
             (fetched_message "tags" terms_t) as [lt mt]; reflexivity.
Qed.

(** X15.  The button on a self-hosted site without pretty permalinks: the
    first probe is answered 404, the fallback 200 with the user object, and
    the two term requests that follow are sent in the [?rest_route=] form the
    test has just detected.  Answered with lists of terms, they replace the
    session's categories and tags; the button leaves [wp_configured] true and
    reports the connection, the detected form and the two lists. *)
Theorem connect_button_fetches_in_detected_form
    wp_site wp_user wp_pass w r1 r2 members rc rt items_c terms_c items_t terms_t :
  let site := PyStr.rstrip_slash wp_site in
  let shared : gmap string string :=
    {[ "Content-Type" := "application/json";
       "Authorization" := "Basic " ++ Base64.b64encode (wp_user ++ ":" ++ wp_pass) ]} in
  let get path :=
    Request GET (site ++ path) (<[ "Accept" := "application/json" ]> shared) NoBody 10 in
  let probes := [get "/wp-json/wp/v2/users/me"; get "/?rest_route=/wp/v2/users/me"] in
  let shown :=
    py_str (JStr ("Connected as "
                  ++ py_str (default (JStr "Unknown") (assoc "name" members))
                  ++ " (using query parameter format)")) in
  PyStr.contains "wordpress.com" (PyStr.lower wp_site) = false ->
  net (sent w) (get "/wp-json/wp/v2/users/me") = Return r1 ->
  status_code r1 = 404 ->
  net (sent w ++ [get "/wp-json/wp/v2/users/me"]) (get "/?rest_route=/wp/v2/users/me")
    = Return r2 ->
  status_code r2 = 200 ->
  json_body r2 = Return (JObj members) ->
  net (sent w ++ probes) (get "/?rest_route=/wp/v2/categories") = Return rc ->
  status_code rc = 200 ->
  json_body rc = Return (JList items_c) ->
  Forall2 describes items_c terms_c ->
  net ((sent w ++ probes) ++ [get "/?rest_route=/wp/v2/categories"])
      (get "/?rest_route=/wp/v2/tags") = Return rt ->
  status_code rt = 200 ->
  json_body rt = Return (JList items_t) ->
  Forall2 describes items_t terms_t ->
  connect_button net py_str icon_ok icon_fail icon_detected icon_link
    wp_site wp_user wp_pass w
  = (Return true,
     World (Some (SelfHosted site wp_user wp_pass (Some true) shared))
           (Some terms_c) (Some terms_t)
           ((sent w ++ probes)
              ++ [get "/?rest_route=/wp/v2/categories"; get "/?rest_route=/wp/v2/tags"])
           ((console w ++ connection_messages icon_ok icon_detected shown (Some true))
              ++ [fetched_message "categories" terms_c; fetched_message "tags" terms_t])).
Proof.
  intros site shared get probes shown Hkind H1 Hs1 H2 Hs2 Hj2 Hc Hsc Hjc Hac Ht Hst Hjt Hat.
  apply (connect_button_fetching wp_site wp_user wp_pass w _
           site wp_user wp_pass (Some true) shared
           (wp_all_categories w) (wp_all_tags w) (sent w ++ probes) (console w)
           rc rt items_c terms_c items_t terms_t); try assumption.
  rewrite (setup_selfhosted _ _ _ _ Hkind). simpl.
  apply (test_404_200_object site wp_user wp_pass None shared
           (wp_all_categories w) (wp_all_tags w) (sent w) (console w) r1 r2 members);
    assumption.
Qed.

(** X16.  From the button to the post.  On a self-hosted site whose first
    probe is answered 200, the button caches the fetched categories and tags,
    and a publication that follows resolves its names against exactly those
    lists: the post goes to [/wp-json/wp/v2/posts] with the identifiers of
    the fetched terms that match, and a 201 answer makes it a success with
    the post's link. *)
Theorem connect_then_publish_resolves_fetched_terms
    wp_site wp_user wp_pass w r1 members rc rt items_c terms_c items_t terms_t
    title content status categories tag_names featured_image_id :
  let site := PyStr.rstrip_slash wp_site in
  let shared : gmap string string :=
    {[ "Content-Type" := "application/json";
       "Authorization" := "Basic " ++ Base64.b64encode (wp_user ++ ":" ++ wp_pass) ]} in
  let get path :=
    Request GET (site ++ path) (<[ "Accept" := "application/json" ]> shared) NoBody 10 in
  let fetched :=
    (sent w ++ [get "/wp-json/wp/v2/users/me"; get "/wp-json/wp/v2/categories";
                get "/wp-json/wp/v2/tags"])%list in
  let w1 := (connect_button net py_str icon_ok icon_fail icon_detected icon_link
               wp_site wp_user wp_pass w).2 in
  let run := publish_to_wordpress net py_str markdown title content status
               categories tag_names featured_image_id w1 in
  PyStr.contains "wordpress.com" (PyStr.lower wp_site) = false ->
  net (sent w) (get "/wp-json/wp/v2/users/me") = Return r1 ->
  status_code r1 = 200 ->
  json_body r1 = Return (JObj members) ->
  net (sent w ++ [get "/wp-json/wp/v2/users/me"]) (get "/wp-json/wp/v2/categories")
    = Return rc ->
  status_code rc = 200 ->
  json_body rc = Return (JList items_c) ->
  Forall2 describes items_c terms_c ->
  net ((sent w ++ [get "/wp-json/wp/v2/users/me"]) ++ [get "/wp-json/wp/v2/categories"])
      (get "/wp-json/wp/v2/tags") = Return rt ->
  status_code rt = 200 ->
  json_body rt = Return (JList items_t) ->
  Forall2 describes items_t terms_t ->
  Forall named terms_c ->
  Forall named terms_t ->
  exists post_data,
    let post :=
      Request POST (site ++ "/wp-json/wp/v2/posts") shared (JsonBody post_data) 30 in
    sent run.2 = (fetched ++ [post])%list /\
    post_data !! "categories"
      = (if nonempty categories then
           match matched_ids (default [] categories) terms_c with
           | [] => None
           | ids => Some (JList ids)
           end
         else None) /\
    post_data !! "tags"
      = (if nonempty tag_names then
           match matched_ids (default [] tag_names) terms_t with
           | [] => None
           | ids => Some (JList ids)
           end
         else None) /\
    (forall r info post_id link,
        net fetched post = Return r ->
        status_code r = 201 ->
        json_body r = Return info ->
        getitem info "id" = Return post_id ->
        getitem info "link" = Return link ->
        exists result,
          run.1 = Return result /\
          result !! "success" = Some (JBool true) /\
          result !! "url" = Some link).
Proof.
  intros site shared get fetched w1 run Hkind H1 Hs1 Hj1 Hc Hsc Hjc Hac Ht Hst Hjt Hat
         Hnc Hnt.
  assert (Hw1 : w1 = World (Some (SelfHosted site wp_user wp_pass (Some false) shared))
                       (Some terms_c) (Some terms_t) fetched
                       ((console w
                           ++ connection_messages icon_ok icon_detected
                                (py_str (JStr ("Connected as "
                                   ++ py_str (default (JStr "Unknown")
                                                (assoc "name" members)))))
                                (Some false))
                          ++ [fetched_message "categories" terms_c;
                              fetched_message "tags" terms_t])).
  { subst w1.
    rewrite (connect_button_fetching wp_site wp_user wp_pass w
               ("Connected as "
                ++ py_str (default (JStr "Unknown") (assoc "name" members)))
               site wp_user wp_pass (Some false) shared
               (wp_all_categories w) (wp_all_tags w)
               (sent w ++ [get "/wp-json/wp/v2/users/me"]) (console w)
               rc rt items_c terms_c items_t terms_t); try assumption.
    - simpl. subst fetched. rewrite <- app_assoc. reflexivity.
    - rewrite (setup_selfhosted _ _ _ _ Hkind). simpl.
      apply (test_200_object site wp_user wp_pass None shared
               (wp_all_categories w) (wp_all_tags w) (sent w) (console w) r1 members);
        assumption. }
  exists (selfhosted_post_data title (markdown content) status categories tag_names
            featured_image_id (Some terms_c) (Some terms_t)).
  subst run. rewrite Hw1.
  rewrite (publish_selfhosted_world net py_str markdown site wp_user wp_pass (Some false)
             shared (Some terms_c) (Some terms_t) fetched _ title content status
             categories tag_names featured_image_id Hnc Hnt).
  split; [reflexivity|]. split; [|split].
  - unfold selfhosted_post_data. rewrite with_terms_other by discriminate.
    apply with_terms_key, initial_post_data_other. other_key.
  - unfold selfhosted_post_data. apply with_terms_key.
    rewrite with_terms_other by discriminate.
    apply initial_post_data_other. other_key.
  - intros r info post_id link Hnet Hst' Hinfo Hid Hlink.
    destruct (publish_selfhosted_created net py_str markdown site wp_user wp_pass
                (Some false) shared (Some terms_c) (Some terms_t) fetched
                ((console w
                    ++ connection_messages icon_ok icon_detected
                         (py_str (JStr ("Connected as "
                            ++ py_str (default (JStr "Unknown") (assoc "name" members)))))
                         (Some false))
                   ++ [fetched_message "categories" terms_c;
                       fetched_message "tags" terms_t])
                title content status categories tag_names featured_image_id
                r info post_id link Hnc Hnt Hnet Hst' Hinfo Hid Hlink)
      as (result & Hres & Hok & _ & Hurl).
    exists result. repeat split; assumption.
Qed.

End ConnectionButton.

Lemma connect_button_failure_keeps_old_terms_witness :
  connect_button (scripted [Return unauthorized]) scalar_str
    "[ok]" "[failed]" "[detected]" "[link]" "https://example.com" "admin" "app-pw"
    (World (Some hosted_config) (Some [news]) None [] [])
  = (Return false,
     World (Some example_config) (Some [news]) None [first_probe example_config]
           [(StError, "[failed] " ++ auth_failed);
            (StWarning, retest_hint "[link]")]).
Proof.
  apply (connect_button_failure_keeps_old_terms (scripted [Return unauthorized])
           scalar_str "[ok]" "[failed]" "[detected]" "[link]"
           "https://example.com" "admin" "app-pw"
           (World (Some hosted_config) (Some [news]) None [] [])
           (failure auth_failed)
           (World (Some example_config) (Some [news]) None [first_probe example_config] [])
           (JStr auth_failed)); reflexivity.
Defined.

Lemma connect_button_fetches_in_detected_form_witness :
  let run :=
    connect_button (scripted [Return not_found; Return user_admin;
                              Return two_categories; Return no_terms])
      scalar_str "[ok]" "[failed]" "[detected]" "[link]"
      "https://example.com/" "admin" "app-pw" (World None None None [] []) in
  run.1 = Return true /\
  wp_all_categories run.2 = Some [news; tech] /\
  map req_url (sent run.2)
  = ["https://example.com/wp-json/wp/v2/users/me";
     "https://example.com/?rest_route=/wp/v2/users/me";
     "https://example.com/?rest_route=/wp/v2/categories";
     "https://example.com/?rest_route=/wp/v2/tags"].
Proof.
  intros run. subst run.
  rewrite (connect_button_fetches_in_detected_form
             (scripted [Return not_found; Return user_admin;
                        Return two_categories; Return no_terms])
             scalar_str "[ok]" "[failed]" "[detected]" "[link]"
             "https://example.com/" "admin" "app-pw" (World None None None [] [])
             not_found user_admin [("id", JInt 1); ("name", JStr "admin")]
             two_categories no_terms
             [JObj [("id", JInt 3); ("name", JStr "News"); ("count", JInt 4)];
              JObj [("id", JInt 5); ("name", JStr "Tech"); ("count", JInt 0)]]
             [news; tech] [] []);
    try reflexivity; repeat constructor.
Defined.

Lemma connect_then_publish_resolves_fetched_terms_witness :
  let w1 :=
    (connect_button (scripted [Return user_admin; Return two_categories;
                               Return no_terms; Return created])
       scalar_str "[ok]" "[failed]" "[detected]" "[link]"
       "https://example.com/" "admin" "app-pw" (World None None None [] [])).2 in
  let run :=
    publish_to_wordpress (scripted [Return user_admin; Return two_categories;
                                    Return no_terms; Return created])
      scalar_str paragraph "Hello" "Body" "draft" (Some ["tech"; "Cooking"]) None None w1 in
  exists post_data,
    map req_body (sent run.2) = [NoBody; NoBody; NoBody; JsonBody post_data] /\
    post_data !! "categories" = Some (JList [JInt 5]).
Proof.
  intros w1 run.
  destruct (connect_then_publish_resolves_fetched_terms
              (scripted [Return user_admin; Return two_categories;
                         Return no_terms; Return created])
              scalar_str paragraph "[ok]" "[failed]" "[detected]" "[link]"
              "https://example.com/" "admin" "app-pw" (World None None None [] [])
              user_admin [("id", JInt 1); ("name", JStr "admin")]
              two_categories no_terms
              [JObj [("id", JInt 3); ("name", JStr "News"); ("count", JInt 4)];
               JObj [("id", JInt 5); ("name", JStr "Tech"); ("count", JInt 0)]]
              [news; tech] [] []
              "Hello" "Body" "draft" (Some ["tech"; "Cooking"]) None None)
    as (post_data & Hsent & Hcats & _);
    try reflexivity; try (repeat constructor; try (eexists; reflexivity); fail).
  exists post_data. split.
  - subst run w1. rewrite Hsent. reflexivity.
  - exact Hcats.
Defined.

(** ** The publish button without an upload *)

Section PublishButtonWithoutUpload.

Variable net : list request -> request -> outcome response.
Variable py_str : json -> string.
Variable markdown : string -> string.
Variable icon_ok icon_fail : string.





End PublishButtonWithoutUpload.



(** ** Titles and file names *)

Lemma keep_Forall p s :
  Forall (fun c => p c = true) (list_ascii_of_string (keep p s)).
Proof.
  induction s as [|c r IH]; simpl; [constructor|].
  destruct (p c) eqn:Hc; simpl; [constructor; assumption | assumption].
Qed.

Lemma lstrip_Forall (P : ascii -> Prop) s :
  Forall P (list_ascii_of_string s) -> Forall P (list_ascii_of_string (PyStr.lstrip s)).
Proof.
  induction s as [|c r IH]; simpl; intros H; [constructor|].
  destruct (PyStr.is_space c); [apply IH; inversion H; assumption | exact H].
Qed.

Lemma rstrip_by_Forall (P : ascii -> Prop) p s :
  Forall P (list_ascii_of_string s) ->
  Forall P (list_ascii_of_string (PyStr.rstrip_by p s)).
Proof.
  induction s as [|c r IH]; simpl; intros H; [constructor|].
  inversion H as [|? ? Hc Hr]; subst. specialize (IH Hr).
  destruct (PyStr.rstrip_by p r) eqn:Hrest.
  - destruct (p c); simpl; repeat constructor; assumption.
  - simpl. constructor; assumption.
Qed.

Lemma strip_Forall (P : ascii -> Prop) s :
  Forall P (list_ascii_of_string s) -> Forall P (list_ascii_of_string (PyStr.strip s)).
Proof. intros H. apply rstrip_by_Forall, lstrip_Forall, H. Qed.

Lemma rstrip_by_idempotent p s :
  PyStr.rstrip_by p (PyStr.rstrip_by p s) = PyStr.rstrip_by p s.
Proof.
  induction s as [|c r IH]; simpl; [reflexivity|].
  destruct (PyStr.rstrip_by p r) as [|c' r'] eqn:Hrest.
  - destruct (p c) eqn:Hc; simpl; [reflexivity | rewrite Hc; reflexivity].
  - change (PyStr.rstrip_by p (String c (String c' r')))
      with (match PyStr.rstrip_by p (String c' r') with
            | EmptyString => if p c then EmptyString else String c EmptyString
            | r'' => String c r''
            end).
    rewrite IH. reflexivity.
Qed.

(** A string that does not start with whitespace keeps its start when the
    whitespace at its end is dropped. *)
Lemma lstrip_rstrip s :
  PyStr.lstrip s = s -> PyStr.lstrip (PyStr.rstrip s) = PyStr.rstrip s.
Proof.
  destruct s as [|c r]; [reflexivity|]. simpl.
  destruct (PyStr.is_space c) eqn:Hc.
  - intros Hshort. exfalso.
    assert (Hlen : forall t, (String.length (PyStr.lstrip t) <= String.length t)%nat).
    { induction t as [|a t IH]; simpl; [lia|].
      destruct (PyStr.is_space a); simpl; lia. }
    specialize (Hlen r). rewrite Hshort in Hlen. simpl in Hlen. lia.
  - intros _. unfold PyStr.rstrip. simpl.
    destruct (PyStr.rstrip_by PyStr.is_space r); rewrite ?Hc; simpl; rewrite Hc; reflexivity.
Qed.

Lemma lstrip_idempotent s : PyStr.lstrip (PyStr.lstrip s) = PyStr.lstrip s.
Proof.
  induction s as [|c r IH]; simpl; [reflexivity|].
  destruct (PyStr.is_space c) eqn:Hc; [exact IH | simpl; rewrite Hc; reflexivity].
Qed.

Lemma strip_idempotent s : PyStr.strip (PyStr.strip s) = PyStr.strip s.
Proof.
  unfold PyStr.strip. rewrite (lstrip_rstrip _ (lstrip_idempotent s)).
  apply rstrip_by_idempotent.
Qed.

Lemma is_word_lower c : is_word c = true -> is_word (PyStr.lower_char c) = true.
Proof.
  destruct c as [[] [] [] [] [] [] [] []]; vm_compute; intros H;
    first [reflexivity | discriminate H].
Qed.

Lemma lower_char_hyphen c : is_hyphen (PyStr.lower_char c) = is_hyphen c.
Proof. destruct c as [[] [] [] [] [] [] [] []]; vm_compute; reflexivity. Qed.

Lemma is_hyphen_true c : is_hyphen c = true <-> c = "-"%char.
Proof. unfold is_hyphen. destruct (ascii_dec c "-"); split; congruence. Qed.

Lemma lower_Forall s :
  Forall (fun c => is_word c = true \/ c = "-"%char) (list_ascii_of_string s) ->
  Forall (fun c => is_word c = true \/ c = "-"%char)
         (list_ascii_of_string (PyStr.lower s)).
Proof.
  induction s as [|c r IH]; simpl; intros H; [constructor|].
  inversion H as [|? ? Hc Hr]; subst. constructor; [|apply IH, Hr].
  destruct Hc as [Hword | ->]; [left; apply is_word_lower, Hword | right; reflexivity].
Qed.

Lemma hyphenate_Forall p b s :
  (forall c, p c = false -> is_hyphen c = false /\ PyStr.is_space c = false) ->
  Forall (fun c => (is_word c || PyStr.is_space c || is_hyphen c) = true)
         (list_ascii_of_string s) ->
  Forall (fun c => is_word c = true \/ c = "-"%char)
         (list_ascii_of_string (hyphenate p b s)).
Proof.
  intros Hp. revert b. induction s as [|c r IH]; simpl; intros b H; [constructor|].
  inversion H as [|? ? Hc Hr]; subst.
  destruct (p c) eqn:Hpc.
  - destruct b; [apply IH, Hr|]. simpl. constructor; [right; reflexivity | apply IH, Hr].
  - simpl. constructor; [|apply IH, Hr].
    destruct (Hp c Hpc) as [Hh Hs]. rewrite Hh, Hs, !orb_false_r in Hc. left. exact Hc.
Qed.

Lemma doubled_cons a r :
  doubled (String a r) = (is_hyphen a && starts_with_hyphen r) || doubled r.
Proof. destruct r; simpl; [rewrite andb_false_r|]; reflexivity. Qed.

Lemma doubled_contains s : doubled s = PyStr.contains "--" s.
Proof.
  induction s as [|a r IH]; [reflexivity|].
  rewrite doubled_cons, IH.
  change (PyStr.contains "--" (String a r))
    with ((if ascii_dec "-" a then PyStr.startswith "-" r else false)
          || PyStr.contains "--" r).
  f_equal. unfold is_hyphen at 1.
  destruct (ascii_dec a "-"), (ascii_dec "-" a); try congruence; try reflexivity.
  destruct r as [|b r']; [reflexivity|].
  change (PyStr.startswith "-" (String b r')) with (if ascii_dec "-" b then true else false).
  unfold starts_with_hyphen, is_hyphen. cbn [andb].
  destruct (ascii_dec b "-"), (ascii_dec "-" b); congruence.
Qed.

(** A character that is nowhere in a string. *)
Lemma contains_char_false d s :
  Forall (fun c => c <> d) (list_ascii_of_string s) ->
  PyStr.contains (String d "") s = false.
Proof.
  induction s as [|c r IH]; intros H; [reflexivity|].
  inversion H as [|? ? Hc Hr]; subst.
  change (PyStr.contains (String d "") (String c r))
    with ((if ascii_dec d c then true else false) || PyStr.contains (String d "") r).
  rewrite (IH Hr). destruct (ascii_dec d c); [congruence | reflexivity].
Qed.

Lemma hyphenate_no_double p s :
  (forall c, is_hyphen c = true -> p c = true) ->
  forall b,
    doubled (hyphenate p b s) = false /\
    (b = true -> starts_with_hyphen (hyphenate p b s) = false).
Proof.
  intros Hp. induction s as [|c r IH]; intros b; simpl; [split; reflexivity|].
  destruct (p c) eqn:Hpc.
  - destruct (IH true) as [Hd Hs]. destruct b.
    + split; [exact Hd | intros _; apply Hs; reflexivity].
    + rewrite doubled_cons, Hd, (Hs eq_refl), andb_false_r. split; [reflexivity | discriminate].
  - destruct (IH false) as [Hd _].
    assert (Hc : is_hyphen c = false).
    { destruct (is_hyphen c) eqn:Hh; [|reflexivity]. rewrite (Hp c Hh) in Hpc. discriminate. }
    rewrite doubled_cons, Hd, Hc. simpl. split; [reflexivity | intros _; exact Hc].
Qed.

Lemma lower_doubled s : doubled (PyStr.lower s) = doubled s.
Proof.
  induction s as [|a r IH]; [reflexivity|].
  change (PyStr.lower (String a r)) with (String (PyStr.lower_char a) (PyStr.lower r)).
  rewrite !doubled_cons, IH, lower_char_hyphen. f_equal. f_equal.
  destruct r; simpl; [reflexivity | apply lower_char_hyphen].
Qed.

(** X19.  The file name under which [save_markdown_file] writes is made of
    word characters and hyphens only, whatever the title: no path separator,
    no dot and no whitespace survives, and no two hyphens stand in a row. *)
Theorem markdown_filename_is_plain title :
  Forall (fun c => is_word c = true \/ c = "-"%char)
         (list_ascii_of_string (markdown_filename title)) /\
  PyStr.contains "--" (markdown_filename title) = false /\
  PyStr.contains "/" (markdown_filename title) = false /\
  PyStr.contains "." (markdown_filename title) = false.
Proof.
  assert (Hplain : Forall (fun c => is_word c = true \/ c = "-"%char)
                          (list_ascii_of_string (markdown_filename title))).
  { unfold markdown_filename. apply lower_Forall, hyphenate_Forall.
    - intros c Hc. apply orb_false_elim in Hc. exact Hc.
    - apply strip_Forall, keep_Forall. }
  split; [exact Hplain|]. split; [|split].
  - rewrite <- doubled_contains. unfold markdown_filename. rewrite lower_doubled.
    apply (hyphenate_no_double _ _ (fun c Hc => eq_trans (f_equal (fun b => b || _) Hc) eq_refl)).
  - apply contains_char_false. eapply Forall_impl; [exact Hplain|].
    intros c [Hc | ->] Heq; [subst c; vm_compute in Hc|]; discriminate.
  - apply contains_char_false. eapply Forall_impl; [exact Hplain|].
    intros c [Hc | ->] Heq; [subst c; vm_compute in Hc|]; discriminate.
Qed.

(** X20.  The title that [extract_title_from_content] returns is made of
    word characters and whitespace only, so no [#] and no punctuation of the
    heading survives, and it has no whitespace at either end.  This holds of
    the default title as well. *)
Theorem extracted_title_is_clean content :
  Forall (fun c => (is_word c || PyStr.is_space c) = true)
         (list_ascii_of_string (extract_title_from_content content)) /\
  PyStr.strip (extract_title_from_content content) = extract_title_from_content content /\
  PyStr.contains "#" (extract_title_from_content content) = false.
Proof.
  assert (Hclean : Forall (fun c => (is_word c || PyStr.is_space c) = true)
                     (list_ascii_of_string (extract_title_from_content content))).
  { unfold extract_title_from_content.
    destruct (first_heading (PyStr.split_lines content)).
    - apply strip_Forall, (keep_Forall (fun c => is_word c || PyStr.is_space c)).
    - cbn [list_ascii_of_string]. repeat (constructor; [vm_compute; reflexivity|]). constructor. }
  split; [exact Hclean|]. split.
  - unfold extract_title_from_content.
    destruct (first_heading (PyStr.split_lines content)); [apply strip_idempotent | reflexivity].
  - apply contains_char_false. eapply Forall_impl; [exact Hclean|].
    intros c Hc ->. vm_compute in Hc. discriminate.
Qed.

(** ** Calls to the Gemini API *)

Arguments call_gemini_api : simpl never.
Arguments parse_project_files : simpl never.

Section GeminiFailures.

Variable gemini : string -> string -> outcome response.
Variable json_dumps : json -> string.
Variable json_dumps_indent : json -> string.
Variable status_error : string -> response -> string.
Variable py_str : json -> string.

(** None of the texts of the handlers starts with [Error:], so that each
    passes the test of the callers. *)
Lemma handler_text_usable text : handler_text text -> usable (JStr text) = Return true.
Proof. intros [s [-> | [-> | ->]]]; reflexivity. Qed.

Lemma gemini_except_text response e :
  (response = None -> is_request_exception e = true) ->
  exists text, gemini_except response e = Return (JStr text) /\ handler_text text.
Proof.
  intros Hbound. unfold gemini_except, handler_text.
  destruct (is_request_exception e) eqn:Hreq; [eauto 6|].
  destruct (is_json_decode_error e); [|eauto 6].
  destruct response as [r|]; [eauto 6|]. specialize (Hbound eq_refl). discriminate.
Qed.

(** A failed request gives one of the texts of the handlers. *)
Lemma call_on_failure prompt key :
  request_failed (gemini (gemini_url key) (json_dumps (gemini_payload prompt))) ->
  exists text,
    call_gemini_api gemini json_dumps json_dumps_indent status_error prompt key
    = Return (JStr text) /\ handler_text text.
Proof.
  unfold request_failed, call_gemini_api. cbv zeta.
  destruct (gemini (gemini_url key) (json_dumps (gemini_payload prompt))) as [r|e].
  - intros Hfailed.
    assert (Hraised : exists e, read_answer json_dumps_indent status_error
                                  (gemini_url key) r = Raise e).
    { unfold read_answer, raise_for_status, mbind, outcome_bind.
      destruct ((400 <=? status_code r) && (status_code r <? 600)) eqn:Hstatus; [eauto|].
      destruct Hfailed as [Hrange | [e He]]; [lia|]. rewrite He. eauto. }
    destruct Hraised as [e ->]. apply gemini_except_text. discriminate.
  - intros Hreq. apply gemini_except_text. intros _. exact Hreq.
Qed.

(** X21.  The one error that the callers of [call_gemini_api] can recognise
    is the answer without content.  When the function returns a text that
    starts with [Error:], the request was answered with a status outside 400
    to 599 and a JSON document, and the text is either the report that this
    document has no content or the text that the document carries.  Failed
    requests, error statuses and bodies that are no JSON give texts that do
    not start with [Error:]. *)
Theorem recognised_error_needs_json_answer prompt key text :
  call_gemini_api gemini json_dumps json_dumps_indent status_error prompt key
  = Return (JStr text) ->
  PyStr.startswith "Error:" text = true ->
  exists r result,
    gemini (gemini_url key) (json_dumps (gemini_payload prompt)) = Return r /\
    ~ (400 <= status_code r < 600) /\
    json_body r = Return result /\
    ((has_text result = Return false /\
      text = "Error: No content generated. API Response: " ++ json_dumps_indent result) \/
     (has_text result = Return true /\ generated_text result = Return (JStr text))).
Proof.
  intros Hcall Herror.
  assert (Hhandler : forall response e,
             gemini_except response e = Return (JStr text) -> False).
  { intros response e. unfold gemini_except.
    destruct (is_request_exception e);
      [|destruct (is_json_decode_error e); [destruct response|]];
      intros Heq; try discriminate; injection Heq as <-; discriminate. }
  revert Hcall. unfold call_gemini_api. cbv zeta.
  destruct (gemini (gemini_url key) (json_dumps (gemini_payload prompt))) as [r|e];
    [|intros Hcall; destruct (Hhandler _ _ Hcall)].
  destruct (read_answer json_dumps_indent status_error (gemini_url key) r) as [v|e] eqn:Hread;
    [|intros Hcall; destruct (Hhandler _ _ Hcall)].
  intros Hv. injection Hv as ->.
  revert Hread. unfold read_answer, raise_for_status, mbind, outcome_bind.
  destruct ((400 <=? status_code r) && (status_code r <? 600)) eqn:Hstatus; [discriminate|].
  destruct (json_body r) as [result|e] eqn:Hbody; [|discriminate].
  destruct (has_text result) as [[|]|e] eqn:Htext; [| |discriminate]; intros Hread.
  - exists r, result. split; [reflexivity|]. split; [lia|]. split; [exact Hbody|].
    right. split; [exact Htext | exact Hread].
  - exists r, result. split; [reflexivity|]. split; [lia|]. split; [exact Hbody|].
    left. split; [exact Htext|]. injection Hread as <-. reflexivity.
Qed.

(** X22.  [setup_gemini] takes a failed test request for a working key: when
    the request raises a [RequestException], or is answered with an error
    status or with a body that is no JSON, it returns [True] and writes
    nothing to the console. *)
Theorem setup_gemini_accepts_failed_request key w :
  request_failed (gemini (gemini_url key) (json_dumps (gemini_payload "Hello"))) ->
  setup_gemini gemini json_dumps json_dumps_indent status_error py_str key w
  = (Return true, w).
Proof.
  intros Hfailed. destruct (call_on_failure "Hello" key Hfailed) as (text & Hcall & Htext).
  unfold setup_gemini, try_except, mbind, M_bind, lift. rewrite Hcall. simpl.
  rewrite (handler_text_usable _ Htext). reflexivity.
Qed.

(** X23.  [generate_project_files] does not report a failed request: the
    text of the handler is parsed as if it were the generated project, so
    that the function returns files, never [None], and never an empty
    dictionary.  The console gets only what the parser writes. *)
Theorem generate_project_files_parses_failure_text prompt key w :
  request_failed (gemini (gemini_url key) (json_dumps (gemini_payload prompt))) ->
  exists text files,
    call_gemini_api gemini json_dumps json_dumps_indent status_error prompt key
    = Return (JStr text) /\
    handler_text text /\
    parse_project_files text w = (Return files, (parse_project_files text w).2) /\
    files <> ∅ /\
    generate_project_files gemini json_dumps json_dumps_indent status_error py_str
      prompt (Some key) w
    = (Return (Some files), (parse_project_files text w).2).
Proof.
  intros Hfailed. destruct (call_on_failure prompt key Hfailed) as (text & Hcall & Htext).
  assert (Hparsed : exists files,
             (parse_project_files text w).1 = Return files /\ files <> ∅).
  { destruct (file_blocks_matches text) as [|block blocks] eqn:Hblocks.
    - destruct (decide (lenient_files text = ∅)) as [Hempty | Hlenient].
      + exists placeholder_files.
        split; [apply parse_placeholders; assumption | apply placeholder_files_nonempty].
      + exists (lenient_files text). split; [apply parse_lenient; assumption | exact Hlenient].
    - rewrite (parse_strict text w block blocks Hblocks).
      eexists. split; [reflexivity | apply store_blocks_nonempty]. }
  destruct Hparsed as (files & Hfiles & Hnonempty).
  exists text, files. split; [exact Hcall|]. split; [exact Htext|].
  assert (Hrun : parse_project_files text w = (Return files, (parse_project_files text w).2)).
  { destruct (parse_project_files text w) as [o w']. simpl in *. rewrite Hfiles. reflexivity. }
  split; [exact Hrun|]. split; [exact Hnonempty|].
  unfold generate_project_files, try_except, mbind, M_bind, lift. rewrite Hcall. simpl.
  rewrite (handler_text_usable _ Htext). simpl.
  unfold mbind, M_bind. rewrite Hrun. reflexivity.
Qed.

(** X24.  [generate_enhanced_content] hands the text of a failed request to
    its caller as the content: the value is one of the texts of the handlers,
    the console is untouched, and the caller's test for an error does not
    recognise it.  Without a key the function returns a text that the test
    does recognise. *)
Theorem generate_enhanced_content_returns_failure_text prompt key w :
  request_failed (gemini (gemini_url key) (json_dumps (gemini_payload prompt))) ->
  (exists text,
      generate_enhanced_content gemini json_dumps json_dumps_indent status_error
        prompt (Some key) w
      = (Return (JStr text), w) /\
      handler_text text /\
      usable (JStr text) = Return true) /\
  generate_enhanced_content gemini json_dumps json_dumps_indent status_error prompt None w
  = (Return (JStr no_key_configured), w) /\
  usable (JStr no_key_configured) = Return false.
Proof.
  intros Hfailed. destruct (call_on_failure prompt key Hfailed) as (text & Hcall & Htext).
  split; [|split; reflexivity].
  exists text. split; [|split; [exact Htext | apply handler_text_usable, Htext]].
  unfold generate_enhanced_content, try_except, mbind, M_bind, lift. rewrite Hcall. simpl.
  rewrite (handler_text_usable _ Htext). reflexivity.
Qed.

End GeminiFailures.

Lemma recognised_error_needs_json_answer_witness :
  exists r result,
    r = no_candidates /\ json_body r = Return result /\
    has_text result = Return false.
Proof.
  destruct (recognised_error_needs_json_answer (fun _ _ => Return no_candidates)
              scalar_str scalar_str status_text "Hello" "key"
              ("Error: No content generated. API Response: " ++ scalar_str (JObj []))
              eq_refl eq_refl)
    as (r & result & Hanswer & _ & Hbody & [[Hnone _] | [Hsome _]]).
  - exists r, result. injection Hanswer as <-. repeat split; assumption.
  - exfalso. injection Hanswer as <-. injection Hbody as <-. discriminate Hsome.
Defined.

Lemma setup_gemini_accepts_failed_request_witness :
  setup_gemini (fun _ _ => Return bad_request) scalar_str scalar_str status_text scalar_str
    "not-a-key" example_world
  = (Return true, example_world).
Proof.
  apply (setup_gemini_accepts_failed_request (fun _ _ => Return bad_request)
           scalar_str scalar_str status_text scalar_str "not-a-key" example_world).
  left. simpl. lia.
Defined.

Lemma generate_project_files_parses_failure_text_witness :
  exists files,
    (generate_project_files unreachable scalar_str scalar_str status_text scalar_str
       "Create a complete web application." (Some "key") example_world).1
    = Return (Some files) /\ files <> ∅.
Proof.
  destruct (generate_project_files_parses_failure_text unreachable scalar_str scalar_str
              status_text scalar_str "Create a complete web application." "key"
              example_world eq_refl)
    as (text & files & _ & _ & _ & Hnonempty & Hgenerated).
  exists files. rewrite Hgenerated. split; [reflexivity | exact Hnonempty].
Defined.

Lemma generate_enhanced_content_returns_failure_text_witness :
  exists text,
    generate_enhanced_content (fun _ _ => Return server_error) scalar_str scalar_str
      status_text "Write an article about gardening." (Some "key") example_world
    = (Return (JStr text), example_world) /\
    usable (JStr text) = Return true.
Proof.
  destruct (generate_enhanced_content_returns_failure_text
              (fun _ _ => Return server_error) scalar_str scalar_str status_text
              "Write an article about gardening." "key" example_world)
    as [(text & Hcontent & _ & Husable) _].
  - left. simpl. lia.
  - exists text. split; [exact Hcontent | exact Husable].
Defined.
